(** * LearnLoop backend: feeds, comments and the report ledger

    A shallow embedding of the feed controller ([getHomeFeed],
    [getTopicFeed], [getAuthorFeed]), the comments controller
    ([createComment], [listCommentsForPost], [getCommentById],
    [updateComment], [deleteComment]), the contact form and the bootstrap
    script of the LearnLoop backend over a relational store whose tables
    are lists of rows, together with the moderation ledger (report
    submission, unhide, dismiss), and the properties of the visibility
    policy, ordering, pagination and refusals that hold of them.

    The handlers reach the store through an ORM client, inside [try]. A
    query that the client or the database refuses (a number beyond the
    type of its column, a text that spells no uuid, a row the
    constraints exclude) throws, and the handler answers 500 from its
    [catch]. *)

From Stdlib Require Import ZArith List String Ascii DecimalString Bool Lia.
From Stdlib Require Import Permutation Sorted.
Import ListNotations.
Local Open Scope Z_scope.

Set Implicit Arguments.

(** ** JavaScript values used by the controllers *)

Module Js.

(** [x || d] on the outcome of [parseInt]: [None] stands for [NaN] (a
    missing or non-numeric parameter); [NaN] and [0] are falsy. *)
Definition orElse (x : option Z) (d : Z) : Z :=
  match x with
  | None => d
  | Some 0 => d
  | Some v => v
  end.

(** Truthiness of an optional string such as [req.user?.id]. *)
Definition truthy (s : option string) : bool :=
  match s with
  | None => false
  | Some EmptyString => false
  | Some _ => true
  end.

(** [a === b] where [a] may be [undefined] and [b] is a string. *)
Definition strictEq (a : option string) (b : string) : bool :=
  match a with
  | None => false
  | Some s => String.eqb s b
  end.

Section ArraySort.
Variable A : Type.
(** A comparator as passed to [Array.prototype.sort]: negative when
    the first argument goes first, positive when the second does. *)
Variable cmp : A -> A -> Z.

Fixpoint insert (x : A) (l : list A) : list A :=
  match l with
  | [] => [x]
  | y :: l' => if cmp x y <=? 0 then x :: y :: l' else y :: insert x l'
  end.

(** [Array.prototype.sort] is a stable sort: elements that compare
    equal keep their relative order. *)
Definition sort (l : list A) : list A := fold_right insert [] l.

(** [a] may stand before [b] in the sorted array. *)
Definition precedes (a b : A) : Prop := cmp a b <= 0.
End ArraySort.

End Js.

(** ** Uuid values

    The [id] of a user and the columns that refer to it are of type
    [UUID]. The database compares them as values and hands them back in
    lower case; a query spells one as text. *)

Module Uuid.

(** A hexadecimal digit in either case, and its lower-case form. *)
Definition isHex (c : ascii) : bool :=
  let n := N_of_ascii c in
  (((48 <=? n) && (n <=? 57)) || ((97 <=? n) && (n <=? 102))
   || ((65 <=? n) && (n <=? 70)))%N.

Definition lower (c : ascii) : ascii :=
  let n := N_of_ascii c in
  if ((65 <=? n) && (n <=? 70))%N then ascii_of_N (n + 32) else c.

(** [n] hexadecimal digits at the head of [s], in lower case, and what
    follows them. *)
Fixpoint digits (n : nat) (s : string) : option (string * string) :=
  match n, s with
  | O, _ => Some (EmptyString, s)
  | S n', String c s' =>
    if isHex c
    then match digits n' s' with
         | Some (d, rest) => Some (String (lower c) d, rest)
         | None => None
         end
    else None
  | S _, EmptyString => None
  end.

(** One more group of [n] digits, or one more hyphen, after what was
    read so far. *)
Definition group (n : nat) (acc : option (string * string))
  : option (string * string) :=
  match acc with
  | Some (read, s) =>
    match digits n s with
    | Some (d, rest) => Some ((read ++ d)%string, rest)
    | None => None
    end
  | None => None
  end.

Definition hyphen (acc : option (string * string)) : option (string * string) :=
  match acc with
  | Some (read, String c rest) =>
    if Ascii.eqb c "-" then Some ((read ++ "-")%string, rest) else None
  | _ => None
  end.

(** The value a text spells: five groups of 8, 4, 4, 4 and 12
    hexadecimal digits in either case, joined by hyphens, given in the
    lower-case spelling the database stores and returns. [None] for a
    text that is not read as a uuid; a query that carries one throws. *)
Definition parse (s : string) : option string :=
  match group 12 (hyphen (group 4 (hyphen (group 4 (hyphen (group 4 (hyphen
          (group 8 (Some (EmptyString, s)))))))))) with
  | Some (read, EmptyString) => Some read
  | _ => None
  end.

(** [column = text] as the database decides it: both spell the same
    value. *)
Definition eqb (a b : string) : bool :=
  match parse a, parse b with
  | Some x, Some y => String.eqb x y
  | _, _ => false
  end.

End Uuid.

(** ** Schema (prisma models)

    The tables of the initial migration with the columns the moderation
    phase added: [isAdmin] on users, [isHidden] on posts and comments, and
    the report table. *)

Module User.
Record t := mk
  { id : string; username : string; learningScore : Z; isAdmin : bool }.
End User.

Module Topic.
Record t := mk { id : Z; name : string }.
End Topic.

Module Post.
Record t := mk
  { id : Z;
    title : string;
    content : string;
    authorId : string;
    primaryTopicId : Z;
    createdAt : Z;              (* milliseconds since the epoch *)
    deletedAt : option Z;       (* soft delete; [None] is SQL NULL *)
    isHidden : bool }.
End Post.

Module Comment.
Record t := mk
  { id : Z;
    content : string;
    authorId : string;
    postId : Z;
    createdAt : Z;
    isHidden : bool }.
End Comment.

Module Vote.
Record t := mk
  { id : Z; userId : string; postId : option Z; commentId : option Z }.
End Vote.

Module SavedPost.
Record t := mk { userId : string; postId : Z }.
End SavedPost.

Inductive ReportReason :=
| SPAM | INAPPROPRIATE | HARASSMENT | MISINFORMATION | OFF_TOPIC | OTHER.

Module Report.
Record t := mk
  { id : Z;
    reporterId : string;
    postId : option Z;
    commentId : option Z;
    reason : ReportReason;
    details : option string;
    createdAt : Z }.
End Report.

(** The store: one list of rows per table. *)
Module Db.
Record t := mk
  { users : list User.t;
    topics : list Topic.t;
    posts : list Post.t;
    comments : list Comment.t;
    votes : list Vote.t;
    savedPosts : list SavedPost.t;
    reports : list Report.t }.
End Db.

(** ** The ORM queries the controllers issue *)

Module Prisma.

Definition isNull (A : Type) (x : option A) : bool :=
  match x with None => true | Some _ => false end.

Definition optZ_eqb (x : option Z) (y : Z) : bool :=
  match x with Some v => v =? y | None => false end.

(** An [INTEGER] column holds a 32-bit signed value; a query that
    carries any other number for one throws. *)
Definition int4 (z : Z) : bool := (- 2 ^ 31 <=? z) && (z <? 2 ^ 31).

(** [skip] and [take] are read as 64-bit signed integers; a query whose
    [skip] or [take] does not fit throws. *)
Definition int8 (z : Z) : bool := (- 2 ^ 63 <=? z) && (z <? 2 ^ 63).

Definition pageAccepted (skip take : Z) : bool := int8 skip && int8 take.

(** [skip] rows are dropped and [take] rows kept from the ordered
    result; a negative [take] counts from the end of the ordered
    result instead (the order is reversed, the window cut, and the
    rows handed back in the requested order). Of [skip] the low 32 bits
    count: [2^32] skips nothing. *)
Definition window (A : Type) (skip take : Z) (rows : list A) : list A :=
  let skip := skip mod 2 ^ 32 in
  if take <? 0
  then rev (firstn (Z.to_nat (- take)) (skipn (Z.to_nat skip) (rev rows)))
  else firstn (Z.to_nat take) (skipn (Z.to_nat skip) rows).

(** The rows of an accepted query. The list of a table is the order in
    which the database yields its rows; rows that [orderBy] leaves tied
    come in that order, which a write may change. *)
Definition findMany (A : Type) (where_ : A -> bool) (orderBy : A -> A -> Z)
           (skip take : Z) (table : list A) : list A :=
  window skip take (Js.sort orderBy (filter where_ table)).

Definition findFirst (A : Type) (where_ : A -> bool) (table : list A)
  : option A := find where_ table.

Definition count (A : Type) (where_ : A -> bool) (table : list A) : Z :=
  Z.of_nat (List.length (filter where_ table)).

End Prisma.

(** ** Requests and responses *)

(** [req.user] as set by the authentication middleware, which is not
    among the sources: [au_id] is the [id] of the user's row as the
    database spells it. *)
Record AuthUser := mkAuthUser { au_id : string; au_isAdmin : bool }.

(** [req.query.limit] and [req.query.offset], each given by what
    [parseInt] yields on it. *)
Record Query := mkQuery { q_limit : option Z; q_offset : option Z }.

Inductive Response (B : Type) :=
| Ok (body : B)
| Error (status : Z) (error : string).
Arguments Error {B} status%_Z error%_string.

Record Pagination := mkPagination
  { pg_limit : Z; pg_offset : Z; hasMore : bool }.

(** ** Feed controller (feedController.js) *)

Module Feed.

(** The [select]ed columns of an included author. *)
Record Author := mkAuthor
  { a_id : string; a_username : string; a_learningScore : Z }.

(** One element of [enrichedPosts]. *)
Record Item := mkItem
  { id : Z;
    title : string;
    content : string;
    createdAt : Z;
    author : option Author;
    primaryTopic : option Topic.t;
    voteCount : Z;
    commentCount : Z;
    hasVoted : bool;
    isSaved : bool;
    userVoteId : option Z;
    isHidden : bool }.

Record Body := mkBody
  { topic : option Topic.t;
    profile : option Author;
    posts : list Item;
    pagination : Pagination }.

Record Request := mkRequest
  { user : option AuthUser;
    topicId : option Z;         (* parseInt(req.params.topicId) *)
    authorId : string;          (* req.params.authorId *)
    query : Query }.

Definition selectAuthor (u : User.t) : Author :=
  mkAuthor (User.id u) (User.username u) (User.learningScore u).

(** The user with a given id, as [user.findUnique] finds it and as the
    [author] relation of a row does. *)
Definition findAuthor (db : Db.t) (uid : string) : option Author :=
  option_map selectAuthor
    (Prisma.findFirst (fun u => Uuid.eqb uid (User.id u)) (Db.users db)).

(** [orderBy: [{ createdAt: 'desc' }, { id: 'desc' }]] *)
Definition orderBy (a b : Post.t) : Z :=
  if Post.createdAt b =? Post.createdAt a
  then Post.id b - Post.id a
  else Post.createdAt b - Post.createdAt a.

(** The comparator of [enrichedPosts.sort]. *)
Definition compare (a b : Item) : Z :=
  let timeCompare := createdAt b - createdAt a in
  if negb (timeCompare =? 0) then timeCompare
  else voteCount b - voteCount a.

(** The body of [posts.map(async (post) => ...)]. *)
Definition enrich (db : Db.t) (userId : option string) (post : Post.t) : Item :=
  let voteCount :=
    Prisma.count (fun v => Prisma.optZ_eqb (Vote.postId v) (Post.id post))
                 (Db.votes db) in
  let vote :=
    if Js.truthy userId
    then Prisma.findFirst
           (fun v => Js.strictEq userId (Vote.userId v)
                     && Prisma.optZ_eqb (Vote.postId v) (Post.id post))
           (Db.votes db)
    else None in
  let saved :=
    if Js.truthy userId
    then Prisma.findFirst
           (fun s => Js.strictEq userId (SavedPost.userId s)
                     && (SavedPost.postId s =? Post.id post))
           (Db.savedPosts db)
    else None in
  {| id := Post.id post;
     title := Post.title post;
     content := Post.content post;
     createdAt := Post.createdAt post;
     author := findAuthor db (Post.authorId post);
     primaryTopic :=
       Prisma.findFirst (fun t => Topic.id t =? Post.primaryTopicId post)
                        (Db.topics db);
     voteCount := voteCount;
     commentCount :=
       Prisma.count (fun c => Comment.postId c =? Post.id post) (Db.comments db);
     hasVoted := negb (Prisma.isNull vote);
     isSaved := negb (Prisma.isNull saved);
     userVoteId := option_map Vote.id vote;
     isHidden := Post.isHidden post |}.

Definition effectiveLimit (q : Query) : Z := Z.min (Js.orElse (q_limit q) 20) 100.
Definition effectiveOffset (q : Query) : Z := Js.orElse (q_offset q) 0.

Definition invalidPagination (limit offset : Z) : bool :=
  (limit <? 1) || (offset <? 0).

Definition userIdOf (req : Request) : option string := option_map au_id (user req).
Definition isAdminOf (req : Request) : bool :=
  match user req with Some u => au_isAdmin u | None => false end.

(** The [where] objects of the three queries. *)
Definition homeWhere (isAdmin : bool) (p : Post.t) : bool :=
  Prisma.isNull (Post.deletedAt p)
  && (if isAdmin then true else negb (Post.isHidden p)).

Definition topicWhere (topicId : Z) (isAdmin : bool) (p : Post.t) : bool :=
  (Post.primaryTopicId p =? topicId)
  && Prisma.isNull (Post.deletedAt p)
  && (if isAdmin then true else negb (Post.isHidden p)).

Definition authorWhere (authorId : string) (showHidden : bool) (p : Post.t) : bool :=
  Uuid.eqb authorId (Post.authorId p)
  && Prisma.isNull (Post.deletedAt p)
  && (if showHidden then true else negb (Post.isHidden p)).

Definition showHidden (req : Request) : bool :=
  let isOwnProfile := Js.strictEq (userIdOf req) (authorId req) in
  isOwnProfile || isAdminOf req.

(** The rows a feed query returns, then the response built from them. *)
Definition page (db : Db.t) (where_ : Post.t -> bool) (limit offset : Z) : list Post.t :=
  Prisma.findMany where_ orderBy offset limit (Db.posts db).

Definition respond (db : Db.t) (req : Request) (topic : option Topic.t)
           (profile : option Author) (limit offset : Z) (rows : list Post.t) : Body :=
  {| topic := topic;
     profile := profile;
     posts := Js.sort compare (map (enrich db (userIdOf req)) rows);
     pagination :=
       {| pg_limit := limit;
          pg_offset := offset;
          hasMore := Z.of_nat (List.length rows) =? limit |} |}.

(** The vote and saved-post lookups run once for each row when [userId]
    is truthy; they throw when it is not the text of a uuid. *)
Definition lookupsThrow (userId : option string) (rows : list Post.t) : bool :=
  match userId, rows with
  | Some u, _ :: _ => Js.truthy userId && Prisma.isNull (Uuid.parse u)
  | _, _ => false
  end.

(** From [post.findMany] to the response, as all three handlers have it;
    what throws on the way is caught and answered 500 with the handler's
    message. *)
Definition fetch (db : Db.t) (req : Request) (failure : string)
           (topic : option Topic.t) (profile : option Author)
           (where_ : Post.t -> bool) (limit offset : Z) : Response Body :=
  if negb (Prisma.pageAccepted offset limit) then Error 500 failure
  else
    let rows := page db where_ limit offset in
    if lookupsThrow (userIdOf req) rows then Error 500 failure
    else Ok (respond db req topic profile limit offset rows).

Definition getHomeFeed (db : Db.t) (req : Request) : Response Body :=
  let limit := effectiveLimit (query req) in
  let offset := effectiveOffset (query req) in
  if invalidPagination limit offset
  then Error 400 "Invalid pagination parameters"
  else
    fetch db req "Failed to fetch home feed" None None
          (homeWhere (isAdminOf req)) limit offset.

Definition getTopicFeed (db : Db.t) (req : Request) : Response Body :=
  match topicId req with
  | None => Error 400 "Invalid topic ID"
  | Some topicId =>
    let limit := effectiveLimit (query req) in
    let offset := effectiveOffset (query req) in
    if invalidPagination limit offset
    then Error 400 "Invalid pagination parameters"
    else if negb (Prisma.int4 topicId)
    then Error 500 "Failed to fetch topic feed"
    else
      match Prisma.findFirst (fun t => Topic.id t =? topicId) (Db.topics db) with
      | None => Error 404 "Topic not found"
      | Some topic =>
        fetch db req "Failed to fetch topic feed" (Some topic) None
              (topicWhere topicId (isAdminOf req)) limit offset
      end
  end.

Definition getAuthorFeed (db : Db.t) (req : Request) : Response Body :=
  let limit := effectiveLimit (query req) in
  let offset := effectiveOffset (query req) in
  if invalidPagination limit offset
  then Error 400 "Invalid pagination parameters"
  else if Prisma.isNull (Uuid.parse (authorId req))
  then Error 500 "Failed to fetch author feed"
  else
    match findAuthor db (authorId req) with
    | None => Error 404 "Author not found"
    | Some author =>
      fetch db req "Failed to fetch author feed" None (Some author)
            (authorWhere (authorId req) (showHidden req)) limit offset
    end.

End Feed.

(** ** Comments controller (commentsController.js) *)

Module Comments.

(** A comment row with its [include]d relations. *)
Record View := mkView
  { comment : Comment.t;
    author : option Feed.Author;
    _count_votes : Z }.

Record Paging := mkPaging
  { total : Z; limit : Z; offset : Z; hasMore : bool }.

Record Body := mkBody
  { comments : list View;
    pagination : Paging }.

(** The route carries no authentication middleware; [user] is what an
    optional middleware would have put on the request, and the handler
    never reads it. *)
Record Request := mkRequest
  { user : option AuthUser;
    postId : option Z;          (* parseInt(req.params.postId, 10) *)
    query : Query }.

(** [orderBy: { createdAt: 'asc' }] *)
Definition orderBy (a b : Comment.t) : Z :=
  Comment.createdAt a - Comment.createdAt b.

Definition include (db : Db.t) (c : Comment.t) : View :=
  {| comment := c;
     author := Feed.findAuthor db (Comment.authorId c);
     _count_votes :=
       Prisma.count (fun v => Prisma.optZ_eqb (Vote.commentId v) (Comment.id c))
                    (Db.votes db) |}.

(** The answer of the [catch] block. *)
Definition failure : string := "Internal server error while fetching comments".

Definition parsedLimit (q : Query) : Z := Z.min (Js.orElse (q_limit q) 50) 100.
Definition parsedOffset (q : Query) : Z := Z.max (Js.orElse (q_offset q) 0) 0.

Definition listCommentsForPost (db : Db.t) (req : Request) : Response Body :=
  match postId req with
  | None => Error 400 "Invalid post ID format"
  | Some parsedPostId =>
    let parsedLimit := parsedLimit (query req) in
    let parsedOffset := parsedOffset (query req) in
    if negb (Prisma.int4 parsedPostId) then Error 500 failure
    else
      match Prisma.findFirst
              (fun p => (Post.id p =? parsedPostId)
                        && Prisma.isNull (Post.deletedAt p))
              (Db.posts db) with
      | None => Error 404 "Post not found"
      | Some _ =>
        if negb (Prisma.pageAccepted parsedOffset parsedLimit)
        then Error 500 failure
        else
          let where_ := fun c => Comment.postId c =? parsedPostId in
          let rows :=
            Prisma.findMany where_ orderBy parsedOffset parsedLimit (Db.comments db) in
          let totalCount := Prisma.count where_ (Db.comments db) in
          Ok {| comments := map (include db) rows;
                pagination :=
                  {| total := totalCount;
                     limit := parsedLimit;
                     offset := parsedOffset;
                     hasMore := parsedOffset + parsedLimit <? totalCount |} |}
      end
  end.

End Comments.

(** ** The visibility policy of the moderation rules *)

Module Visibility.

(** The viewer of a listing: [req.user] with the admin flag false when
    unauthenticated. *)
Definition viewerIsAdmin (viewer : option AuthUser) : bool :=
  match viewer with Some u => au_isAdmin u | None => false end.

(** The policy in the words of the moderation rules, to compare the
    queries with:
    [deletedAt IS NULL AND (isHidden = false OR <admin> OR authorId = viewer)] *)
Definition isVisible (hidden : bool) (deletedAt : option Z) (authorId : string)
           (viewer : option AuthUser) : bool :=
  Prisma.isNull deletedAt
  && (negb hidden
      || viewerIsAdmin viewer
      || Js.strictEq (option_map au_id viewer) authorId).

End Visibility.

(** ** Report ledger and auto-hide engine *)

Module Ledger.

(** Modelled from the spec: the failures of the ledger operations
    (error taxonomy of the absent reports controller). *)
Inductive Error := InvalidRequest | NotFound | Forbidden | Conflict.

(** Modelled from the spec: the content item a report is filed
    against, a post or a comment (absent reports controller). *)
Inductive Target := OnPost (postId : Z) | OnComment (commentId : Z).

(** Modelled from the spec: the request body of [POST /api/reports]
    (read by the absent reports controller). *)
Record Submission := mkSubmission
  { postId : option Z;
    commentId : option Z;
    reason : string;
    details : option string }.

(** Modelled from the spec: the auto-hide threshold, a fixed count of 5
    reports against one item (the reports controller is not among the
    sources). *)
Definition THRESHOLD : Z := 5.

(** Modelled from the spec: the reason must be one of the fixed
    enumerated set SPAM, INAPPROPRIATE, HARASSMENT, MISINFORMATION,
    OFF_TOPIC, OTHER (validation of the absent reports controller). *)
Definition parseReason (s : string) : option ReportReason :=
  if String.eqb s "SPAM" then Some SPAM
  else if String.eqb s "INAPPROPRIATE" then Some INAPPROPRIATE
  else if String.eqb s "HARASSMENT" then Some HARASSMENT
  else if String.eqb s "MISINFORMATION" then Some MISINFORMATION
  else if String.eqb s "OFF_TOPIC" then Some OFF_TOPIC
  else if String.eqb s "OTHER" then Some OTHER
  else None.

(** Modelled from the spec: exactly one of target-post and
    target-comment is set, never both, never neither (the absent reports
    controller resolves a request or a report row to its target so). *)
Definition targetOf (postId commentId : option Z) : option Target :=
  match postId, commentId with
  | Some p, None => Some (OnPost p)
  | None, Some c => Some (OnComment c)
  | _, _ => None
  end.

(** Modelled from the spec: "that exact target", equality of targets
    (absent reports controller). *)
Definition target_eqb (a b : Target) : bool :=
  match a, b with
  | OnPost p, OnPost q => p =? q
  | OnComment c, OnComment d => c =? d
  | _, _ => false
  end.

(** Modelled from the spec: a report row references a target through
    its [postId] or [commentId] column (the count and the bulk delete of
    the absent reports controller select rows so). *)
Definition references (t : Target) (r : Report.t) : bool :=
  match t with
  | OnPost p => Prisma.optZ_eqb (Report.postId r) p
  | OnComment c => Prisma.optZ_eqb (Report.commentId r) c
  end.

(** Modelled from the spec: the live report count of an item is the
    count of report rows referencing it, not filtered by any per-report
    state (the [tx.report.count] of the absent reports controller). *)
Definition reportCount (db : Db.t) (t : Target) : Z :=
  Prisma.count (references t) (Db.reports db).

(** Modelled from the spec: a prior report by this reporter against
    this exact target (duplicate check of the absent reports
    controller). *)
Definition byReporter (reporterId : string) (t : Target) (r : Report.t) : bool :=
  String.eqb (Report.reporterId r) reporterId && references t r.

(** Modelled from the spec: the author of the target when it exists and
    is not soft-deleted (lookup of the absent reports controller;
    comments carry no soft-delete column). *)
Definition liveAuthor (db : Db.t) (t : Target) : option string :=
  match t with
  | OnPost p =>
    option_map Post.authorId
      (Prisma.findFirst (fun x => (Post.id x =? p) && Prisma.isNull (Post.deletedAt x))
                        (Db.posts db))
  | OnComment c =>
    option_map Comment.authorId
      (Prisma.findFirst (fun x => Comment.id x =? c) (Db.comments db))
  end.

(** Modelled from the spec: the hidden flag of a content item, [None]
    when the item does not exist (read by the absent reports
    controller). *)
Definition hiddenOf (db : Db.t) (t : Target) : option bool :=
  match t with
  | OnPost p =>
    option_map Post.isHidden (Prisma.findFirst (fun x => Post.id x =? p) (Db.posts db))
  | OnComment c =>
    option_map Comment.isHidden
      (Prisma.findFirst (fun x => Comment.id x =? c) (Db.comments db))
  end.

(** Modelled from the spec: the row update behind [setHidden] for a
    post (absent reports controller). *)
Definition hidePost (b : bool) (p : Z) (x : Post.t) : Post.t :=
  if Post.id x =? p
  then Post.mk (Post.id x) (Post.title x) (Post.content x) (Post.authorId x)
               (Post.primaryTopicId x) (Post.createdAt x) (Post.deletedAt x) b
  else x.

(** Modelled from the spec: the row update behind [setHidden] for a
    comment (absent reports controller). *)
Definition hideComment (b : bool) (c : Z) (x : Comment.t) : Comment.t :=
  if Comment.id x =? c
  then Comment.mk (Comment.id x) (Comment.content x) (Comment.authorId x)
                  (Comment.postId x) (Comment.createdAt x) b
  else x.

(** Modelled from the spec: set hidden on the item (the
    [tx.post.update] / [tx.comment.update] of the absent reports
    controller), every other column and row unchanged. *)
Definition setHidden (b : bool) (t : Target) (db : Db.t) : Db.t :=
  match t with
  | OnPost p =>
    Db.mk (Db.users db) (Db.topics db) (map (hidePost b p) (Db.posts db))
          (Db.comments db) (Db.votes db) (Db.savedPosts db) (Db.reports db)
  | OnComment c =>
    Db.mk (Db.users db) (Db.topics db) (Db.posts db)
          (map (hideComment b c) (Db.comments db)) (Db.votes db)
          (Db.savedPosts db) (Db.reports db)
  end.

(** Modelled from the spec: the store with its report table replaced
    (insert and bulk delete of the absent reports controller). *)
Definition withReports (rs : list Report.t) (db : Db.t) : Db.t :=
  Db.mk (Db.users db) (Db.topics db) (Db.posts db) (Db.comments db)
        (Db.votes db) (Db.savedPosts db) rs.

(** Modelled from the spec: the identifier of a new report, the next
    value of the autoincrement key of the report table (assigned on
    insert by the absent reports controller). *)
Definition nextReportId (db : Db.t) : Z :=
  1 + fold_right (fun r m => Z.max (Report.id r) m) 0 (Db.reports db).

(** Modelled from the spec: the effect of submit report, one atomic
    unit (the reports controller is not among the sources): insert the
    report row, recompute the count of rows referencing the target, and
    if the count is at least 5 and the hidden flag is currently false
    set it to true. *)
Definition afterSubmit (db : Db.t) (t : Target) (report : Report.t) : Db.t :=
  let db1 := withReports (Db.reports db ++ [report]) db in
  let count := reportCount db1 t in
  match hiddenOf db1 t with
  | Some false => if THRESHOLD <=? count then setHidden true t db1 else db1
  | _ => db1
  end.

(** Modelled from the spec: submit report (the reports controller is not
    among the sources). Validation in order: exactly one target, else
    InvalidRequest; reason in the enumerated set, else InvalidRequest;
    target exists and is not soft-deleted, else NotFound; reporter is
    not the target's author, else Forbidden; no prior report by this
    reporter against this target, else Conflict. Then the effect
    [afterSubmit]; a failed submission leaves the store as it was. *)
Definition submitReport (db : Db.t) (reporterId : string) (now : Z)
           (s : Submission) : Db.t * (Error + Report.t) :=
  match targetOf (postId s) (commentId s) with
  | None => (db, inl InvalidRequest)
  | Some t =>
    match parseReason (reason s) with
    | None => (db, inl InvalidRequest)
    | Some why =>
      match liveAuthor db t with
      | None => (db, inl NotFound)
      | Some author =>
        if String.eqb reporterId author then (db, inl Forbidden)
        else if existsb (byReporter reporterId t) (Db.reports db)
        then (db, inl Conflict)
        else
          let report :=
            Report.mk (nextReportId db) reporterId (postId s) (commentId s)
                      why (details s) now in
          (afterSubmit db t report, inr report)
      end
    end
  end.

(** Modelled from the spec: submissions taken one after the other, each
    an atomic unit of its own; [None] when one of them is refused. *)
Fixpoint submitAll (db : Db.t) (subs : list (string * Z * Submission))
  : option Db.t :=
  match subs with
  | [] => Some db
  | (reporterId, now, s) :: rest =>
    match submitReport db reporterId now s with
    | (db', inr _) => submitAll db' rest
    | (_, inl _) => None
    end
  end.

(** Modelled from the spec: resolve a report id to its target item;
    NotFound when the report or the target is missing (shared by unhide
    and dismiss of the absent reports controller). *)
Definition resolve (db : Db.t) (reportId : Z) : option Target :=
  match Prisma.findFirst (fun r => Report.id r =? reportId) (Db.reports db) with
  | None => None
  | Some r =>
    match targetOf (Report.postId r) (Report.commentId r) with
    | None => None
    | Some t => match hiddenOf db t with None => None | Some _ => Some t end
    end
  end.

(** Modelled from the spec: unhide sets hidden = false on the target
    and does not touch report rows (absent reports controller). *)
Definition unhide (db : Db.t) (reportId : Z) : Db.t * (Error + Target) :=
  match resolve db reportId with
  | None => (db, inl NotFound)
  | Some t => (setHidden false t db, inr t)
  end.

(** Modelled from the spec: dismiss deletes every report row referencing
    the target and sets hidden = false on it, as one atomic unit (absent
    reports controller). *)
Definition dismiss (db : Db.t) (reportId : Z) : Db.t * (Error + Target) :=
  match resolve db reportId with
  | None => (db, inl NotFound)
  | Some t =>
    let db1 := withReports (filter (fun r => negb (references t r)) (Db.reports db)) db in
    (setHidden false t db1, inr t)
  end.

(** Modelled from the spec: the operations that write the hidden flag
    or the report table (endpoints of the absent reports controller). *)
Inductive Op :=
| Submit (reporterId : string) (now : Z) (s : Submission)
| Unhide (reportId : Z)
| Dismiss (reportId : Z).

(** Modelled from the spec: the store an operation leaves behind
    (absent reports controller). *)
Definition run (op : Op) (db : Db.t) : Db.t :=
  match op with
  | Submit reporterId now s => fst (submitReport db reporterId now s)
  | Unhide reportId => fst (unhide db reportId)
  | Dismiss reportId => fst (dismiss db reportId)
  end.

(** Modelled from the spec: the invariant of the moderated items, no
    item stays unhidden with its report count at or above the threshold
    (kept by the absent reports controller between admin overrides). *)
Definition hiddenAboveThreshold (db : Db.t) : Prop :=
  forall t, hiddenOf db t = Some false -> reportCount db t < THRESHOLD.

End Ledger.

(** ** The three feeds side by side *)

Module Feeds.

Inductive Endpoint := Home | ByTopic | ByAuthor.

Definition handler (e : Endpoint) : Db.t -> Feed.Request -> Response Feed.Body :=
  match e with
  | Home => Feed.getHomeFeed
  | ByTopic => Feed.getTopicFeed
  | ByAuthor => Feed.getAuthorFeed
  end.

(** The [where] object an endpoint builds for a request. *)
Definition whereOf (e : Endpoint) (req : Feed.Request) (p : Post.t) : bool :=
  match e with
  | Home => Feed.homeWhere (Feed.isAdminOf req) p
  | ByTopic =>
    match Feed.topicId req with
    | Some topicId => Feed.topicWhere topicId (Feed.isAdminOf req) p
    | None => false
    end
  | ByAuthor => Feed.authorWhere (Feed.authorId req) (Feed.showHidden req) p
  end.

(** The rows its query returns. *)
Definition rows (e : Endpoint) (db : Db.t) (req : Feed.Request) : list Post.t :=
  Feed.page db (whereOf e req)
            (Feed.effectiveLimit (Feed.query req))
            (Feed.effectiveOffset (Feed.query req)).

(** Creation time descending, then vote count descending. *)
Definition ordered (a b : Feed.Item) : Prop :=
  Feed.createdAt b < Feed.createdAt a
  \/ (Feed.createdAt a = Feed.createdAt b /\ Feed.voteCount b <= Feed.voteCount a).

Definition ids (body : Feed.Body) : list Z := map Feed.id (Feed.posts body).

(** The posts of an author that are not soft-deleted, hidden or not. *)
Definition liveBy (authorId : string) (p : Post.t) : bool :=
  Uuid.eqb authorId (Post.authorId p) && Prisma.isNull (Post.deletedAt p).

(** The viewer is an admin or the author being browsed. *)
Definition privileged (req : Feed.Request) : Prop :=
  Feed.isAdminOf req = true \/ Feed.userIdOf req = Some (Feed.authorId req).

(** The same request for the page that follows. *)
Definition nextPage (req : Feed.Request) : Feed.Request :=
  Feed.mkRequest (Feed.user req) (Feed.topicId req) (Feed.authorId req)
    (mkQuery (Some (Feed.effectiveLimit (Feed.query req)))
             (Some (Feed.effectiveOffset (Feed.query req)
                    + Feed.effectiveLimit (Feed.query req)))).

End Feeds.

(** ** Sample stores and requests *)

Module Sample.
Local Open Scope string_scope.

Definition aliceId : string := "a11ce000-0000-4000-8000-000000000001".
Definition bobId : string := "b0b00000-0000-4000-8000-000000000002".
Definition rootId : string := "00000000-0000-4000-8000-000000000003".

Definition alice : User.t := User.mk aliceId "alice" 12 false.
Definition bob : User.t := User.mk bobId "bob" 7 false.
Definition root : User.t := User.mk rootId "root" 0 true.

Definition asAlice : option AuthUser := Some (mkAuthUser aliceId false).
Definition asBob : option AuthUser := Some (mkAuthUser bobId false).
Definition asRoot : option AuthUser := Some (mkAuthUser rootId true).

Definition react : Topic.t := Topic.mk 1 "React".

(** A post of alice's that moderation has hidden, one she has
    soft-deleted, and a plain post of bob's. *)
Definition hiddenPost : Post.t :=
  Post.mk 1 "Closures" "..." aliceId 1 1000 None true.
Definition deletedPost : Post.t :=
  Post.mk 2 "Drafts" "..." aliceId 1 2000 (Some 2500) false.
Definition plainPost : Post.t :=
  Post.mk 3 "Hooks" "..." bobId 1 3000 None false.

Definition db : Db.t :=
  Db.mk [alice; bob; root] [react] [hiddenPost; deletedPost; plainPost]
        [] [] [] [].

Definition defaults : Query := mkQuery None None.

Definition feedRequest (viewer : option AuthUser) : Feed.Request :=
  Feed.mkRequest viewer (Some 1) aliceId defaults.

(** Two posts created in the same millisecond; the older id has the
    votes. *)
Definition quiet : Post.t := Post.mk 2 "Quiet" "..." aliceId 1 5000 None false.
Definition loud : Post.t := Post.mk 1 "Loud" "..." aliceId 1 5000 None false.

Definition tied : Db.t :=
  Db.mk [alice; bob; root] [react] [loud; quiet] []
        [Vote.mk 1 bobId (Some 1) None; Vote.mk 2 rootId (Some 1) None]
        [] [].

Definition pageOf (limit offset : Z) : Feed.Request :=
  Feed.mkRequest None (Some 1) aliceId (mkQuery (Some limit) (Some offset)).

(** alice's id as a client may spell it in a URL, and her request for
    her own profile under that spelling. *)
Definition aliceShouted : string := "A11CE000-0000-4000-8000-000000000001".

Definition ownProfileShouted : Feed.Request :=
  Feed.mkRequest asAlice (Some 1) aliceShouted defaults.

(** A post with three comments, the second hidden by moderation. *)
Definition c1 : Comment.t := Comment.mk 1 "first comment on closures" bobId 3 100 false.
Definition c2 : Comment.t := Comment.mk 2 "second comment, reported" aliceId 3 200 true.
Definition c3 : Comment.t := Comment.mk 3 "third comment on closures" bobId 3 300 false.

Definition thread : Db.t :=
  Db.mk [alice; bob; root] [react] [plainPost] [c1; c2; c3] [] [] [].

Definition commentsRequest (viewer : option AuthUser) (limit : option Z)
  : Comments.Request :=
  Comments.mkRequest viewer (Some 3) (mkQuery limit None).


(** bob's post with four reports against it, and the report a fifth
    user files. *)
Definition reportBy (n : Z) (who : string) : Report.t :=
  Report.mk n who (Some 3) None SPAM None (1000 + n).

Definition reported : Db.t :=
  Db.mk [alice; bob; root] [react] [plainPost] [] [] []
        [reportBy 1 "u-carol"; reportBy 2 "u-dave";
         reportBy 3 "u-erin"; reportBy 4 "u-frank"].

Definition spam : Ledger.Submission :=
  Ledger.mkSubmission (Some 3) None "SPAM" None.

Definition fifth : Ledger.Op := Ledger.Submit "u-alice" 9000 spam.

Definition hiddenAfterFifth : Db.t := Ledger.run fifth reported.

End Sample.

(** ** JavaScript strings

    A string is its sequence of code units; the strings here have code
    units below 256, one [ascii] each. *)

Module JsString.

(** WhiteSpace and LineTerminator code units (tab, line feed, vertical
    tab, form feed, carriage return, space, no-break space): what
    [String.prototype.trim] strips and [\s] matches. *)
Definition isWhiteSpace (c : ascii) : bool :=
  let n := N_of_ascii c in
  ((n =? 9) || (n =? 10) || (n =? 11) || (n =? 12) || (n =? 13)
   || (n =? 32) || (n =? 160))%N.

Fixpoint trimStart (s : string) : string :=
  match s with
  | EmptyString => EmptyString
  | String c s' => if isWhiteSpace c then trimStart s' else s
  end.

Fixpoint trimEnd (s : string) : string :=
  match s with
  | EmptyString => EmptyString
  | String c s' =>
    match trimEnd s' with
    | EmptyString => if isWhiteSpace c then EmptyString else String c EmptyString
    | t => String c t
    end
  end.

(** [s.trim()] *)
Definition trim (s : string) : string := trimEnd (trimStart s).

(** [!s] for a value that is a string or missing: [undefined], [null]
    and the empty string are falsy. *)
Definition falsy (s : option string) : bool :=
  match s with
  | None => true
  | Some EmptyString => true
  | Some _ => false
  end.

(** The first and the last code unit of a string. *)
Definition first (s : string) : option ascii :=
  match s with EmptyString => None | String c _ => Some c end.

Fixpoint last (s : string) : option ascii :=
  match s with
  | EmptyString => None
  | String c EmptyString => Some c
  | String _ s' => last s'
  end.

(** The string holds the code unit 0, which a [TEXT] column refuses. *)
Fixpoint hasNul (s : string) : bool :=
  match s with
  | EmptyString => false
  | String c s' => (N_of_ascii c =? 0)%N || hasNul s'
  end.

(** A number in a template literal. *)
Definition ofNat (n : nat) : string := NilEmpty.string_of_uint (Nat.to_uint n).

End JsString.

(** ** Comments controller: create, read, update, delete *)

Module CommentsCrud.

Definition MIN_CONTENT_LENGTH : nat := 20.

(** [req.body.postId]: missing, the empty string, a number given by
    whether it is falsy (0 or [NaN]) and by what [parseInt] yields on its
    text, or a non-empty string given by what [parseInt] yields on it. *)
Inductive BodyId :=
| IdMissing
| IdEmptyText
| IdNumber (isFalsy : bool) (parsed : option Z)
| IdText (parsed : option Z).

(** [!postId] *)
Definition falsyId (i : BodyId) : bool :=
  match i with
  | IdMissing | IdEmptyText => true
  | IdNumber isFalsy _ => isFalsy
  | IdText _ => false
  end.

(** [parseInt(postId, 10)] *)
Definition parseIntId (i : BodyId) : option Z :=
  match i with
  | IdMissing | IdEmptyText => None
  | IdNumber _ parsed => parsed
  | IdText parsed => parsed
  end.

(** [req.body.content] is [None] when missing or not a string. *)
Record CreateRequest := mkCreate
  { c_user : AuthUser;
    c_content : option string;
    c_postId : BodyId }.

Record Created := mkCreated
  { created : Comment.t;
    createdAuthor : option Feed.Author }.

Definition tooShort (trimmedContent : string) : string :=
  ("Comment must be at least " ++ JsString.ofNat MIN_CONTENT_LENGTH
   ++ " characters long (currently "
   ++ JsString.ofNat (String.length trimmedContent) ++ " characters)")%string.

Definition withComments (cs : list Comment.t) (db : Db.t) : Db.t :=
  Db.mk (Db.users db) (Db.topics db) (Db.posts db) cs
        (Db.votes db) (Db.savedPosts db) (Db.reports db).

Definition livePost (postId : Z) (p : Post.t) : bool :=
  (Post.id p =? postId) && Prisma.isNull (Post.deletedAt p).

(** [comment.create] throws when the database refuses the row: a
    content with the code unit 0, an author that is not a user (foreign
    key), a key beyond the [INTEGER] column. *)
Definition insertThrows (db : Db.t) (c : Comment.t) : bool :=
  JsString.hasNul (Comment.content c)
  || Prisma.isNull (Feed.findAuthor db (Comment.authorId c))
  || negb (Prisma.int4 (Comment.id c)).

(** [createComment]; [newId] is the key the database assigns to the new
    row and [now] its [createdAt] default. *)
Definition createComment (db : Db.t) (req : CreateRequest) (newId now : Z)
  : Db.t * Response Created :=
  let failure := "Internal server error while creating comment"%string in
  let authorId := au_id (c_user req) in
  match c_content req with
  | None => (db, Error 400 "Content is required")
  | Some content =>
    if JsString.falsy (Some content) then (db, Error 400 "Content is required")
    else
      let trimmedContent := JsString.trim content in
      if (String.length trimmedContent <? MIN_CONTENT_LENGTH)%nat
      then (db, Error 400 (tooShort trimmedContent))
      else if falsyId (c_postId req) then (db, Error 400 "Post ID is required")
      else
        match parseIntId (c_postId req) with
        | None => (db, Error 400 "Invalid post ID format")
        | Some parsedPostId =>
          if negb (Prisma.int4 parsedPostId) then (db, Error 500 failure)
          else
            match Prisma.findFirst (livePost parsedPostId) (Db.posts db) with
            | None => (db, Error 404 "Post not found")
            | Some _ =>
              let comment :=
                Comment.mk newId trimmedContent authorId parsedPostId now false in
              if insertThrows db comment then (db, Error 500 failure)
              else
                (withComments (Db.comments db ++ [comment]) db,
                 Ok {| created := comment;
                       createdAuthor := Feed.findAuthor db authorId |})
            end
        end
  end.

(** The [select]ed columns of the post of a comment. *)
Record PostRef := mkPostRef
  { pr_id : Z; pr_title : string; pr_authorId : string }.

Record Detail := mkDetail
  { d_comment : Comment.t;
    d_author : option Feed.Author;
    d_post : option PostRef;
    d_votes : Z }.

Definition byId (commentId : Z) (c : Comment.t) : bool := Comment.id c =? commentId.

(** [getCommentById]; the argument is [parseInt(req.params.id, 10)]. *)
Definition getCommentById (db : Db.t) (id : option Z) : Response Detail :=
  match id with
  | None => Error 400 "Invalid comment ID format"
  | Some commentId =>
    if negb (Prisma.int4 commentId)
    then Error 500 "Internal server error while fetching comment"
    else
      match Prisma.findFirst (byId commentId) (Db.comments db) with
      | None => Error 404 "Comment not found"
      | Some comment =>
        Ok {| d_comment := comment;
              d_author := Feed.findAuthor db (Comment.authorId comment);
              d_post :=
                option_map
                  (fun p => mkPostRef (Post.id p) (Post.title p) (Post.authorId p))
                  (Prisma.findFirst (fun p => Post.id p =? Comment.postId comment)
                                    (Db.posts db));
              d_votes :=
                Prisma.count
                  (fun v => Prisma.optZ_eqb (Vote.commentId v) (Comment.id comment))
                  (Db.votes db) |}
      end
  end.

Record UpdateRequest := mkUpdate
  { u_user : AuthUser;
    u_id : option Z;              (* parseInt(req.params.id, 10) *)
    u_content : option string }.

Record DeleteRequest := mkDelete
  { x_user : AuthUser;
    x_id : option Z }.

(** [data: { content: trimmedContent }] on the row [where: { id }]. *)
Definition setContent (commentId : Z) (content : string) (c : Comment.t) : Comment.t :=
  if Comment.id c =? commentId
  then Comment.mk (Comment.id c) content (Comment.authorId c) (Comment.postId c)
                  (Comment.createdAt c) (Comment.isHidden c)
  else c.

(** [prisma.comment.delete]: the row goes, and with it the votes and
    reports that reference it ([ON DELETE CASCADE]). *)
Definition deleteRow (commentId : Z) (db : Db.t) : Db.t :=
  Db.mk (Db.users db) (Db.topics db) (Db.posts db)
        (filter (fun c => negb (byId commentId c)) (Db.comments db))
        (filter (fun v => negb (Prisma.optZ_eqb (Vote.commentId v) commentId))
                (Db.votes db))
        (Db.savedPosts db)
        (filter (fun r => negb (Prisma.optZ_eqb (Report.commentId r) commentId))
                (Db.reports db)).

Section Ownership.

(** [isOwner] of authMiddleware.js, which is not among the sources. *)
Variable isOwner : string -> string -> bool.

(** The order in which the comment table yields its rows once a row was
    rewritten: the database puts the new version of the row where it
    finds room. *)
Variable place : list Comment.t -> list Comment.t.


Definition deleteComment (db : Db.t) (req : DeleteRequest)
  : Db.t * Response string :=
  let userId := au_id (x_user req) in
  match x_id req with
  | None => (db, Error 400 "Invalid comment ID format")
  | Some commentId =>
    if negb (Prisma.int4 commentId)
    then (db, Error 500 "Internal server error while deleting comment")
    else
      match Prisma.findFirst (byId commentId) (Db.comments db) with
      | None => (db, Error 404 "Comment not found")
      | Some comment =>
        if negb (isOwner userId (Comment.authorId comment))
        then (db, Error 403 "You can only delete your own comments")
        else (deleteRow commentId db, Ok "Comment deleted successfully"%string)
      end
  end.

End Ownership.

(** The status a handler answers with. *)
Definition statusOf (B : Type) (r : Response B) (success : Z) : Z :=
  match r with Ok _ => success | Error status _ => status end.



End CommentsCrud.

(** ** Requests for pages *)

Module Paging.


(** The same feed request for a page twice as long. *)
Definition doublePage (req : Feed.Request) : Feed.Request :=
  Feed.mkRequest (Feed.user req) (Feed.topicId req) (Feed.authorId req)
    (mkQuery (Some (2 * Feed.effectiveLimit (Feed.query req)))
             (Some (Feed.effectiveOffset (Feed.query req)))).

(** Creation time descending, then vote count descending, then id
    descending. *)
Definition totalOrder (a b : Feed.Item) : Prop :=
  Feed.createdAt b < Feed.createdAt a
  \/ (Feed.createdAt a = Feed.createdAt b
      /\ (Feed.voteCount b < Feed.voteCount a
          \/ (Feed.voteCount a = Feed.voteCount b /\ Feed.id b <= Feed.id a))).

(** A request for the comments of a post with explicit limit and offset. *)
Definition comments (postId limit offset : Z) : Comments.Request :=
  Comments.mkRequest None (Some postId) (mkQuery (Some limit) (Some offset)).

Definition oldestFirst (a b : Comments.View) : Prop :=
  Comment.createdAt (Comments.comment a) <= Comment.createdAt (Comments.comment b).

(** No two comments of the post were created at the same instant; the
    order [createdAt: 'asc'] then leaves no ties among them. *)
Definition distinctTimes (db : Db.t) (postId : Z) : Prop :=
  forall a b,
    In a (Db.comments db) -> In b (Db.comments db) ->
    Comment.postId a = postId -> Comment.postId b = postId ->
    Comment.createdAt a = Comment.createdAt b -> a = b.

(** The same store, in whatever order the comment table yields its
    rows. *)
Definition sameRows (a b : Db.t) : Prop :=
  Db.users a = Db.users b /\ Db.topics a = Db.topics b
  /\ Db.posts a = Db.posts b /\ Db.votes a = Db.votes b
  /\ Db.savedPosts a = Db.savedPosts b /\ Db.reports a = Db.reports b
  /\ Permutation (Db.comments a) (Db.comments b).



End Paging.

(** ** Sample requests to the comment handlers *)

Module SampleWrites.
Local Open Scope string_scope.

Definition alice : AuthUser := mkAuthUser Sample.aliceId false.
Definition bob : AuthUser := mkAuthUser Sample.bobId false.

(** alice comments on post 3, with white space around the text. *)
Definition padded : CommentsCrud.CreateRequest :=
  CommentsCrud.mkCreate alice (Some "   a comment of some length  ")
                        (CommentsCrud.IdNumber false (Some 3)).

(** Twenty-five spaces. *)
Definition blank : CommentsCrud.CreateRequest :=
  CommentsCrud.mkCreate alice (Some "                         ")
                        (CommentsCrud.IdNumber false (Some 3)).

(** The store once [padded] has been accepted as comment 4. *)
Definition afterPadded : Db.t :=
  fst (CommentsCrud.createComment Sample.thread padded 4 400).

(** bob, the author of comment 1, rewrites it; alice tries to. *)
Definition rewrite (who : AuthUser) : CommentsCrud.UpdateRequest :=
  CommentsCrud.mkUpdate who (Some 1) (Some "  a rewritten first comment ").

Definition remove (who : AuthUser) : CommentsCrud.DeleteRequest :=
  CommentsCrud.mkDelete who (Some 1).

(** A thread in which comment 1 has a vote and a report. *)
Definition voted : Db.t :=
  Db.mk (Db.users Sample.thread) (Db.topics Sample.thread)
        (Db.posts Sample.thread) (Db.comments Sample.thread)
        [Vote.mk 1 Sample.aliceId None (Some 1); Vote.mk 2 Sample.aliceId None (Some 3)]
        []
        [Report.mk 1 Sample.aliceId None (Some 1) SPAM None 900].

Definition listAll (postId : Z) : Comments.Request :=
  Comments.mkRequest None (Some postId) (mkQuery None None).

End SampleWrites.

(** ** Contact form controller (contactController.js) *)

Module Contact.

(** A field of [req.body]: missing or a falsy value that is not a string,
    a string, or a truthy value that is not a string. *)
Inductive Field :=
| Absent
| Text (s : string)
| Other.

(** [!field] *)
Definition falsy (f : Field) : bool :=
  match f with
  | Absent => true
  | Text s => JsString.falsy (Some s)
  | Other => false
  end.

Record Body := mkBody
  { name : Field; email : Field; subject : Field; message : Field }.

(** [process.env]; [SMTP_PORT] is given by what [parseInt] yields on it. *)
Record Env := mkEnv
  { CONTACT_EMAIL_TO : option string;
    SMTP_HOST : option string;
    SMTP_PORT : option Z;
    SMTP_SECURE : option string;
    SMTP_USER : option string;
    SMTP_PASS : option string }.

Record Transport := mkTransport
  { host : option string;
    port : Z;
    secure : bool;
    auth_user : option string;
    auth_pass : option string }.

Record Mail := mkMail
  { from : option string;
    to : string;
    mailSubject : string;
    text : string;
    mailHtml : string }.

Inductive Reply :=
| Success (message : string)                        (* 200 *)
| Failure (status : Z) (error message : string).

(** What a submission comes to: the mail handed to the transport, if any,
    and the response. *)
Record Outcome := mkOutcome
  { handed : option (Transport * Mail);
    reply : Reply }.

Definition newline : string := String (ascii_of_nat 10) EmptyString.
Definition quote : string := String (ascii_of_nat 34) EmptyString.

(** A character of [[^\s@]]. *)
Definition partChar (c : ascii) : bool :=
  negb (JsString.isWhiteSpace c) && negb (Ascii.eqb c "@").

(** [[^\s@]*] over the whole string. *)
Fixpoint allPart (s : string) : bool :=
  match s with
  | EmptyString => true
  | String c s' => partChar c && allPart s'
  end.

Definition nonEmpty (s : string) : bool :=
  match s with EmptyString => false | String _ _ => true end.

(** Some dot of the string has a character after it. *)
Fixpoint dotInside (s : string) : bool :=
  match s with
  | EmptyString => false
  | String c s' => (Ascii.eqb c "." && nonEmpty s') || dotInside s'
  end.

(** [[^\s@]+\.[^\s@]+$] *)
Definition matchDomain (d : string) : bool :=
  allPart d && match d with EmptyString => false | String _ d' => dotInside d' end.

(** [^[^\s@]+@] and then the domain; [seen] says that a character of the
    local part has been read. *)
Fixpoint matchFrom (s : string) (seen : bool) : bool :=
  match s with
  | EmptyString => false
  | String c s' =>
    if Ascii.eqb c "@" then seen && matchDomain s'
    else partChar c && matchFrom s' true
  end.

(** [/^[^\s@]+@[^\s@]+\.[^\s@]+$/.test(s)] *)
Definition emailRegex_test (s : string) : bool := matchFrom s false.

(** The regular expression read as a pattern: a non-empty run of
    [[^\s@]], an at sign, a non-empty run, a dot, a non-empty run. *)
Definition part (s : string) : Prop := s <> EmptyString /\ allPart s = true.

Definition emailShape (s : string) : Prop :=
  exists a b c,
    s = (a ++ "@" ++ b ++ "." ++ c)%string /\ part a /\ part b /\ part c.

(** How often a character occurs in a string, and whether white space
    does. *)
Fixpoint occurrences (c : ascii) (s : string) : nat :=
  match s with
  | EmptyString => O
  | String d s' => ((if Ascii.eqb d c then 1 else 0) + occurrences c s')%nat
  end.

Fixpoint hasWhiteSpace (s : string) : bool :=
  match s with
  | EmptyString => false
  | String c s' => JsString.isWhiteSpace c || hasWhiteSpace s'
  end.

(** The [html] template literal of the mail. *)
Definition html (trimmedName trimmedEmail trimmedMessage : string) : string :=
  String.concat EmptyString
    [newline;
     "        <div style="; quote; "font-family: Arial, sans-serif; max-width: 600px; margin: 0 auto;"; quote; ">"; newline;
     "          <h2 style="; quote; "color: #333;"; quote; ">New Contact Form Submission</h2>"; newline;
     "          <div style="; quote; "background-color: #f5f5f5; padding: 15px; border-radius: 5px; margin: 20px 0;"; quote; ">"; newline;
     "            <p><strong>Name:</strong> "; trimmedName; "</p>"; newline;
     "            <p><strong>Email:</strong> "; trimmedEmail; "</p>"; newline;
     "          </div>"; newline;
     "          <div style="; quote; "background-color: #fff; padding: 15px; border: 1px solid #ddd; border-radius: 5px;"; quote; ">"; newline;
     "            <h3 style="; quote; "color: #555; margin-top: 0;"; quote; ">Message:</h3>"; newline;
     "            <p style="; quote; "white-space: pre-wrap;"; quote; ">"; trimmedMessage; "</p>"; newline;
     "          </div>"; newline;
     "        </div>"; newline;
     "      "]%string.

Section Transporter.

(** [transporter.sendMail]: [true] when the promise resolves, [false]
    when it rejects. *)
Variable sendMail : Transport -> Mail -> bool.

Definition submitContactForm (env : Env) (body : Body) : Outcome :=
  if falsy (name body) || falsy (email body) || falsy (subject body)
     || falsy (message body)
  then mkOutcome None
         (Failure 400 "Missing required fields"
                  "All fields (name, email, subject, message) are required")
  else
    match name body, email body, subject body, message body with
    | Text name, Text email, Text subject, Text message =>
      let trimmedName := JsString.trim name in
      let trimmedEmail := JsString.trim email in
      let trimmedSubject := JsString.trim subject in
      let trimmedMessage := JsString.trim message in
      if negb (nonEmpty trimmedName) || negb (nonEmpty trimmedEmail)
         || negb (nonEmpty trimmedSubject) || negb (nonEmpty trimmedMessage)
      then mkOutcome None
             (Failure 400 "Invalid input" "All fields must contain non-empty values")
      else if negb (emailRegex_test trimmedEmail)
      then mkOutcome None
             (Failure 400 "Invalid email" "Please provide a valid email address")
      else
        match CONTACT_EMAIL_TO env with
        | Some contactEmailTo =>
          if negb (nonEmpty contactEmailTo)
          then mkOutcome None
                 (Failure 500 "Configuration error"
                    "Contact form is not properly configured. Please try again later.")
          else
            let transporter :=
              {| host := SMTP_HOST env;
                 port := Js.orElse (SMTP_PORT env) 587;
                 secure := Js.strictEq (SMTP_SECURE env) "true";
                 auth_user := SMTP_USER env;
                 auth_pass := SMTP_PASS env |} in
            let mailOptions :=
              {| from := SMTP_USER env;
                 to := contactEmailTo;
                 mailSubject := ("[LearnLoop Contact] " ++ trimmedSubject)%string;
                 text := String.concat EmptyString
                           ["Name: "; trimmedName; newline;
                            "Email: "; trimmedEmail; newline; newline;
                            "Message:"; newline; trimmedMessage]%string;
                 mailHtml := html trimmedName trimmedEmail trimmedMessage |} in
            if sendMail transporter mailOptions
            then mkOutcome (Some (transporter, mailOptions))
                   (Success "Your message has been sent successfully. We will get back to you soon.")
            else mkOutcome (Some (transporter, mailOptions))
                   (Failure 500 "Email sending failed"
                      "Unable to send your message at this time. Please try again later.")
        | None =>
          mkOutcome None
            (Failure 500 "Configuration error"
               "Contact form is not properly configured. Please try again later.")
        end
    | _, _, _, _ =>
      (* [.trim] of a value that is not a string throws *)
      mkOutcome None
        (Failure 500 "Internal server error"
           "An unexpected error occurred. Please try again later.")
    end.

End Transporter.

(** A sample environment and submission. *)
Definition sampleEnv : Env :=
  mkEnv (Some "team@learnloop.test"%string) (Some "smtp.learnloop.test"%string)
        None None (Some "mailer@learnloop.test"%string) (Some "secret"%string).

Definition sampleBody : Body :=
  mkBody (Text " Ada ") (Text "  ada@example.org ") (Text "Hello ")
         (Text " A question about moderation. ").

End Contact.

(** ** Bootstrap script (bootstrap.js) *)

Module Bootstrap.

(** The user table with the columns the script reads and writes. *)
Record Account := mkAccount
  { id : string;
    email : string;
    username : string;
    hashedPassword : string;
    role : string;
    emailVerified : bool;
    isVerified : bool }.

Record Env := mkEnv
  { SYSTEM_USER_EMAIL : option string;
    SYSTEM_USER_PASSWORD : option string;
    BOT_USER_EMAIL : option string;
    BOT_USER_PASSWORD : option string }.

(** [prisma.user.findUnique({ where: { email } })] *)
Definition findByEmail (e : string) (table : list Account) : option Account :=
  find (fun a => String.eqb (email a) e) table.

(** A row that shares the primary key, the email or the username with
    the new one: the insert violates a unique index. *)
Definition clashes (a b : Account) : bool :=
  String.eqb (id b) (id a) || String.eqb (email b) (email a)
  || String.eqb (username b) (username a).

(** [prisma.user.create]; [None] when it throws. *)
Definition create (a : Account) (table : list Account) : option (list Account) :=
  if existsb (clashes a) table then None else Some (table ++ [a]).

Section Collaborators.

(** [bcrypt.hash(password, SALT_ROUNDS)] and the key the database gives
    a new row. *)
Variable hash : string -> string.
Variable newId : list Account -> string.

(** One of the two blocks of the script: skip when the environment is
    incomplete or the user exists, create otherwise; [None] when the
    create throws. *)
Definition ensure (userEmail userPassword : option string)
           (name role : string) (table : list Account) : option (list Account) :=
  if JsString.falsy userEmail || JsString.falsy userPassword then Some table
  else
    match userEmail, userPassword with
    | Some userEmail, Some userPassword =>
      match findByEmail userEmail table with
      | Some _ => Some table
      | None =>
        create {| id := newId table;
                  email := userEmail;
                  username := name;
                  hashedPassword := hash userPassword;
                  role := role;
                  emailVerified := true;
                  isVerified := true |} table
      end
    | _, _ => Some table
    end.

(** [bootstrapSystemUsers]: an exception ends the script, what was
    written before it stays. *)
Definition bootstrapSystemUsers (env : Env) (table : list Account) : list Account :=
  match ensure (SYSTEM_USER_EMAIL env) (SYSTEM_USER_PASSWORD env)
               "LearnLoop" "SYSTEM" table with
  | None => table
  | Some table1 =>
    match ensure (BOT_USER_EMAIL env) (BOT_USER_PASSWORD env)
                 "LearnLoop Bot" "BOT" table1 with
    | None => table1
    | Some table2 => table2
    end
  end.

End Collaborators.

(** The primary key and the two unique indexes of the table hold. *)
Definition wellKeyed (table : list Account) : Prop :=
  NoDup (map id table) /\ NoDup (map email table) /\ NoDup (map username table).

(** A sample environment, and a table in which a user took the name of
    the system user. *)
Definition sampleEnv : Env :=
  mkEnv (Some "system@learnloop.test"%string) (Some "s3cret"%string)
        (Some "bot@learnloop.test"%string) (Some "b0t"%string).

Definition squatter : Account :=
  mkAccount "u-1" "someone@example.org" "LearnLoop" "x" "USER" false false.

Definition sampleHash (p : string) : string := ("hashed:" ++ p)%string.
Definition sampleId (table : list Account) : string :=
  ("u-" ++ JsString.ofNat (S (List.length table)))%string.

End Bootstrap.

(** ** Properties of the sort and of the query window *)

Section SortFacts.
Variable A : Type.
Variable cmp : A -> A -> Z.

Lemma insert_perm (x : A) (l : list A) : Permutation (x :: l) (Js.insert cmp x l).
Proof.
  induction l as [|y l IH]; simpl.
  - apply Permutation_refl.
  - destruct (cmp x y <=? 0).
    + apply Permutation_refl.
    + eapply perm_trans; [apply perm_swap|]. now apply perm_skip.
Qed.

Lemma sort_perm (l : list A) : Permutation l (Js.sort cmp l).
Proof.
  induction l as [|x l IH]; simpl.
  - constructor.
  - eapply perm_trans; [apply perm_skip, IH|]. apply insert_perm.
Qed.

Lemma sort_In (x : A) (l : list A) : In x (Js.sort cmp l) <-> In x l.
Proof.
  split; apply Permutation_in;
    [apply Permutation_sym|]; apply sort_perm.
Qed.

Lemma sort_length (l : list A) : List.length (Js.sort cmp l) = List.length l.
Proof. symmetry. apply Permutation_length, sort_perm. Qed.

(** A comparator is consistent when "may stand before" is a total
    preorder; the sort then yields a list ordered by it. *)
Let precedes := Js.precedes cmp.

Hypothesis cmp_total : forall a b, precedes a b \/ precedes b a.
Hypothesis cmp_trans : forall a b c, precedes a b -> precedes b c -> precedes a c.

Lemma insert_sorted (x : A) (l : list A) :
  StronglySorted precedes l -> StronglySorted precedes (Js.insert cmp x l).
Proof.
  induction 1 as [|y l Hl IH Hy]; simpl.
  - repeat constructor.
  - destruct (cmp x y <=? 0) eqn:E.
    + apply Z.leb_le in E. constructor.
      * now constructor.
      * constructor; [exact E|].
        rewrite Forall_forall in *. intros z Hz. eapply cmp_trans; eauto.
    + apply Z.leb_gt in E.
      assert (Hyx : precedes y x).
      { destruct (cmp_total x y) as [H|H]; [unfold precedes, Js.precedes in H; lia|exact H]. }
      constructor; [exact IH|].
      rewrite Forall_forall in *. intros z Hz.
      apply (Permutation_in _ (Permutation_sym (insert_perm x l))) in Hz.
      destruct Hz as [<-|Hz]; auto.
Qed.

Lemma sort_sorted (l : list A) : StronglySorted precedes (Js.sort cmp l).
Proof.
  induction l as [|x l IH]; simpl.
  - constructor.
  - now apply insert_sorted.
Qed.
End SortFacts.

Section WindowFacts.
Variable A : Type.

Lemma In_firstn (n : nat) (l : list A) (x : A) : In x (firstn n l) -> In x l.
Proof.
  revert l. induction n as [|n IH]; intros [|y l]; simpl; try tauto.
  intros [->|H]; auto.
Qed.

Lemma In_skipn (n : nat) (l : list A) (x : A) : In x (skipn n l) -> In x l.
Proof.
  revert l. induction n as [|n IH]; intros [|y l]; simpl; try tauto.
  intros H. right. now apply IH.
Qed.

Lemma window_In (skip take : Z) (rows : list A) (x : A) :
  In x (Prisma.window skip take rows) -> In x rows.
Proof.
  unfold Prisma.window. destruct (take <? 0); intros H.
  - apply in_rev in H. apply In_firstn, In_skipn in H. now apply in_rev.
  - now apply In_firstn, In_skipn in H.
Qed.

(** A [skip] of [2^32] and more starts over. *)
Lemma window_starts_over (k take : Z) (rows : list A) :
  Prisma.window (2 ^ 32 + k) take rows = Prisma.window k take rows.
Proof.
  unfold Prisma.window.
  replace (2 ^ 32 + k) with (k + 1 * 2 ^ 32) by lia.
  now rewrite Z_mod_plus_full.
Qed.

Lemma window_all (take : Z) (rows : list A) :
  Z.of_nat (List.length rows) <= take -> Prisma.window 0 take rows = rows.
Proof.
  intros H. unfold Prisma.window.
  destruct (take <? 0) eqn:E; [apply Z.ltb_lt in E; lia|].
  simpl. apply firstn_all2. lia.
Qed.

Lemma window_length (skip take : Z) (rows : list A) :
  0 <= take -> Z.of_nat (List.length (Prisma.window skip take rows)) <= take.
Proof.
  intros H. unfold Prisma.window.
  destruct (take <? 0) eqn:E; [apply Z.ltb_lt in E; lia|].
  rewrite length_firstn. lia.
Qed.

Lemma findMany_In (where_ : A -> bool) (orderBy : A -> A -> Z)
      (skip take : Z) (table : list A) (x : A) :
  In x (Prisma.findMany where_ orderBy skip take table) ->
  In x table /\ where_ x = true.
Proof.
  unfold Prisma.findMany. intros H.
  apply window_In, sort_In, filter_In in H. exact H.
Qed.

(** A key that is unique in a table identifies its row. *)
Lemma unique_key (K : Type) (key : A -> K) (table : list A) (a b : A) :
  NoDup (map key table) -> In a table -> In b table -> key a = key b -> a = b.
Proof.
  induction table as [|y l IH]; simpl; [tauto|].
  intros Hnd Ha Hb E. inversion Hnd as [|? ? Hy Hl]; subst.
  destruct Ha as [->|Ha], Hb as [->|Hb]; auto.
  - exfalso. apply Hy. rewrite E. now apply in_map.
  - exfalso. apply Hy. rewrite <- E. now apply in_map.
Qed.
End WindowFacts.

(** ** Shape of a successful feed response *)

Section FeedFacts.
Variable db : Db.t.

Lemma respond_posts_In req topic profile limit offset rows (it : Feed.Item) :
  In it (Feed.posts (Feed.respond db req topic profile limit offset rows)) <->
  exists p, In p rows /\ it = Feed.enrich db (Feed.userIdOf req) p.
Proof.
  simpl. rewrite sort_In, in_map_iff. split; intros (p & H1 & H2); eauto.
Qed.

Lemma respond_ids req topic profile limit offset rows (i : Z) :
  In i (Feeds.ids (Feed.respond db req topic profile limit offset rows)) <->
  In i (map Post.id rows).
Proof.
  unfold Feeds.ids. rewrite !in_map_iff. split.
  - intros (it & <- & Hit). apply respond_posts_In in Hit.
    destruct Hit as (p & Hp & ->). now exists p.
  - intros (p & <- & Hp). exists (Feed.enrich db (Feed.userIdOf req) p).
    split; [reflexivity|]. apply respond_posts_In. eauto.
Qed.

(** What [fetch] answers when nothing throws. *)
Lemma fetch_ok req failure topic profile where_ limit offset body :
  Feed.fetch db req failure topic profile where_ limit offset = Ok body ->
  Prisma.pageAccepted offset limit = true
  /\ Feed.lookupsThrow (Feed.userIdOf req) (Feed.page db where_ limit offset) = false
  /\ body = Feed.respond db req topic profile limit offset
                         (Feed.page db where_ limit offset).
Proof.
  unfold Feed.fetch.
  destruct (Prisma.pageAccepted offset limit); simpl; [|discriminate].
  destruct (Feed.lookupsThrow _ _); [discriminate|].
  intros [= <-]. auto.
Qed.


(** Every endpoint answers a valid request with the response built from
    the rows of its query. *)
Lemma handler_ok (e : Feeds.Endpoint) req body :
  Feeds.handler e db req = Ok body ->
  Feed.invalidPagination (Feed.effectiveLimit (Feed.query req))
                         (Feed.effectiveOffset (Feed.query req)) = false
  /\ exists topic profile,
      body = Feed.respond db req topic profile
               (Feed.effectiveLimit (Feed.query req))
               (Feed.effectiveOffset (Feed.query req))
               (Feeds.rows e db req).
Proof.
  destruct e; simpl.
  - unfold Feed.getHomeFeed.
    destruct (Feed.invalidPagination _ _); [discriminate|].
    intros H. apply fetch_ok in H. destruct H as (_ & _ & ->).
    split; [reflexivity|]. now exists None, None.
  - unfold Feed.getTopicFeed, Feeds.rows, Feeds.whereOf.
    destruct (Feed.topicId req) as [t|]; [|discriminate].
    destruct (Feed.invalidPagination _ _); [discriminate|].
    destruct (Prisma.int4 t); simpl; [|discriminate].
    destruct (Prisma.findFirst _ _) as [topic|]; [|discriminate].
    intros H. apply fetch_ok in H. destruct H as (_ & _ & ->).
    split; [reflexivity|]. exists (Some topic), None.
    reflexivity.
  - unfold Feed.getAuthorFeed.
    destruct (Feed.invalidPagination _ _); [discriminate|].
    destruct (Uuid.parse _); simpl; [|discriminate].
    destruct (Feed.findAuthor _ _) as [a|]; [|discriminate].
    intros H. apply fetch_ok in H. destruct H as (_ & _ & ->).
    split; [reflexivity|]. now exists None, (Some a).
Qed.


Lemma handler_limits (e : Feeds.Endpoint) req body :
  Feeds.handler e db req = Ok body ->
  1 <= Feed.effectiveLimit (Feed.query req) <= 100
  /\ 0 <= Feed.effectiveOffset (Feed.query req).
Proof.
  intros H. apply handler_ok in H. destruct H as [H _].
  unfold Feed.invalidPagination in H. apply orb_false_iff in H.
  destruct H as [H1 H2]. apply Z.ltb_ge in H1, H2.
  unfold Feed.effectiveLimit in *. lia.
Qed.

Lemma handler_ids (e : Feeds.Endpoint) req body (i : Z) :
  Feeds.handler e db req = Ok body ->
  (In i (Feeds.ids body) <-> In i (map Post.id (Feeds.rows e db req))).
Proof.
  intros H. apply handler_ok in H. destruct H as (_ & topic & profile & ->).
  apply respond_ids.
Qed.

Lemma rows_In (e : Feeds.Endpoint) req (p : Post.t) :
  In p (Feeds.rows e db req) -> In p (Db.posts db) /\ Feeds.whereOf e req p = true.
Proof. apply findMany_In. Qed.

(** With [id] the primary key, a post is listed exactly when its row is
    among those the query returned. *)
Lemma handler_lists (e : Feeds.Endpoint) req body (p : Post.t) :
  NoDup (map Post.id (Db.posts db)) ->
  In p (Db.posts db) ->
  Feeds.handler e db req = Ok body ->
  (In (Post.id p) (Feeds.ids body) <-> In p (Feeds.rows e db req)).
Proof.
  intros Hnd Hp H. rewrite (handler_ids _ _ _ H), in_map_iff. split.
  - intros (q & E & Hq).
    assert (q = p) as ->; [|exact Hq].
    eapply unique_key; eauto. now apply rows_In in Hq.
  - intros Hq. now exists p.
Qed.

Lemma whereOf_live (e : Feeds.Endpoint) req (p : Post.t) :
  Feeds.whereOf e req p = true -> Post.deletedAt p = None.
Proof.
  destruct e; simpl;
    unfold Feed.homeWhere, Feed.topicWhere, Feed.authorWhere;
    try destruct (Feed.topicId req); try discriminate;
    rewrite ?andb_true_iff; intros H;
    destruct (Post.deletedAt p); simpl in H; intuition discriminate.
Qed.
End FeedFacts.

(** C5. A post whose soft-delete timestamp is set is in no page of the
    home feed, the topic feed or the author feed, whoever the viewer is
    (anonymous, the author, an admin) and whatever its hidden flag. *)
Theorem soft_deleted_excluded_from_feeds :
  forall (db : Db.t) (e : Feeds.Endpoint) (req : Feed.Request)
         (body : Feed.Body) (p : Post.t),
    NoDup (map Post.id (Db.posts db)) ->
    In p (Db.posts db) ->
    Post.deletedAt p <> None ->
    Feeds.handler e db req = Ok body ->
    ~ In (Post.id p) (Feeds.ids body).
Proof.
  intros db e req body p Hnd Hp Hdel H Hin.
  apply (proj1 (@handler_lists db e req body p Hnd Hp H)) in Hin.
  apply rows_In in Hin. destruct Hin as [_ Hw].
  apply whereOf_live in Hw. contradiction.
Qed.

Lemma soft_deleted_excluded_from_feeds_witness :
  exists body,
    Feed.getAuthorFeed Sample.db (Sample.feedRequest Sample.asAlice) = Ok body
    /\ ~ In (Post.id Sample.deletedPost) (Feeds.ids body).
Proof.
  eexists. split; [vm_compute; reflexivity|].
  apply (@soft_deleted_excluded_from_feeds
           Sample.db Feeds.ByAuthor (Sample.feedRequest Sample.asAlice)
           _ Sample.deletedPost).
  - repeat constructor; simpl; intuition discriminate.
  - simpl. tauto.
  - discriminate.
  - vm_compute. reflexivity.
Defined.

(** ** Uuid values as the database compares them *)

Section UuidFacts.

Lemma uuid_eqb_true (a b : string) :
  Uuid.eqb a b = true <->
  exists c, Uuid.parse a = Some c /\ Uuid.parse b = Some c.
Proof.
  unfold Uuid.eqb.
  destruct (Uuid.parse a) as [x|], (Uuid.parse b) as [y|];
    try (split; [discriminate|intros (c & H1 & H2); discriminate]).
  rewrite String.eqb_eq. split.
  - intros ->. now exists y.
  - intros (c & H1 & H2). congruence.
Qed.

Lemma uuid_eqb_same (a c : string) : Uuid.parse a = Some c -> Uuid.eqb a a = true.
Proof. intros H. apply uuid_eqb_true. now exists c. Qed.



(** The profile [user.findUnique] finds carries the requested id as the
    database spells it. *)
Lemma findAuthor_found (db : Db.t) (uid : string) (a : Feed.Author) :
  Feed.findAuthor db uid = Some a ->
  exists u, In u (Db.users db) /\ a = Feed.selectAuthor u
            /\ Uuid.eqb uid (User.id u) = true.
Proof.
  unfold Feed.findAuthor, Prisma.findFirst.
  destruct (find _ (Db.users db)) as [u|] eqn:F; [|discriminate].
  intros [= <-]. apply find_some in F. exists u. tauto.
Qed.


End UuidFacts.

(** ** Hidden posts in the feeds *)

Section HiddenFacts.
Variable db : Db.t.

Lemma enrich_isHidden uid (p : Post.t) :
  Feed.isHidden (Feed.enrich db uid p) = Post.isHidden p.
Proof. reflexivity. Qed.

(** The home and topic queries of a non-admin select no hidden row. *)
Lemma whereOf_non_admin (e : Feeds.Endpoint) req (p : Post.t) :
  e <> Feeds.ByAuthor ->
  Feed.isAdminOf req = false ->
  Feeds.whereOf e req p = true ->
  Post.isHidden p = false.
Proof.
  intros He Hadm. destruct e; simpl; [| |congruence];
    unfold Feed.homeWhere, Feed.topicWhere; rewrite Hadm;
    try destruct (Feed.topicId req); try discriminate;
    rewrite ?andb_true_iff, negb_true_iff; tauto.
Qed.

Lemma showHidden_privileged req :
  Feed.showHidden req = true <-> Feeds.privileged req.
Proof.
  unfold Feed.showHidden, Feeds.privileged, Js.strictEq.
  rewrite orb_true_iff.
  destruct (Feed.userIdOf req) as [u|].
  - rewrite String.eqb_eq. split; (intros [H|H]; [right|left]); auto.
    + now subst.
    + now injection H.
  - split; intros [H|H]; auto; discriminate.
Qed.

Lemma authorWhere_shown a (p : Post.t) :
  Feed.authorWhere a true p = Feeds.liveBy a p.
Proof. unfold Feed.authorWhere, Feeds.liveBy. now rewrite andb_true_r. Qed.

Lemma authorWhere_not_shown a (p : Post.t) :
  Feed.authorWhere a false p = true -> Post.isHidden p = false.
Proof.
  unfold Feed.authorWhere. rewrite !andb_true_iff, negb_true_iff. tauto.
Qed.

Lemma page_ext (f g : Post.t -> bool) limit offset :
  (forall p, f p = g p) -> Feed.page db f limit offset = Feed.page db g limit offset.
Proof.
  intros H. unfold Feed.page, Prisma.findMany.
  now rewrite (filter_ext f g H).
Qed.
End HiddenFacts.

(** C3, as the code has it. In the home feed and in the topic feed a
    viewer who is not an admin gets no hidden post, the author of the
    post included: every listed item has [isHidden = false], and a hidden
    post of the store is not on the page. *)
Theorem home_topic_hide_from_non_admin :
  forall (db : Db.t) (e : Feeds.Endpoint) (req : Feed.Request) (body : Feed.Body),
    e <> Feeds.ByAuthor ->
    Feed.isAdminOf req = false ->
    Feeds.handler e db req = Ok body ->
    (forall it, In it (Feed.posts body) -> Feed.isHidden it = false)
    /\ (forall p, NoDup (map Post.id (Db.posts db)) ->
                  In p (Db.posts db) ->
                  Post.isHidden p = true ->
                  ~ In (Post.id p) (Feeds.ids body)).
Proof.
  intros db e req body He Hadm H. split.
  - intros it Hit. destruct (@handler_ok db e req body H) as (_ & topic & profile & ->).
    apply respond_posts_In in Hit. destruct Hit as (p & Hp & ->).
    rewrite enrich_isHidden. apply rows_In in Hp.
    eapply whereOf_non_admin; eauto. apply Hp.
  - intros p Hnd Hp Hhid Hin.
    apply (proj1 (@handler_lists db e req body p Hnd Hp H)) in Hin.
    apply rows_In in Hin. destruct Hin as [_ Hw].
    apply (whereOf_non_admin _ _ He Hadm) in Hw. congruence.
Qed.

Lemma home_topic_hide_from_non_admin_witness :
  exists body,
    Feed.getHomeFeed Sample.db (Sample.feedRequest Sample.asAlice) = Ok body
    /\ (forall it, In it (Feed.posts body) -> Feed.isHidden it = false)
    /\ ~ In (Post.id Sample.hiddenPost) (Feeds.ids body).
Proof.
  eexists. split; [vm_compute; reflexivity|].
  destruct (@home_topic_hide_from_non_admin
              Sample.db Feeds.Home (Sample.feedRequest Sample.asAlice) _
              ltac:(discriminate) ltac:(reflexivity) ltac:(vm_compute; reflexivity))
    as [H1 H2].
  split; [exact H1|].
  apply H2.
  - repeat constructor; simpl; intuition discriminate.
  - simpl. tauto.
  - reflexivity.
Defined.

(** C3, as stated, fails: alice, who is not an admin, asks for the home
    feed and for the topic feed with her own live hidden post in the
    store; both answer with a page (not full) that lacks it. *)
Lemma author_hidden_post_missing_from_home_and_topic :
  In Sample.hiddenPost (Db.posts Sample.db)
  /\ Post.deletedAt Sample.hiddenPost = None
  /\ Post.isHidden Sample.hiddenPost = true
  /\ Feed.isAdminOf (Sample.feedRequest Sample.asAlice) = false
  /\ Feed.userIdOf (Sample.feedRequest Sample.asAlice)
     = Some (Post.authorId Sample.hiddenPost)
  /\ (exists body,
        Feed.getHomeFeed Sample.db (Sample.feedRequest Sample.asAlice) = Ok body
        /\ Feeds.ids body = [3]
        /\ ~ In (Post.id Sample.hiddenPost) (Feeds.ids body))
  /\ (exists body,
        Feed.getTopicFeed Sample.db (Sample.feedRequest Sample.asAlice) = Ok body
        /\ Feeds.ids body = [3]
        /\ ~ In (Post.id Sample.hiddenPost) (Feeds.ids body)).
Proof.
  repeat split; try (simpl; tauto);
    (eexists; split; [vm_compute; reflexivity|];
     split; [reflexivity|]; simpl; intuition discriminate).
Qed.

(** C4, where the code departs from it. The author feed finds the
    browsed author by the value of the id, in whatever letter case the
    URL spells it, but takes the viewer for the author only when the
    viewer's id and the URL are the same text. So a live hidden post of
    the browsed author is on the page exactly when the viewer is an admin
    or the URL is, letter for letter, the viewer's id, and the post falls
    in the requested window; alice, asking for her own profile with her
    id in upper case, gets her profile and an empty page, her hidden post
    withheld, while the same request in lower case lists it. *)
Theorem author_feed_withholds_own_hidden_post :
  (forall (db : Db.t) (req : Feed.Request) (body : Feed.Body) (p : Post.t),
      NoDup (map Post.id (Db.posts db)) ->
      In p (Db.posts db) ->
      Uuid.eqb (Feed.authorId req) (Post.authorId p) = true ->
      Post.deletedAt p = None ->
      Post.isHidden p = true ->
      Feed.getAuthorFeed db req = Ok body ->
      let limit := Feed.effectiveLimit (Feed.query req) in
      let offset := Feed.effectiveOffset (Feed.query req) in
      (In (Post.id p) (Feeds.ids body) <->
       Feeds.privileged req
       /\ In p (Feed.page db (Feeds.liveBy (Feed.authorId req)) limit offset))
      /\ (offset = 0 ->
          Prisma.count (Feeds.liveBy (Feed.authorId req)) (Db.posts db) <= limit ->
          (In (Post.id p) (Feeds.ids body) <-> Feeds.privileged req))
      /\ (~ Feeds.privileged req ->
          forall it, In it (Feed.posts body) -> Feed.isHidden it = false))
  /\ (exists body author,
        Feed.getAuthorFeed Sample.db Sample.ownProfileShouted = Ok body
        /\ Feed.profile body = Some author
        /\ Feed.userIdOf Sample.ownProfileShouted = Some (Feed.a_id author)
        /\ In Sample.hiddenPost (Db.posts Sample.db)
        /\ Post.authorId Sample.hiddenPost = Feed.a_id author
        /\ Post.deletedAt Sample.hiddenPost = None
        /\ Post.isHidden Sample.hiddenPost = true
        /\ pg_offset (Feed.pagination body) = 0
        /\ Z.of_nat (List.length (Db.posts Sample.db))
           <= pg_limit (Feed.pagination body)
        /\ Feeds.ids body = []
        /\ ~ In (Post.id Sample.hiddenPost) (Feeds.ids body))
  /\ (exists body,
        Feed.getAuthorFeed Sample.db (Sample.feedRequest Sample.asAlice) = Ok body
        /\ Feed.user (Sample.feedRequest Sample.asAlice)
           = Feed.user Sample.ownProfileShouted
        /\ Uuid.parse (Feed.authorId (Sample.feedRequest Sample.asAlice))
           = Uuid.parse (Feed.authorId Sample.ownProfileShouted)
        /\ In (Post.id Sample.hiddenPost) (Feeds.ids body)).
Proof.
  split; [|split].
  - intros db req body p Hnd Hp Hauth Hlive Hhid H limit offset.
    pose proof (@handler_lists db Feeds.ByAuthor req body p Hnd Hp H) as L.
    assert (Hrows : Feeds.privileged req ->
                    Feeds.rows Feeds.ByAuthor db req
                    = Feed.page db (Feeds.liveBy (Feed.authorId req)) limit offset).
    { intros Hpriv. apply showHidden_privileged in Hpriv.
      unfold Feeds.rows, Feeds.whereOf. rewrite Hpriv.
      apply page_ext, authorWhere_shown. }
    assert (Hnot : ~ Feeds.privileged req ->
                   forall q, In q (Feeds.rows Feeds.ByAuthor db req) ->
                             Post.isHidden q = false).
    { intros Hn q Hq. apply rows_In in Hq. destruct Hq as [_ Hq].
      simpl in Hq. destruct (Feed.showHidden req) eqn:E.
      - exfalso. apply Hn. now apply showHidden_privileged.
      - now apply authorWhere_not_shown in Hq. }
    assert (Hdec : Feeds.privileged req \/ ~ Feeds.privileged req).
    { destruct (Feed.showHidden req) eqn:E.
      - left. now apply showHidden_privileged.
      - right. intros Hc. apply showHidden_privileged in Hc. congruence. }
    assert (Main : In (Post.id p) (Feeds.ids body) <->
                   Feeds.privileged req
                   /\ In p (Feed.page db (Feeds.liveBy (Feed.authorId req))
                                      limit offset)).
    { rewrite L. split.
      - intros Hin. destruct Hdec as [Hpriv|Hn].
        + split; [exact Hpriv|]. now rewrite <- (Hrows Hpriv).
        + apply (Hnot Hn) in Hin. congruence.
      - intros [Hpriv Hin]. now rewrite (Hrows Hpriv). }
    split; [exact Main|]. split.
    + intros Hoff Hcount. rewrite Main. split; [tauto|]. intros Hpriv.
      split; [exact Hpriv|].
      unfold Feed.page, Prisma.findMany. rewrite Hoff, window_all.
      * apply sort_In, filter_In. split; [exact Hp|].
        unfold Feeds.liveBy. rewrite Hauth, Hlive. reflexivity.
      * rewrite sort_length. exact Hcount.
    + intros Hn it Hit.
      destruct (@handler_ok db Feeds.ByAuthor req body H) as (_ & topic & profile & ->).
      apply respond_posts_In in Hit. destruct Hit as (q & Hq & ->).
      rewrite enrich_isHidden. now apply Hnot.
  - do 2 eexists. split; [vm_compute; reflexivity|].
    split; [reflexivity|]. split; [reflexivity|].
    split; [simpl; tauto|]. repeat (split; [reflexivity|]).
    split; [vm_compute; discriminate|]. split; [reflexivity|].
    simpl. tauto.
  - eexists. split; [vm_compute; reflexivity|].
    split; [reflexivity|]. split; [reflexivity|]. simpl. tauto.
Qed.

Lemma author_feed_withholds_own_hidden_post_witness :
  exists body,
    Feed.getAuthorFeed Sample.db (Sample.feedRequest Sample.asAlice) = Ok body
    /\ (In (Post.id Sample.hiddenPost) (Feeds.ids body)
        <-> Feeds.privileged (Sample.feedRequest Sample.asAlice)).
Proof.
  eexists. split; [vm_compute; reflexivity|].
  epose proof (proj1 author_feed_withholds_own_hidden_post
                     Sample.db (Sample.feedRequest Sample.asAlice) _
                     Sample.hiddenPost) as T.
  cbv zeta in T.
  eapply T.
  - repeat constructor; simpl; intuition discriminate.
  - simpl. tauto.
  - reflexivity.
  - reflexivity.
  - reflexivity.
  - vm_compute. reflexivity.
  - reflexivity.
  - vm_compute. discriminate.
Defined.

(** ** Order of a feed page *)

Lemma compare_ordered (a b : Feed.Item) :
  Js.precedes Feed.compare a b <-> Feeds.ordered a b.
Proof.
  unfold Js.precedes, Feed.compare, Feeds.ordered.
  destruct (Feed.createdAt b - Feed.createdAt a =? 0) eqn:E; simpl;
    [apply Z.eqb_eq in E | apply Z.eqb_neq in E]; lia.
Qed.

Lemma compare_total (a b : Feed.Item) :
  Js.precedes Feed.compare a b \/ Js.precedes Feed.compare b a.
Proof. rewrite !compare_ordered. unfold Feeds.ordered. lia. Qed.

Lemma compare_trans (a b c : Feed.Item) :
  Js.precedes Feed.compare a b -> Js.precedes Feed.compare b c ->
  Js.precedes Feed.compare a c.
Proof. rewrite !compare_ordered. unfold Feeds.ordered. lia. Qed.

Lemma StronglySorted_weaken (A : Type) (R S : A -> A -> Prop) (l : list A) :
  (forall a b, R a b -> S a b) -> StronglySorted R l -> StronglySorted S l.
Proof.
  intros HRS. induction 1 as [|x l Hl IH Hx]; constructor; auto.
  eapply Forall_impl; [|exact Hx]. auto.
Qed.

(** C9. Every page a feed returns is ordered by creation time descending
    and, among posts of one creation time, by vote count descending; it
    holds the posts the query cut out of the (createdAt, id) order, so
    the order does not extend across pages: with two posts of one
    creation time and one post per page, the first page has the post
    without votes and the second the post with two. *)
Theorem feed_page_ordered_not_across_pages :
  (forall (db : Db.t) (e : Feeds.Endpoint) (req : Feed.Request) (body : Feed.Body),
      Feeds.handler e db req = Ok body ->
      StronglySorted Feeds.ordered (Feed.posts body)
      /\ Permutation (Feeds.ids body) (map Post.id (Feeds.rows e db req)))
  /\ (forall e : Feeds.Endpoint,
         exists first second,
           Feeds.handler e Sample.tied (Sample.pageOf 1 0) = Ok first
           /\ Feeds.handler e Sample.tied (Feeds.nextPage (Sample.pageOf 1 0)) = Ok second
           /\ map Feed.id (Feed.posts first ++ Feed.posts second) = [2; 1]
           /\ map Feed.voteCount (Feed.posts first ++ Feed.posts second) = [0; 2]
           /\ ~ StronglySorted Feeds.ordered (Feed.posts first ++ Feed.posts second)).
Proof.
  split.
  - intros db e req body H.
    destruct (@handler_ok db e req body H) as (_ & topic & profile & ->).
    split.
    + simpl. eapply StronglySorted_weaken; [apply compare_ordered|].
      apply sort_sorted; [apply compare_total|apply compare_trans].
    + unfold Feeds.ids. simpl.
      eapply perm_trans;
        [apply Permutation_map, Permutation_sym, sort_perm|].
      rewrite map_map. apply Permutation_refl.
  - intros e.
    destruct e; (do 2 eexists; split; [vm_compute; reflexivity|];
                 split; [vm_compute; reflexivity|];
                 split; [reflexivity|]; split; [reflexivity|];
                 intros S; simpl in S;
                 apply StronglySorted_inv in S; destruct S as [_ S];
                 apply Forall_inv in S;
                 unfold Feeds.ordered in S; simpl in S; lia).
Qed.

Lemma feed_page_ordered_not_across_pages_witness :
  exists body,
    Feed.getHomeFeed Sample.tied (Sample.pageOf 2 0) = Ok body
    /\ Feeds.ids body = [1; 2]
    /\ StronglySorted Feeds.ordered (Feed.posts body).
Proof.
  eexists. split; [vm_compute; reflexivity|]. split; [reflexivity|].
  apply (proj1 feed_page_ordered_not_across_pages
               Sample.tied Feeds.Home (Sample.pageOf 2 0)).
  vm_compute. reflexivity.
Defined.

(** ** Pagination: [hasMore] *)

Section HasMoreFacts.
Variable db : Db.t.

(** In a feed, [hasMore] says that the page is full. *)
Lemma feed_hasMore_page_full (e : Feeds.Endpoint) req body :
  Feeds.handler e db req = Ok body ->
  hasMore (Feed.pagination body)
  = (Z.of_nat (List.length (Feed.posts body)) =? Feed.effectiveLimit (Feed.query req)).
Proof.
  intros H. destruct (@handler_ok db e req body H) as (_ & topic & profile & ->).
  simpl. now rewrite sort_length, length_map.
Qed.

Lemma comments_ok req body :
  Comments.listCommentsForPost db req = Ok body ->
  exists postId,
    Comments.postId req = Some postId
    /\ let where_ := fun c => Comment.postId c =? postId in
       let limit := Comments.parsedLimit (Comments.query req) in
       let offset := Comments.parsedOffset (Comments.query req) in
       body = Comments.mkBody
                (map (Comments.include db)
                     (Prisma.findMany where_ Comments.orderBy offset limit
                                      (Db.comments db)))
                (Comments.mkPaging (Prisma.count where_ (Db.comments db))
                                   limit offset
                                   (offset + limit <? Prisma.count where_ (Db.comments db))).
Proof.
  unfold Comments.listCommentsForPost.
  destruct (Comments.postId req) as [pid|]; [|discriminate].
  destruct (Prisma.int4 pid); simpl; [|discriminate].
  destruct (Prisma.findFirst _ _); [|discriminate].
  destruct (Prisma.pageAccepted _ _); simpl; [|discriminate].
  intros [= <-]. exists pid. split; reflexivity.
Qed.

(** What the comment list looked up before it answered. *)
Lemma comments_ok_args req body :
  Comments.listCommentsForPost db req = Ok body ->
  exists postId p,
    Comments.postId req = Some postId
    /\ Prisma.int4 postId = true
    /\ Prisma.findFirst (CommentsCrud.livePost postId) (Db.posts db) = Some p
    /\ Prisma.pageAccepted (Comments.parsedOffset (Comments.query req))
                           (Comments.parsedLimit (Comments.query req)) = true.
Proof.
  unfold Comments.listCommentsForPost.
  destruct (Comments.postId req) as [pid|]; [|discriminate].
  destruct (Prisma.int4 pid) eqn:I; simpl; [|discriminate].
  destruct (Prisma.findFirst _ _) as [p|] eqn:F; [|discriminate].
  destruct (Prisma.pageAccepted _ _) eqn:A; simpl; [|discriminate].
  intros _. exists pid, p. repeat split; assumption.
Qed.

(** The comment list refuses with 400, 404 or, when a query throws,
    500. *)
Lemma comments_error req status msg :
  Comments.listCommentsForPost db req = Error status msg ->
  status = 400 \/ status = 404 \/ status = 500.
Proof.
  unfold Comments.listCommentsForPost.
  destruct (Comments.postId req) as [pid|]; [|intros [= <- _]; auto].
  destruct (Prisma.int4 pid); simpl; [|intros [= <- _]; auto].
  destruct (Prisma.findFirst _ _); [|intros [= <- _]; auto].
  destruct (Prisma.pageAccepted _ _); simpl; [discriminate|intros [= <- _]; auto].
Qed.

(** In the comment list, [hasMore] compares the end of the window with
    the total count. *)
Lemma comments_hasMore_total req body :
  Comments.listCommentsForPost db req = Ok body ->
  Comments.hasMore (Comments.pagination body)
  = (Comments.offset (Comments.pagination body)
     + Comments.limit (Comments.pagination body)
     <? Comments.total (Comments.pagination body)).
Proof.
  intros H. apply comments_ok in H. destruct H as (pid & _ & ->). reflexivity.
Qed.
End HasMoreFacts.

Lemma window_nonempty (A : Type) (skip take : Z) (rows : list A) :
  0 <= skip < 2 ^ 32 -> 1 <= take ->
  (Prisma.window skip take rows <> [] <-> skip < Z.of_nat (List.length rows)).
Proof.
  intros Hs Ht. unfold Prisma.window. rewrite Z.mod_small by exact Hs.
  destruct (take <? 0) eqn:E; [apply Z.ltb_lt in E; lia|].
  rewrite <- length_zero_iff_nil, length_firstn, length_skipn. lia.
Qed.

(** With a limit of at least one and the end of the page below [2^32],
    where [skip] starts over, the comment list's [hasMore] is exact: it is
    true exactly when the page that follows is not empty. *)
Lemma comments_hasMore_exact (db : Db.t) (req : Comments.Request) (body : Comments.Body) :
  Comments.listCommentsForPost db req = Ok body ->
  1 <= Comments.limit (Comments.pagination body) ->
  Comments.offset (Comments.pagination body)
  + Comments.limit (Comments.pagination body) < 2 ^ 32 ->
  forall postId, Comments.postId req = Some postId ->
  (Comments.hasMore (Comments.pagination body) = true <->
   Prisma.findMany (fun c => Comment.postId c =? postId) Comments.orderBy
                   (Comments.offset (Comments.pagination body)
                    + Comments.limit (Comments.pagination body))
                   (Comments.limit (Comments.pagination body))
                   (Db.comments db) <> []).
Proof.
  intros H Hl Hw pid Hpid. apply comments_ok in H.
  destruct H as (pid' & Hpid' & ->). cbn [Comments.pagination Comments.hasMore
    Comments.offset Comments.limit Comments.total] in *.
  assert (pid' = pid) as -> by congruence.
  assert (0 <= Comments.parsedOffset (Comments.query req))
    by (unfold Comments.parsedOffset; lia).
  unfold Prisma.findMany. rewrite window_nonempty by lia.
  rewrite sort_length, Z.ltb_lt. unfold Prisma.count. reflexivity.
Qed.

(** A feed page that is exactly full reports [hasMore] although the page
    that follows is empty. *)
Lemma feed_hasMore_at_page_boundary :
  forall e : Feeds.Endpoint,
    exists body next,
      Feeds.handler e Sample.tied (Sample.pageOf 2 0) = Ok body
      /\ Feeds.handler e Sample.tied (Feeds.nextPage (Sample.pageOf 2 0)) = Ok next
      /\ hasMore (Feed.pagination body) = true
      /\ Feed.posts next = [].
Proof.
  intros e. destruct e;
    (do 2 eexists; split; [vm_compute; reflexivity|];
     split; [vm_compute; reflexivity|]; split; reflexivity).
Qed.

(** C10, where the code departs from it. The comment list takes a
    negative limit as it comes: for [limit=-5] on a post with three
    comments the page holds all three, nothing follows, and [hasMore]
    is true. *)
Theorem comments_hasMore_negative_limit :
  exists body,
    Comments.listCommentsForPost
      Sample.thread (Sample.commentsRequest None (Some (-5))) = Ok body
    /\ map (fun v => Comment.id (Comments.comment v)) (Comments.comments body)
       = [1; 2; 3]
    /\ Comments.total (Comments.pagination body) = 3
    /\ Comments.limit (Comments.pagination body) = -5
    /\ Comments.offset (Comments.pagination body) = 0
    /\ Comments.hasMore (Comments.pagination body) = true.
Proof.
  eexists. split; [vm_compute; reflexivity|]. repeat split.
Qed.

(** ** Hidden comments in the comment list *)

(** C1, where the code departs from it. The comment list does not read
    the viewer and its query has no condition on [isHidden]: an anonymous
    viewer, who by the visibility policy may not see it, is handed the
    hidden comment of another user. *)
Theorem comment_list_ignores_hidden_flag :
  (forall (db : Db.t) (v1 v2 : option AuthUser) (postId : option Z) (q : Query),
      Comments.listCommentsForPost db (Comments.mkRequest v1 postId q)
      = Comments.listCommentsForPost db (Comments.mkRequest v2 postId q))
  /\ Comment.isHidden Sample.c2 = true
  /\ Visibility.isVisible (Comment.isHidden Sample.c2) None
                          (Comment.authorId Sample.c2) None = false
  /\ exists body,
      Comments.listCommentsForPost
        Sample.thread (Sample.commentsRequest None None) = Ok body
      /\ In Sample.c2 (map Comments.comment (Comments.comments body)).
Proof.
  split; [reflexivity|]. split; [reflexivity|]. split; [reflexivity|].
  eexists. split; [vm_compute; reflexivity|]. simpl. tauto.
Qed.

(** ** The report ledger *)

Section LedgerFacts.
Import Ledger.

Lemma find_map_same (A : Type) (f : A -> bool) (g : A -> A) (l : list A) :
  (forall x, f (g x) = f x) ->
  find f (map g l) = option_map g (find f l).
Proof.
  intros H. induction l as [|x l IH]; simpl; [reflexivity|].
  rewrite H. destruct (f x); [reflexivity|exact IH].
Qed.

Lemma target_eqb_eq (a b : Target) : target_eqb a b = true <-> a = b.
Proof.
  destruct a, b; simpl; rewrite ?Z.eqb_eq; split; intros H;
    try discriminate; try (injection H as ->); subst; reflexivity.
Qed.

Lemma target_eqb_refl (a : Target) : target_eqb a a = true.
Proof. now apply target_eqb_eq. Qed.

Lemma hidePost_id b p x : Post.id (hidePost b p x) = Post.id x.
Proof. unfold hidePost. now destruct (Post.id x =? p). Qed.

Lemma hideComment_id b c x : Comment.id (hideComment b c x) = Comment.id x.
Proof. unfold hideComment. now destruct (Comment.id x =? c). Qed.

(** Writing the flag of one item changes the flag of that item only. *)
Lemma hiddenOf_setHidden (b : bool) (t t' : Target) (db : Db.t) :
  hiddenOf (setHidden b t db) t'
  = if target_eqb t t' then option_map (fun _ => b) (hiddenOf db t')
    else hiddenOf db t'.
Proof.
  destruct t as [p|c], t' as [q|d]; simpl; try reflexivity;
    unfold Prisma.findFirst.
  - rewrite find_map_same by (intros x; now rewrite hidePost_id).
    destruct (find _ (Db.posts db)) as [x|] eqn:E; simpl.
    + apply find_some in E. destruct E as [_ E]. apply Z.eqb_eq in E.
      unfold hidePost. rewrite E, (Z.eqb_sym p q).
      now destruct (q =? p).
    + now destruct (p =? q).
  - rewrite find_map_same by (intros x; now rewrite hideComment_id).
    destruct (find _ (Db.comments db)) as [x|] eqn:E; simpl.
    + apply find_some in E. destruct E as [_ E]. apply Z.eqb_eq in E.
      unfold hideComment. rewrite E, (Z.eqb_sym c d).
      now destruct (d =? c).
    + now destruct (c =? d).
Qed.

Lemma hiddenOf_setHidden_same (b : bool) (t : Target) (db : Db.t) :
  hiddenOf (setHidden b t db) t = option_map (fun _ => b) (hiddenOf db t).
Proof. now rewrite hiddenOf_setHidden, target_eqb_refl. Qed.

(** It changes neither the author nor the soft-delete state of any item. *)
Lemma liveAuthor_setHidden (b : bool) (t t' : Target) (db : Db.t) :
  liveAuthor (setHidden b t db) t' = liveAuthor db t'.
Proof.
  destruct t as [p|c], t' as [q|d]; simpl; try reflexivity;
    unfold Prisma.findFirst.
  - rewrite find_map_same.
    + destruct (find _ (Db.posts db)) as [x|]; simpl; [|reflexivity].
      unfold hidePost. now destruct (Post.id x =? p).
    + intros x. unfold hidePost. now destruct (Post.id x =? p).
  - rewrite find_map_same.
    + destruct (find _ (Db.comments db)) as [x|]; simpl; [|reflexivity].
      unfold hideComment. now destruct (Comment.id x =? c).
    + intros x. unfold hideComment. now destruct (Comment.id x =? c).
Qed.

Lemma reports_setHidden (b : bool) (t : Target) (db : Db.t) :
  Db.reports (setHidden b t db) = Db.reports db.
Proof. now destruct t. Qed.

Lemma reportCount_setHidden (b : bool) (t t' : Target) (db : Db.t) :
  reportCount (setHidden b t db) t' = reportCount db t'.
Proof. unfold reportCount. now rewrite reports_setHidden. Qed.

Lemma hiddenOf_withReports rs (t : Target) (db : Db.t) :
  hiddenOf (withReports rs db) t = hiddenOf db t.
Proof. now destruct t. Qed.

Lemma liveAuthor_withReports rs (t : Target) (db : Db.t) :
  liveAuthor (withReports rs db) t = liveAuthor db t.
Proof. now destruct t. Qed.

(** A target that can be reported exists, so it has a hidden flag. *)
Lemma liveAuthor_exists (db : Db.t) (t : Target) (a : string) :
  liveAuthor db t = Some a -> exists h, hiddenOf db t = Some h.
Proof.
  destruct t as [p|c]; simpl; unfold Prisma.findFirst.
  - destruct (find _ (Db.posts db)) as [x|] eqn:E; [|discriminate].
    intros _. apply find_some in E. destruct E as [Hin E].
    apply andb_true_iff in E. destruct E as [E _].
    destruct (find (fun x => Post.id x =? p) (Db.posts db)) as [y|] eqn:F.
    + now exists (Post.isHidden y).
    + exfalso. apply (find_none _ _ F) in Hin. simpl in Hin. congruence.
  - destruct (find _ (Db.comments db)) as [x|]; [|discriminate].
    intros _. now exists (Comment.isHidden x).
Qed.

Lemma count_app (A : Type) (f : A -> bool) (l : list A) (x : A) :
  Prisma.count f (l ++ [x]) = Prisma.count f l + (if f x then 1 else 0).
Proof.
  unfold Prisma.count. rewrite filter_app, length_app. simpl.
  destruct (f x); simpl; lia.
Qed.

Lemma count_none (A : Type) (f : A -> bool) (l : list A) :
  existsb f l = false -> Prisma.count f l = 0.
Proof.
  unfold Prisma.count. induction l as [|x l IH]; simpl; [reflexivity|].
  destruct (f x); simpl; [discriminate|exact IH].
Qed.

Lemma targetOf_references (p c : option Z) (t : Target) (r : Report.t) :
  targetOf p c = Some t ->
  Report.postId r = p -> Report.commentId r = c ->
  references t r = true.
Proof.
  intros Ht Hp Hc. subst p c.
  destruct (Report.postId r) as [x|] eqn:E1, (Report.commentId r) as [y|] eqn:E2;
    simpl in Ht; try discriminate; injection Ht as <-; simpl;
    rewrite ?E1, ?E2; apply Z.eqb_refl.
Qed.

Lemma submitReport_ok db reporterId now s db' report :
  submitReport db reporterId now s = (db', inr report) ->
  exists t why author,
    targetOf (postId s) (commentId s) = Some t
    /\ parseReason (reason s) = Some why
    /\ liveAuthor db t = Some author
    /\ String.eqb reporterId author = false
    /\ existsb (byReporter reporterId t) (Db.reports db) = false
    /\ report = Report.mk (nextReportId db) reporterId (postId s) (commentId s)
                          why (details s) now
    /\ db' = afterSubmit db t report.
Proof.
  unfold submitReport.
  destruct (targetOf _ _) as [t|]; [|discriminate].
  destruct (parseReason _) as [why|]; [|discriminate].
  destruct (liveAuthor db t) as [author|] eqn:Ha; [|discriminate].
  destruct (String.eqb reporterId author) eqn:Hs; [discriminate|].
  destruct (existsb _ _) eqn:Hd; [discriminate|].
  intros [= <- <-]. exists t, why, author. repeat split; auto.
Qed.

Lemma submitReport_error db reporterId now s db' e :
  submitReport db reporterId now s = (db', inl e) -> db' = db.
Proof.
  unfold submitReport.
  destruct (targetOf _ _) as [t|]; [|now intros [= <-]].
  destruct (parseReason _) as [why|]; [|now intros [= <-]].
  destruct (liveAuthor db t) as [author|]; [|now intros [= <-]].
  destruct (String.eqb reporterId author); [now intros [= <-]|].
  destruct (existsb _ _); [now intros [= <-]|discriminate].
Qed.

Lemma afterSubmit_count db t report :
  references t report = true ->
  reportCount (afterSubmit db t report) t = reportCount db t + 1.
Proof.
  intros Hr. unfold afterSubmit.
  assert (E : reportCount (withReports (Db.reports db ++ [report]) db) t
              = reportCount db t + 1).
  { unfold reportCount. simpl. now rewrite count_app, Hr. }
  destruct (hiddenOf _ t) as [[|]|]; auto.
  destruct (THRESHOLD <=? _); auto.
  now rewrite reportCount_setHidden.
Qed.

(** The flag after a submission: set if it was set or the count has
    reached the threshold. *)
Lemma afterSubmit_hidden db t report h :
  references t report = true ->
  hiddenOf db t = Some h ->
  hiddenOf (afterSubmit db t report) t
  = Some (h || (THRESHOLD <=? reportCount db t + 1)).
Proof.
  intros Hr Hh. unfold afterSubmit.
  assert (E : reportCount (withReports (Db.reports db ++ [report]) db) t
              = reportCount db t + 1).
  { unfold reportCount. simpl. now rewrite count_app, Hr. }
  rewrite hiddenOf_withReports, Hh, E. destruct h; simpl.
  - now rewrite hiddenOf_withReports.
  - destruct (THRESHOLD <=? _).
    + now rewrite hiddenOf_setHidden_same, hiddenOf_withReports, Hh.
    + now rewrite hiddenOf_withReports.
Qed.

Lemma afterSubmit_hidden_other db t t' report :
  t <> t' ->
  hiddenOf (afterSubmit db t report) t' = hiddenOf db t'.
Proof.
  intros Hne. unfold afterSubmit.
  assert (F : target_eqb t t' = false).
  { destruct (target_eqb t t') eqn:F; [|reflexivity].
    now apply target_eqb_eq in F. }
  destruct (hiddenOf _ t) as [[|]|]; try apply hiddenOf_withReports.
  destruct (THRESHOLD <=? _); [|apply hiddenOf_withReports].
  rewrite hiddenOf_setHidden, F. apply hiddenOf_withReports.
Qed.

Lemma resolve_exists db reportId t :
  resolve db reportId = Some t -> exists h, hiddenOf db t = Some h.
Proof.
  unfold resolve. destruct (Prisma.findFirst _ _) as [r|]; [|discriminate].
  destruct (targetOf _ _) as [t0|]; [|discriminate].
  destruct (hiddenOf db t0) as [h|] eqn:E; [|discriminate].
  intros [= <-]. now exists h.
Qed.
(** One accepted submission against [t]: the count goes up by one and
    the flag is set if it was set or the new count has reached the
    threshold. *)
Lemma submitReport_step db reporterId now s db' report t :
  submitReport db reporterId now s = (db', inr report) ->
  targetOf (postId s) (commentId s) = Some t ->
  exists h, hiddenOf db t = Some h
            /\ reportCount db' t = reportCount db t + 1
            /\ hiddenOf db' t = Some (h || (THRESHOLD <=? reportCount db t + 1)).
Proof.
  intros E Ht. apply submitReport_ok in E.
  destruct E as (t0 & why & author & Ht0 & _ & Ha & _ & _ & Hrep & ->).
  assert (t0 = t) as -> by congruence.
  assert (Hr : references t report = true).
  { eapply targetOf_references; [exact Ht| |]; now subst report. }
  destruct (liveAuthor_exists _ _ Ha) as [h Hh]. exists h.
  split; [exact Hh|]. split.
  - now apply afterSubmit_count.
  - now apply afterSubmit_hidden.
Qed.
End LedgerFacts.

(** C2. Of the operations that write the ledger, only a successful
    submission turns the hidden flag of an item from false to true, and it
    does so exactly when the count it recomputes for that item, one more
    than before and taken in the same step as the insert, has reached 5:
    below 5 the flag is left as it was, and at 5 or above the item is
    hidden when the submission returns. A failed submission changes
    nothing. *)
Theorem hidden_flips_exactly_at_threshold :
  forall (db : Db.t) (op : Ledger.Op) (t : Ledger.Target),
    (Ledger.hiddenOf db t = Some false
     /\ Ledger.hiddenOf (Ledger.run op db) t = Some true
     <-> exists reporterId now s report,
        op = Ledger.Submit reporterId now s
        /\ Ledger.submitReport db reporterId now s = (Ledger.run op db, inr report)
        /\ Ledger.targetOf (Ledger.postId s) (Ledger.commentId s) = Some t
        /\ Ledger.hiddenOf db t = Some false
        /\ Ledger.THRESHOLD <= Ledger.reportCount (Ledger.run op db) t)
    /\ (forall reporterId now s db' report,
           Ledger.submitReport db reporterId now s = (db', inr report) ->
           Ledger.targetOf (Ledger.postId s) (Ledger.commentId s) = Some t ->
           Ledger.reportCount db' t = Ledger.reportCount db t + 1
           /\ (Ledger.THRESHOLD <= Ledger.reportCount db' t ->
               Ledger.hiddenOf db' t = Some true)
           /\ (Ledger.reportCount db' t < Ledger.THRESHOLD ->
               Ledger.hiddenOf db' t = Ledger.hiddenOf db t))
    /\ (forall reporterId now s db' e,
           Ledger.submitReport db reporterId now s = (db', inl e) -> db' = db).
Proof.
  intros db op t.
  assert (Step : forall reporterId now s db' report,
             Ledger.submitReport db reporterId now s = (db', inr report) ->
             Ledger.targetOf (Ledger.postId s) (Ledger.commentId s) = Some t ->
             exists h, Ledger.hiddenOf db t = Some h
                       /\ Ledger.reportCount db' t = Ledger.reportCount db t + 1
                       /\ Ledger.hiddenOf db' t
                          = Some (h || (Ledger.THRESHOLD <=? Ledger.reportCount db t + 1)))
    by (intros; eapply submitReport_step; eauto).
  split; [split|split].
  - intros [H0 H1]. destruct op as [reporterId now s|rid|rid]; simpl in *.
    + destruct (Ledger.submitReport db reporterId now s) as [d [e|report]] eqn:E;
        simpl in *.
      * apply submitReport_error in E. subst d. congruence.
      * exists reporterId, now, s, report.
        split; [reflexivity|]. split; [exact E|].
        pose proof E as E'. apply submitReport_ok in E'.
        destruct E' as (t0 & why & author & Ht0 & _ & _ & _ & _ & _ & Hd).
        destruct (Ledger.target_eqb t0 t) eqn:F.
        -- apply target_eqb_eq in F. subst t0.
           destruct (Step _ _ _ _ _ E Ht0) as (h & Hh & Hc & Hf).
           assert (h = false) as -> by congruence.
           rewrite Hf in H1. simpl in H1. injection H1 as H1.
           apply Z.leb_le in H1. repeat split; auto. lia.
        -- exfalso. subst d.
           rewrite afterSubmit_hidden_other in H1; [congruence|].
           intros ->. now rewrite target_eqb_refl in F.
    + unfold Ledger.unhide in H1.
      destruct (Ledger.resolve db rid) as [t0|]; simpl in H1; [|congruence].
      rewrite hiddenOf_setHidden in H1.
      destruct (Ledger.target_eqb t0 t); [|congruence].
      rewrite H0 in H1. discriminate.
    + unfold Ledger.dismiss in H1.
      destruct (Ledger.resolve db rid) as [t0|]; simpl in H1; [|congruence].
      rewrite hiddenOf_setHidden, hiddenOf_withReports in H1.
      destruct (Ledger.target_eqb t0 t); [|congruence].
      rewrite H0 in H1. discriminate.
  - intros (reporterId & now & s & report & -> & E & Ht & H0 & Hc).
    split; [exact H0|].
    destruct (Step _ _ _ _ _ E Ht) as (h & Hh & Hcount & Hf).
    rewrite Hf. assert (h = false) as -> by congruence. simpl.
    rewrite Hcount in Hc. apply Z.leb_le in Hc. now rewrite Hc.
  - intros reporterId now s db' report E Ht.
    destruct (Step _ _ _ _ _ E Ht) as (h & Hh & Hcount & Hf).
    split; [exact Hcount|]. rewrite Hf, Hh, Hcount. split; intros Hc.
    + apply Z.leb_le in Hc. rewrite Hc. now rewrite orb_true_r.
    + apply Z.leb_gt in Hc. rewrite Hc. now rewrite orb_false_r.
  - intros reporterId now s db' e. apply submitReport_error.
Qed.

Lemma hidden_flips_exactly_at_threshold_witness :
  Ledger.hiddenOf Sample.reported (Ledger.OnPost 3) = Some false
  /\ Ledger.hiddenOf Sample.hiddenAfterFifth (Ledger.OnPost 3) = Some true.
Proof.
  apply (proj1 (hidden_flips_exactly_at_threshold
                  Sample.reported Sample.fifth (Ledger.OnPost 3))).
  exists "u-alice"%string, 9000, Sample.spam,
         (Report.mk 5 "u-alice" (Some 3) None SPAM None 9000).
  split; [reflexivity|]. split; [vm_compute; reflexivity|].
  split; [reflexivity|]. split; [reflexivity|].
  vm_compute. discriminate.
Defined.

Lemma count_filter_out (A : Type) (f : A -> bool) (l : list A) :
  Prisma.count f (filter (fun x => negb (f x)) l) = 0.
Proof.
  unfold Prisma.count. induction l as [|x l IH]; simpl; [reflexivity|].
  destruct (f x) eqn:E; simpl; [exact IH|]. now rewrite E.
Qed.

(** C6. Dismissing through a report id that resolves to a target deletes
    every report row referencing that target, and only those, and leaves
    the target with hidden = false, whatever the flag and the number of
    reports were before; a report id that does not resolve fails with
    NotFound and changes nothing. *)
Theorem dismiss_clears_reports_and_unhides :
  forall (db : Db.t) (reportId : Z),
    (forall t, Ledger.resolve db reportId = Some t ->
               exists db',
                 Ledger.dismiss db reportId = (db', inr t)
                 /\ Db.reports db'
                    = filter (fun r => negb (Ledger.references t r)) (Db.reports db)
                 /\ Ledger.reportCount db' t = 0
                 /\ Ledger.hiddenOf db' t = Some false)
    /\ (Ledger.resolve db reportId = None ->
        Ledger.dismiss db reportId = (db, inl Ledger.NotFound)).
Proof.
  intros db reportId. split.
  - intros t Hres. unfold Ledger.dismiss. rewrite Hres.
    eexists. split; [reflexivity|].
    destruct (resolve_exists _ _ Hres) as [h Hh].
    split; [now rewrite reports_setHidden|]. split.
    + rewrite reportCount_setHidden. unfold Ledger.reportCount. simpl.
      apply count_filter_out.
    + now rewrite hiddenOf_setHidden_same, hiddenOf_withReports, Hh.
  - intros Hres. unfold Ledger.dismiss. now rewrite Hres.
Qed.

Lemma dismiss_clears_reports_and_unhides_witness :
  Ledger.reportCount Sample.hiddenAfterFifth (Ledger.OnPost 3) = 5
  /\ Ledger.hiddenOf Sample.hiddenAfterFifth (Ledger.OnPost 3) = Some true
  /\ exists db',
      Ledger.dismiss Sample.hiddenAfterFifth 2 = (db', inr (Ledger.OnPost 3))
      /\ Db.reports db'
         = filter (fun r => negb (Ledger.references (Ledger.OnPost 3) r))
                  (Db.reports Sample.hiddenAfterFifth)
      /\ Ledger.reportCount db' (Ledger.OnPost 3) = 0
      /\ Ledger.hiddenOf db' (Ledger.OnPost 3) = Some false.
Proof.
  split; [reflexivity|]. split; [reflexivity|].
  apply (proj1 (dismiss_clears_reports_and_unhides Sample.hiddenAfterFifth 2)).
  reflexivity.
Defined.

(** C7. Once a reporter's report against a target has been accepted, a
    further submission by that reporter against that target is refused
    and leaves the store as it is, with exactly one report row for the
    pair; the refusal is Conflict for every submission that names one of
    the enumerated reasons. *)
Theorem duplicate_report_conflicts :
  forall (db db' : Db.t) (reporterId : string) (now : Z)
         (s : Ledger.Submission) (report : Report.t) (t : Ledger.Target),
    Ledger.submitReport db reporterId now s = (db', inr report) ->
    Ledger.targetOf (Ledger.postId s) (Ledger.commentId s) = Some t ->
    Prisma.count (Ledger.byReporter reporterId t) (Db.reports db') = 1
    /\ forall (again : Z) (s2 : Ledger.Submission),
        Ledger.targetOf (Ledger.postId s2) (Ledger.commentId s2) = Some t ->
        fst (Ledger.submitReport db' reporterId again s2) = db'
        /\ (exists e, snd (Ledger.submitReport db' reporterId again s2) = inl e)
        /\ (Ledger.parseReason (Ledger.reason s2) <> None ->
            Ledger.submitReport db' reporterId again s2 = (db', inl Ledger.Conflict)).
Proof.
  intros db db' reporterId now s report t E Ht.
  apply submitReport_ok in E.
  destruct E as (t0 & why & author & Ht0 & _ & Ha & Hs & Hd & Hrep & ->).
  assert (t0 = t) as -> by congruence.
  assert (Hr : Ledger.references t report = true).
  { eapply targetOf_references; [exact Ht| |]; now subst report. }
  assert (Hby : Ledger.byReporter reporterId t report = true).
  { unfold Ledger.byReporter. rewrite Hr. subst report. simpl.
    now rewrite String.eqb_refl. }
  assert (Hreports : Db.reports (Ledger.afterSubmit db t report)
                     = Db.reports db ++ [report]).
  { unfold Ledger.afterSubmit. destruct (Ledger.hiddenOf _ t) as [[|]|]; auto.
    destruct (Ledger.THRESHOLD <=? _); auto. now rewrite reports_setHidden. }
  assert (Hauthor : Ledger.liveAuthor (Ledger.afterSubmit db t report) t = Some author).
  { unfold Ledger.afterSubmit. destruct (Ledger.hiddenOf _ t) as [[|]|];
      try destruct (Ledger.THRESHOLD <=? _);
      rewrite ?liveAuthor_setHidden, liveAuthor_withReports; exact Ha. }
  assert (Hdup : existsb (Ledger.byReporter reporterId t)
                         (Db.reports (Ledger.afterSubmit db t report)) = true).
  { rewrite Hreports, existsb_app. simpl. now rewrite Hby, orb_true_r. }
  split.
  - rewrite Hreports, count_app, Hby, (count_none _ _ Hd). reflexivity.
  - intros again s2 Ht2. unfold Ledger.submitReport. rewrite Ht2.
    destruct (Ledger.parseReason (Ledger.reason s2)) as [why2|].
    + rewrite Hauthor, Hs, Hdup. simpl. repeat split; eauto.
    + simpl. repeat split; eauto. intros H. now contradiction H.
Qed.

Lemma duplicate_report_conflicts_witness :
  Prisma.count (Ledger.byReporter "u-alice" (Ledger.OnPost 3))
               (Db.reports Sample.hiddenAfterFifth) = 1
  /\ Ledger.submitReport Sample.hiddenAfterFifth "u-alice" 9500 Sample.spam
     = (Sample.hiddenAfterFifth, inl Ledger.Conflict).
Proof.
  destruct (@duplicate_report_conflicts
              Sample.reported Sample.hiddenAfterFifth "u-alice" 9000 Sample.spam
              (Report.mk 5 "u-alice" (Some 3) None SPAM None 9000)
              (Ledger.OnPost 3))
    as [H1 H2].
  - vm_compute. reflexivity.
  - reflexivity.
  - split; [exact H1|].
    apply (H2 9500 Sample.spam); [reflexivity|].
    vm_compute. discriminate.
Defined.

(** Submissions against one target taken in any serial order: each adds
    one to the count, and the item ends hidden exactly when it was hidden
    before or a submission found the count at 5 or above; the result does
    not depend on the order. *)
Lemma serial_submissions (t : Ledger.Target) :
  forall (subs : list (string * Z * Ledger.Submission)) (db db' : Db.t) (h : bool),
    Forall (fun sub => Ledger.targetOf (Ledger.postId (snd sub))
                                       (Ledger.commentId (snd sub)) = Some t) subs ->
    Ledger.hiddenOf db t = Some h ->
    Ledger.submitAll db subs = Some db' ->
    Ledger.reportCount db' t
    = Ledger.reportCount db t + Z.of_nat (List.length subs)
    /\ Ledger.hiddenOf db' t
       = Some (h || ((0 <? Z.of_nat (List.length subs))
                     && (Ledger.THRESHOLD
                         <=? Ledger.reportCount db t + Z.of_nat (List.length subs)))).
Proof.
  induction subs as [|[[reporterId now] s] rest IH]; intros db db' h Hall Hh Hrun.
  - simpl in *. injection Hrun as <-. split; [lia|].
    now rewrite Hh, orb_false_r.
  - simpl in Hrun. inversion Hall as [|? ? Ht Hrest]; subst. simpl in Ht.
    destruct (Ledger.submitReport db reporterId now s) as [d [e|report]] eqn:E;
      [discriminate|].
    destruct (@submitReport_step db reporterId now s d report t E Ht)
      as (h0 & Hh0 & Hc & Hd).
    assert (h0 = h) as -> by congruence.
    destruct (IH d db' _ Hrest Hd Hrun) as [IHc IHh].
    cbn [List.length]. rewrite Nat2Z.inj_succ.
    split; [rewrite IHc, Hc; lia|].
    rewrite IHh, Hc. f_equal. unfold Ledger.THRESHOLD.
    pose proof (Nat2Z.is_nonneg (List.length rest)) as Hn.
    destruct h; cbn [orb]; [reflexivity|].
    destruct (Z.leb_spec 5 (Ledger.reportCount db t + 1));
      destruct (Z.ltb_spec 0 (Z.of_nat (List.length rest)));
      destruct (Z.leb_spec 5 (Ledger.reportCount db t + 1
                              + Z.of_nat (List.length rest)));
      destruct (Z.ltb_spec 0 (Z.succ (Z.of_nat (List.length rest))));
      destruct (Z.leb_spec 5 (Ledger.reportCount db t
                              + Z.succ (Z.of_nat (List.length rest))));
      cbn [orb andb]; try reflexivity; lia.
Qed.

(** ** The queries against the visibility policy *)

(** On the posts of the browsed author, the author feed's query is the
    visibility policy when the URL spells the author's id as the store
    does. *)
Lemma author_feed_applies_policy (req : Feed.Request) (p : Post.t) :
  Post.authorId p = Feed.authorId req ->
  Uuid.parse (Feed.authorId req) <> None ->
  Feeds.whereOf Feeds.ByAuthor req p
  = Visibility.isVisible (Post.isHidden p) (Post.deletedAt p) (Post.authorId p)
                         (Feed.user req).
Proof.
  intros E U. simpl.
  unfold Feed.authorWhere, Visibility.isVisible, Feed.showHidden,
    Feed.isAdminOf, Visibility.viewerIsAdmin, Feed.userIdOf.
  destruct (Uuid.parse (Feed.authorId req)) as [c|] eqn:P; [|contradiction].
  rewrite E, (uuid_eqb_same _ P). simpl.
  destruct (Prisma.isNull (Post.deletedAt p)); simpl; [|reflexivity].
  destruct (Js.strictEq _ _), (Post.isHidden p);
    destruct (Feed.user req) as [u|]; try destruct (au_isAdmin u); reflexivity.
Qed.

(** The home feed's query is the policy with the author's exemption left
    out: it differs from the policy exactly on a non-admin's own hidden
    live posts. *)
Lemma home_feed_policy_gap (req : Feed.Request) (p : Post.t) :
  Feed.homeWhere (Feed.isAdminOf req) p
  = Visibility.isVisible (Post.isHidden p) (Post.deletedAt p) (Post.authorId p)
                         (Feed.user req)
    && (negb (Post.isHidden p) || Feed.isAdminOf req).
Proof.
  unfold Feed.homeWhere, Visibility.isVisible, Feed.isAdminOf,
    Visibility.viewerIsAdmin.
  destruct (Prisma.isNull (Post.deletedAt p)); simpl; [|reflexivity].
  destruct (Post.isHidden p), (Js.strictEq _ _);
    destruct (Feed.user req) as [u|]; try destruct (au_isAdmin u); reflexivity.
Qed.

(** ** The threshold invariant across ledger operations *)

Section ThresholdInvariant.
Import Ledger.

Lemma references_only (p c : option Z) (t0 t : Target) (r : Report.t) :
  targetOf p c = Some t0 ->
  Report.postId r = p -> Report.commentId r = c ->
  references t r = true -> t = t0.
Proof.
  intros Ht Hp Hc. subst p c.
  destruct (Report.postId r) as [x|] eqn:E1, (Report.commentId r) as [y|] eqn:E2;
    simpl in Ht; try discriminate; injection Ht as <-;
    destruct t as [q|d]; simpl; rewrite ?E1, ?E2; simpl;
    try discriminate; intros H; apply Z.eqb_eq in H; now subst.
Qed.

Lemma afterSubmit_count_any db t0 t report :
  reportCount (afterSubmit db t0 report) t
  = reportCount db t + (if references t report then 1 else 0).
Proof.
  unfold afterSubmit.
  assert (E : reportCount (withReports (Db.reports db ++ [report]) db) t
              = reportCount db t + (if references t report then 1 else 0)).
  { unfold reportCount. simpl. now rewrite count_app. }
  destruct (hiddenOf _ t0) as [[|]|]; auto.
  destruct (THRESHOLD <=? _); auto.
  now rewrite reportCount_setHidden.
Qed.

Lemma count_filter_le (A : Type) (f g : A -> bool) (l : list A) :
  Prisma.count f (filter g l) <= Prisma.count f l.
Proof.
  unfold Prisma.count. induction l as [|x l IH]; simpl; [lia|].
  destruct (g x), (f x) eqn:E; simpl; rewrite ?E; simpl; lia.
Qed.

(** Submissions and dismissals, accepted or refused, keep every unhidden
    item below the threshold; only an admin's unhide can leave an item
    unhidden with five or more reports. *)
Lemma hiddenAboveThreshold_preserved (db : Db.t) (op : Op) :
  (forall reportId, op <> Unhide reportId) ->
  hiddenAboveThreshold db -> hiddenAboveThreshold (run op db).
Proof.
  intros Hop Inv t Hf. destruct op as [reporterId now s|rid|rid];
    [| now contradiction (Hop rid) |]; simpl in *.
  - destruct (submitReport db reporterId now s) as [d [e|report]] eqn:E; simpl in *.
    + apply submitReport_error in E. subst d. now apply Inv.
    + pose proof E as E'. apply submitReport_ok in E'.
      destruct E' as (t0 & why & author & Ht0 & _ & _ & _ & _ & Hrep & Hd).
      destruct (target_eqb t0 t) eqn:F.
      * apply target_eqb_eq in F. subst t0.
        destruct (@submitReport_step db reporterId now s d report t E Ht0)
          as (h & Hh & Hc & Hd').
        rewrite Hd' in Hf. injection Hf as Hf.
        apply orb_false_iff in Hf. destruct Hf as [_ Hf].
        apply Z.leb_gt in Hf. lia.
      * assert (Hne : t0 <> t) by (intros ->; now rewrite target_eqb_refl in F).
        subst d. rewrite afterSubmit_hidden_other in Hf by exact Hne.
        rewrite afterSubmit_count_any.
        destruct (references t report) eqn:R; [|apply Inv in Hf; lia].
        exfalso. apply Hne. symmetry.
        eapply references_only; [exact Ht0| | |exact R]; now subst report.
  - unfold dismiss in *.
    destruct (resolve db rid) as [t0|]; simpl in *; [|now apply Inv].
    rewrite reportCount_setHidden. unfold reportCount. simpl.
    rewrite hiddenOf_setHidden, hiddenOf_withReports in Hf.
    destruct (target_eqb t0 t) eqn:F.
    + apply target_eqb_eq in F. subst t0.
      rewrite count_filter_out. unfold THRESHOLD. lia.
    + apply Inv in Hf. unfold reportCount in Hf.
      pose proof (count_filter_le (references t)
                    (fun r => negb (references t0 r)) (Db.reports db)).
      lia.
Qed.
End ThresholdInvariant.

(** ** Trimming *)

Section TrimFacts.
Import JsString.

Lemma trimStart_length (s : string) :
  (String.length (trimStart s) <= String.length s)%nat.
Proof.
  induction s as [|c s IH]; simpl; [lia|].
  destruct (isWhiteSpace c); simpl; lia.
Qed.

Lemma trimEnd_length (s : string) :
  (String.length (trimEnd s) <= String.length s)%nat.
Proof.
  induction s as [|c s IH]; simpl; [lia|].
  destruct (trimEnd s); [destruct (isWhiteSpace c)|]; simpl in *; lia.
Qed.

Lemma trimStart_first (s : string) (c : ascii) :
  first (trimStart s) = Some c -> isWhiteSpace c = false.
Proof.
  induction s as [|d s IH]; simpl; [discriminate|].
  destruct (isWhiteSpace d) eqn:E; [exact IH|].
  simpl. now intros [= <-].
Qed.

Lemma trimStart_fixed (s : string) :
  (forall c, first s = Some c -> isWhiteSpace c = false) -> trimStart s = s.
Proof.
  destruct s as [|c s]; simpl; [reflexivity|].
  intros H. now rewrite (H c eq_refl).
Qed.

Lemma trimEnd_last (s : string) (c : ascii) :
  last (trimEnd s) = Some c -> isWhiteSpace c = false.
Proof.
  induction s as [|d s IH]; simpl; [discriminate|].
  destruct (trimEnd s) as [|e t] eqn:E.
  - destruct (isWhiteSpace d) eqn:W; simpl; [discriminate|].
    now intros [= <-].
  - simpl. exact IH.
Qed.

Lemma trimEnd_first (s : string) :
  trimEnd s <> EmptyString -> first (trimEnd s) = first s.
Proof.
  destruct s as [|d s]; simpl; [reflexivity|].
  destruct (trimEnd s); [destruct (isWhiteSpace d)|]; simpl; congruence.
Qed.

Lemma trimEnd_fixed (s : string) :
  (forall c, last s = Some c -> isWhiteSpace c = false) -> trimEnd s = s.
Proof.
  induction s as [|d s IH]; simpl; [reflexivity|].
  intros H. destruct s as [|e s].
  - simpl. now rewrite (H d eq_refl).
  - rewrite IH by exact H. reflexivity.
Qed.

Lemma trim_first (s : string) (c : ascii) :
  first (trim s) = Some c -> isWhiteSpace c = false.
Proof.
  unfold trim. intros H.
  destruct (trimEnd (trimStart s)) eqn:E; [discriminate|].
  rewrite <- E in H. rewrite trimEnd_first in H by congruence.
  now apply trimStart_first in H.
Qed.

Lemma trim_last (s : string) (c : ascii) :
  last (trim s) = Some c -> isWhiteSpace c = false.
Proof. apply trimEnd_last. Qed.

Lemma trim_length (s : string) :
  (String.length (trim s) <= String.length s)%nat.
Proof.
  unfold trim. pose proof (trimEnd_length (trimStart s)).
  pose proof (trimStart_length s). lia.
Qed.

(** A string is left as it is exactly when neither end is white space. *)
Lemma trim_fixed_iff (s : string) :
  trim s = s <->
  (forall c, first s = Some c -> isWhiteSpace c = false)
  /\ (forall c, last s = Some c -> isWhiteSpace c = false).
Proof.
  split.
  - intros E. split; intros c H; rewrite <- E in H;
      [now apply trim_first in H|now apply trim_last in H].
  - intros [H1 H2]. unfold trim. rewrite (trimStart_fixed _ H1).
    now apply trimEnd_fixed.
Qed.

Lemma trim_idempotent (s : string) : trim (trim s) = trim s.
Proof.
  apply trim_fixed_iff. split; intros c; [apply trim_first|apply trim_last].
Qed.
End TrimFacts.

(** ** Creating a comment *)

Section CreateFacts.
Import CommentsCrud.

Lemma createComment_ok db req newId now db' v :
  createComment db req newId now = (db', Ok v) ->
  exists content postId p,
    c_content req = Some content
    /\ (MIN_CONTENT_LENGTH <= String.length (JsString.trim content))%nat
    /\ parseIntId (c_postId req) = Some postId
    /\ Prisma.findFirst (livePost postId) (Db.posts db) = Some p
    /\ v = mkCreated
             (Comment.mk newId (JsString.trim content) (au_id (c_user req))
                         postId now false)
             (Feed.findAuthor db (au_id (c_user req)))
    /\ db' = withComments (Db.comments db ++ [created v]) db.
Proof.
  unfold createComment.
  destruct (c_content req) as [content|]; [|discriminate].
  destruct (JsString.falsy (Some content)); [discriminate|].
  destruct (String.length (JsString.trim content) <? MIN_CONTENT_LENGTH)%nat eqn:L;
    [discriminate|].
  destruct (falsyId (c_postId req)); [discriminate|].
  destruct (parseIntId (c_postId req)) as [postId|]; [|discriminate].
  destruct (Prisma.int4 postId); simpl; [|discriminate].
  destruct (Prisma.findFirst _ _) as [p|] eqn:F; [|discriminate].
  destruct (insertThrows _ _); [discriminate|].
  intros [= <- <-]. exists content, postId, p.
  apply Nat.ltb_ge in L. repeat split; auto.
Qed.

(** What the database checked before it took the row. *)
Lemma createComment_taken db req newId now db' v :
  createComment db req newId now = (db', Ok v) ->
  Prisma.int4 (Comment.postId (created v)) = true
  /\ Prisma.int4 newId = true
  /\ JsString.hasNul (Comment.content (created v)) = false
  /\ createdAuthor v <> None.
Proof.
  unfold createComment.
  destruct (c_content req) as [content|]; [|discriminate].
  destruct (JsString.falsy (Some content)); [discriminate|].
  destruct (String.length (JsString.trim content) <? MIN_CONTENT_LENGTH)%nat eqn:L;
    [discriminate|].
  destruct (falsyId (c_postId req)); [discriminate|].
  destruct (parseIntId (c_postId req)) as [postId|]; [|discriminate].
  destruct (Prisma.int4 postId) eqn:I; simpl; [|discriminate].
  destruct (Prisma.findFirst _ _) as [p|] eqn:F; [|discriminate].
  destruct (insertThrows _ _) eqn:T; [discriminate|].
  intros [= _ <-]. unfold insertThrows in T. simpl in *.
  apply orb_false_iff in T. destruct T as [T T3].
  apply orb_false_iff in T. destruct T as [T1 T2].
  apply negb_false_iff in T3.
  repeat split; auto.
  destruct (Feed.findAuthor db (au_id (c_user req))); [discriminate|discriminate].
Qed.

Lemma createComment_error db req newId now db' status msg :
  createComment db req newId now = (db', Error status msg) ->
  db' = db /\ (status = 400 \/ status = 404 \/ status = 500).
Proof.
  unfold createComment.
  destruct (c_content req) as [content|]; [|intros [= <- <- _]; auto].
  destruct (JsString.falsy (Some content)); [intros [= <- <- _]; auto|].
  destruct (String.length (JsString.trim content) <? MIN_CONTENT_LENGTH)%nat;
    [intros [= <- <- _]; auto|].
  destruct (falsyId (c_postId req)); [intros [= <- <- _]; auto|].
  destruct (parseIntId (c_postId req)) as [postId|]; [|intros [= <- <- _]; auto].
  destruct (Prisma.int4 postId); simpl; [|intros [= <- <- _]; auto].
  destruct (Prisma.findFirst _ _) as [p|]; [|intros [= <- <- _]; auto].
  destruct (insertThrows _ _); [intros [= <- <- _]; auto|discriminate].
Qed.

(** A 404 comes from the lookup of the post alone. *)
Lemma createComment_404 db req newId now db' msg :
  createComment db req newId now = (db', Error 404 msg) ->
  exists postId,
    parseIntId (c_postId req) = Some postId
    /\ Prisma.int4 postId = true
    /\ Prisma.findFirst (livePost postId) (Db.posts db) = None.
Proof.
  unfold createComment.
  destruct (c_content req) as [content|]; [|discriminate].
  destruct (JsString.falsy (Some content)); [discriminate|].
  destruct (String.length (JsString.trim content) <? MIN_CONTENT_LENGTH)%nat;
    [discriminate|].
  destruct (falsyId (c_postId req)); [discriminate|].
  destruct (parseIntId (c_postId req)) as [postId|]; [|discriminate].
  destruct (Prisma.int4 postId) eqn:I; simpl; [|discriminate].
  destruct (Prisma.findFirst _ _) as [p|] eqn:F.
  - destruct (insertThrows _ _); discriminate.
  - intros _. now exists postId.
Qed.

Lemma livePost_found postId (l : list Post.t) (p : Post.t) :
  Prisma.findFirst (livePost postId) l = Some p ->
  In p l /\ Post.id p = postId /\ Post.deletedAt p = None.
Proof.
  intros F. apply find_some in F. destruct F as [Hin F].
  unfold livePost in F. apply andb_true_iff in F. destruct F as [F1 F2].
  apply Z.eqb_eq in F1. repeat split; auto.
  now destruct (Post.deletedAt p).
Qed.
End CreateFacts.

(** X1. A comment that [createComment] accepts is stored with its content
    trimmed: the stored text is the submitted one without the white space
    at either end, has at least 20 characters, is authored by the
    authenticated user on a post that exists and is not soft-deleted, and
    is not hidden; the store gains this one row and nothing else
    changes. *)
Theorem createComment_stores_trimmed :
  forall (db db' : Db.t) (req : CommentsCrud.CreateRequest) (newId now : Z)
         (v : CommentsCrud.Created),
    CommentsCrud.createComment db req newId now = (db', Ok v) ->
    let c := CommentsCrud.created v in
    (exists content, CommentsCrud.c_content req = Some content
                     /\ Comment.content c = JsString.trim content)
    /\ (20 <= String.length (Comment.content c))%nat
    /\ (forall a, JsString.first (Comment.content c) = Some a ->
                  JsString.isWhiteSpace a = false)
    /\ (forall a, JsString.last (Comment.content c) = Some a ->
                  JsString.isWhiteSpace a = false)
    /\ Comment.id c = newId
    /\ Comment.authorId c = au_id (CommentsCrud.c_user req)
    /\ Comment.createdAt c = now
    /\ Comment.isHidden c = false
    /\ (exists p, In p (Db.posts db) /\ Post.id p = Comment.postId c
                  /\ Post.deletedAt p = None)
    /\ db' = Db.mk (Db.users db) (Db.topics db) (Db.posts db)
                   (Db.comments db ++ [c]) (Db.votes db) (Db.savedPosts db)
                   (Db.reports db).
Proof.
  intros db db' req newId now v H c. subst c.
  apply createComment_ok in H.
  destruct H as (content & postId & p & Hc & Hlen & Hid & Hp & -> & ->).
  simpl. split; [now exists content|]. split; [exact Hlen|].
  split; [apply trim_first|]. split; [apply trim_last|].
  repeat (split; [reflexivity|]).
  split; [|reflexivity].
  exists p. now apply livePost_found in Hp.
Qed.

Lemma createComment_stores_trimmed_witness :
  exists db' v,
    CommentsCrud.createComment Sample.thread SampleWrites.padded 4 400
    = (db', Ok v)
    /\ Comment.content (CommentsCrud.created v) = "a comment of some length"%string
    /\ (20 <= String.length (Comment.content (CommentsCrud.created v)))%nat.
Proof.
  do 2 eexists. split; [vm_compute; reflexivity|].
  split; [reflexivity|].
  refine (proj1 (proj2 (@createComment_stores_trimmed
                          Sample.thread _ SampleWrites.padded 4 400 _ _))).
  vm_compute. reflexivity.
Defined.

(** X2. [createComment] validates before it looks anything up and
    writes nothing when it refuses: content that is missing, not a
    string, or shorter than 20 characters once trimmed (white space
    only, for one) is answered 400 whatever the post; every refusal is a
    400, a 404 or, when a query throws, a 500, and leaves the store as it
    was; a 404 is given only for a post id within the [INTEGER] range
    that no post has which is not soft-deleted; and a text with the code
    unit 0, a comment of someone who is not a user or a key beyond the
    [INTEGER] range is never stored. *)
Theorem createComment_refusals :
  forall (db : Db.t) (req : CommentsCrud.CreateRequest) (newId now : Z),
    ((forall content, CommentsCrud.c_content req = Some content ->
                      (String.length (JsString.trim content) < 20)%nat) ->
     fst (CommentsCrud.createComment db req newId now) = db
     /\ exists msg,
         snd (CommentsCrud.createComment db req newId now) = Error 400 msg)
    /\ (forall db' status msg,
           CommentsCrud.createComment db req newId now = (db', Error status msg) ->
           db' = db /\ (status = 400 \/ status = 404 \/ status = 500))
    /\ (forall db' msg,
           CommentsCrud.createComment db req newId now = (db', Error 404 msg) ->
           exists postId,
             CommentsCrud.parseIntId (CommentsCrud.c_postId req) = Some postId
             /\ Prisma.int4 postId = true
             /\ forall p, In p (Db.posts db) -> Post.id p = postId ->
                          Post.deletedAt p <> None)
    /\ (forall db' v,
           CommentsCrud.createComment db req newId now = (db', Ok v) ->
           JsString.hasNul (Comment.content (CommentsCrud.created v)) = false
           /\ (exists u, In u (Db.users db)
                         /\ Uuid.eqb (Comment.authorId (CommentsCrud.created v))
                                     (User.id u) = true)
           /\ Prisma.int4 (Comment.id (CommentsCrud.created v)) = true).
Proof.
  intros db req newId now. split; [|split; [|split]].
  - intros H. unfold CommentsCrud.createComment.
    destruct (CommentsCrud.c_content req) as [content|]; [|simpl; eauto].
    destruct (JsString.falsy (Some content)); [simpl; eauto|].
    specialize (H content eq_refl). apply Nat.ltb_lt in H.
    unfold CommentsCrud.MIN_CONTENT_LENGTH. rewrite H. simpl; eauto.
  - intros db' status msg. apply createComment_error.
  - intros db' msg H. apply createComment_404 in H.
    destruct H as (postId & Hid & Hi & F). exists postId.
    split; [exact Hid|]. split; [exact Hi|].
    intros p Hp E D. apply (find_none _ _ F) in Hp.
    unfold CommentsCrud.livePost in Hp. rewrite E, Z.eqb_refl, D in Hp.
    discriminate.
  - intros db' v H.
    pose proof (createComment_taken _ _ _ _ H) as (_ & Hi & Hn & Ha).
    apply createComment_ok in H.
    destruct H as (content & postId & p & _ & _ & _ & _ & -> & _).
    simpl in *. split; [exact Hn|]. split; [|exact Hi].
    destruct (Feed.findAuthor db (au_id (CommentsCrud.c_user req))) as [a|] eqn:F;
      [|contradiction].
    apply findAuthor_found in F. destruct F as (u & Hu & _ & E). now exists u.
Qed.

Lemma createComment_refusals_witness :
  fst (CommentsCrud.createComment Sample.thread SampleWrites.blank 4 400)
  = Sample.thread
  /\ exists msg,
      snd (CommentsCrud.createComment Sample.thread SampleWrites.blank 4 400)
      = Error 400 msg.
Proof.
  apply (proj1 (createComment_refusals Sample.thread _ 4 400)).
  intros content [= <-]. vm_compute. lia.
Defined.

(** ** Queries over a table whose rows were rewritten *)

Section MapFacts.
Variables A : Type.
Variable g : A -> A.




Lemma window_map (B : Type) (h : A -> B) (skip take : Z) (l : list A) :
  Prisma.window skip take (map h l) = map h (Prisma.window skip take l).
Proof.
  unfold Prisma.window. destruct (take <? 0).
  - now rewrite <- map_rev, skipn_map, firstn_map, map_rev.
  - now rewrite skipn_map, firstn_map.
Qed.


End MapFacts.

(** ** Reading back what was written *)

Section ReadBackFacts.
Import CommentsCrud.

Lemma find_app_fresh (A : Type) (f : A -> bool) (l : list A) (x : A) :
  find f l = None -> f x = true -> find f (l ++ [x]) = Some x.
Proof.
  induction l as [|y l IH]; simpl; intros Hn Hx; [now rewrite Hx|].
  destruct (f y); [discriminate|auto].
Qed.

Lemma find_fresh_key (l : list Comment.t) (k : Z) :
  ~ In k (map Comment.id l) -> find (byId k) l = None.
Proof.
  induction l as [|y l IH]; simpl; intros H; [reflexivity|].
  unfold byId at 1. destruct (Comment.id y =? k) eqn:E.
  - apply Z.eqb_eq in E. tauto.
  - apply IH. tauto.
Qed.
End ReadBackFacts.

(** X3. What [createComment] stores can be read back: if the key the
    database assigned is new, [getCommentById] returns the stored comment,
    and every listing of its post counts one comment more and, when the
    page holds the whole thread, shows it. *)
Theorem createComment_then_read :
  forall (db db' : Db.t) (req : CommentsCrud.CreateRequest) (newId now : Z)
         (v : CommentsCrud.Created),
    CommentsCrud.createComment db req newId now = (db', Ok v) ->
    ~ In newId (map Comment.id (Db.comments db)) ->
    (exists d, CommentsCrud.getCommentById db' (Some newId) = Ok d
               /\ CommentsCrud.d_comment d = CommentsCrud.created v)
    /\ forall (r : Comments.Request) (b : Comments.Body),
        Comments.postId r = Some (Comment.postId (CommentsCrud.created v)) ->
        Comments.listCommentsForPost db r = Ok b ->
        exists b',
          Comments.listCommentsForPost db' r = Ok b'
          /\ Comments.total (Comments.pagination b')
             = Comments.total (Comments.pagination b) + 1
          /\ (Comments.offset (Comments.pagination b') = 0 ->
              Comments.total (Comments.pagination b')
              <= Comments.limit (Comments.pagination b') ->
              In (CommentsCrud.created v)
                 (map Comments.comment (Comments.comments b'))).
Proof.
  intros db db' req newId now v H Hfresh.
  pose proof (createComment_taken _ _ _ _ H) as (_ & Hi & _ & _).
  apply createComment_ok in H.
  destruct H as (content & postId & p & Hc & Hlen & Hid & Hp & -> & ->).
  simpl. split.
  - unfold CommentsCrud.getCommentById, Prisma.findFirst. rewrite Hi. simpl.
    rewrite (find_app_fresh _ _ _ (find_fresh_key _ _ Hfresh));
      [|unfold CommentsCrud.byId; simpl; apply Z.eqb_refl].
    eexists. split; reflexivity.
  - intros r b Hr Hb.
    unfold Comments.listCommentsForPost in *. rewrite Hr in *. simpl in *.
    destruct (Prisma.int4 postId); simpl in *; [|discriminate].
    destruct (Prisma.findFirst _ (Db.posts db)) as [q|]; [|discriminate].
    destruct (Prisma.pageAccepted _ _); simpl in *; [|discriminate].
    injection Hb as <-. eexists. split; [reflexivity|]. simpl.
    split.
    + rewrite count_app. simpl. now rewrite Z.eqb_refl.
    + intros Hoff Htot. rewrite in_map_iff.
      exists (Comments.include
                (CommentsCrud.withComments
                   (Db.comments db
                    ++ [Comment.mk newId (JsString.trim content)
                                   (au_id (CommentsCrud.c_user req)) postId now false])
                   db)
                (Comment.mk newId (JsString.trim content)
                            (au_id (CommentsCrud.c_user req)) postId now false)).
      split; [reflexivity|]. apply in_map.
      unfold Prisma.findMany. rewrite Hoff, window_all.
      * apply sort_In, filter_In. split; [apply in_or_app; simpl; auto|].
        simpl. apply Z.eqb_refl.
      * rewrite sort_length. exact Htot.
Qed.

Lemma createComment_then_read_witness :
  (exists d, CommentsCrud.getCommentById SampleWrites.afterPadded (Some 4) = Ok d
             /\ Comment.content (CommentsCrud.d_comment d)
                = "a comment of some length"%string)
  /\ exists b',
      Comments.listCommentsForPost SampleWrites.afterPadded (SampleWrites.listAll 3)
      = Ok b'
      /\ Comments.total (Comments.pagination b') = 4.
Proof.
  destruct (@createComment_then_read
              Sample.thread SampleWrites.afterPadded SampleWrites.padded 4 400
              (CommentsCrud.mkCreated
                 (Comment.mk 4 "a comment of some length" Sample.aliceId 3 400 false)
                 (Some (Feed.mkAuthor Sample.aliceId "alice" 12))))
    as [(d & Hd & Hc) Hlist].
  - vm_compute. reflexivity.
  - simpl. intuition discriminate.
  - split.
    + exists d. split; [exact Hd|]. now rewrite Hc.
    + destruct (Hlist (SampleWrites.listAll 3)
                      (Comments.mkBody
                         (map (Comments.include Sample.thread)
                              [Sample.c1; Sample.c2; Sample.c3])
                         (Comments.mkPaging 3 50 0 false)))
        as (b' & Hb' & Ht & _).
      * reflexivity.
      * vm_compute. reflexivity.
      * exists b'. split; [exact Hb'|]. rewrite Ht. reflexivity.
Defined.

(** ** Pages of a table whose rows come in another order *)

Section SortedUnique.
Variable A : Type.
Variable R : A -> A -> Prop.

(** An order that leaves no ties among the elements of a list allows one
    arrangement of them only. *)
Lemma sorted_perm_unique (l1 l2 : list A) :
  StronglySorted R l1 -> StronglySorted R l2 -> Permutation l1 l2 ->
  (forall a b, In a l1 -> In b l1 -> R a b -> R b a -> a = b) ->
  l1 = l2.
Proof.
  intros S1. revert l2.
  induction S1 as [|x l1 S1 IH Hx]; intros l2 S2 P anti.
  - apply Permutation_nil in P. now subst.
  - destruct l2 as [|y l2];
      [apply Permutation_sym, Permutation_nil in P; discriminate|].
    inversion S2 as [|? ? S2' Hy]; subst.
    assert (E : x = y).
    { assert (Hxin : In x (y :: l2))
        by (apply (Permutation_in _ P); simpl; auto).
      assert (Hyin : In y (x :: l1))
        by (apply (Permutation_in _ (Permutation_sym P)); simpl; auto).
      destruct Hxin as [->|Hxin]; [reflexivity|].
      destruct Hyin as [->|Hyin]; [reflexivity|].
      rewrite Forall_forall in Hx, Hy.
      apply anti; simpl; auto. }
    subst y. f_equal. apply IH; auto.
    + now apply Permutation_cons_inv in P.
    + intros a b Ha Hb. apply anti; simpl; auto.
Qed.

Lemma filter_perm (f : A -> bool) (l l' : list A) :
  Permutation l l' -> Permutation (filter f l) (filter f l').
Proof.
  induction 1 as [|x l l' P IH|x y l|l l' l'' P1 IH1 P2 IH2]; simpl.
  - constructor.
  - destruct (f x); auto.
  - destruct (f x), (f y); auto using Permutation_refl, perm_swap.
  - eapply perm_trans; eauto.
Qed.

Lemma count_perm (f : A -> bool) (l l' : list A) :
  Permutation l l' -> Prisma.count f l = Prisma.count f l'.
Proof.
  intros P. unfold Prisma.count. f_equal.
  now apply Permutation_length, filter_perm.
Qed.
End SortedUnique.

Section CommentOrder.

Lemma comments_orderBy_total (a b : Comment.t) :
  Js.precedes Comments.orderBy a b \/ Js.precedes Comments.orderBy b a.
Proof. unfold Js.precedes, Comments.orderBy. lia. Qed.

Lemma comments_orderBy_trans (a b c : Comment.t) :
  Js.precedes Comments.orderBy a b -> Js.precedes Comments.orderBy b c ->
  Js.precedes Comments.orderBy a c.
Proof. unfold Js.precedes, Comments.orderBy. lia. Qed.

(** When no two comments of a post share a creation time, the query of
    the comment list returns the same rows in whatever order the table
    yields them. *)
Lemma comments_page_determined (t1 t2 : list Comment.t) (pid skip take : Z) :
  Permutation t1 t2 ->
  (forall a b, In a t1 -> In b t1 ->
               Comment.postId a = pid -> Comment.postId b = pid ->
               Comment.createdAt a = Comment.createdAt b -> a = b) ->
  Prisma.findMany (fun c => Comment.postId c =? pid) Comments.orderBy skip take t1
  = Prisma.findMany (fun c => Comment.postId c =? pid) Comments.orderBy skip take t2.
Proof.
  intros P D. unfold Prisma.findMany. f_equal.
  apply (@sorted_perm_unique _ (Js.precedes Comments.orderBy)).
  - apply sort_sorted; [apply comments_orderBy_total|apply comments_orderBy_trans].
  - apply sort_sorted; [apply comments_orderBy_total|apply comments_orderBy_trans].
  - eapply perm_trans; [apply Permutation_sym, sort_perm|].
    eapply perm_trans; [apply filter_perm, P|]. apply sort_perm.
  - intros a b Ha Hb Hab Hba.
    apply sort_In, filter_In in Ha, Hb.
    destruct Ha as [Ha Pa], Hb as [Hb Pb]. apply Z.eqb_eq in Pa, Pb.
    apply D; auto. unfold Js.precedes, Comments.orderBy in *. lia.
Qed.

(** The comment list over the same store answers the same, in whatever
    order the comment table yields its rows, when no two comments of the
    post share a creation time. *)
Lemma listing_sameRows (db1 db2 : Db.t) (r : Comments.Request) :
  Paging.sameRows db1 db2 ->
  (forall pid, Comments.postId r = Some pid -> Paging.distinctTimes db1 pid) ->
  Comments.listCommentsForPost db2 r = Comments.listCommentsForPost db1 r.
Proof.
  intros (Hu & _ & Hp & Hv & _ & _ & Hc) D. unfold Comments.listCommentsForPost.
  destruct (Comments.postId r) as [pid|]; [|reflexivity].
  specialize (D pid eq_refl). cbv zeta.
  destruct (Prisma.int4 pid); simpl; [|reflexivity].
  rewrite <- Hp. destruct (Prisma.findFirst _ (Db.posts db1)); [|reflexivity].
  destruct (Prisma.pageAccepted _ _); simpl; [|reflexivity].
  rewrite <- (comments_page_determined _ _ Hc D), <- (count_perm _ Hc).
  f_equal. f_equal. apply map_ext. intros c.
  unfold Comments.include, Feed.findAuthor. now rewrite Hu, Hv.
Qed.

End CommentOrder.

(** ** Updating and deleting a comment *)

Section UpdateFacts.
Import CommentsCrud.
Variable isOwner : string -> string -> bool.
Variable place : list Comment.t -> list Comment.t.




Lemma deleteComment_ok db req db' msg :
  deleteComment isOwner db req = (db', Ok msg) ->
  exists commentId comment,
    x_id req = Some commentId
    /\ Prisma.findFirst (byId commentId) (Db.comments db) = Some comment
    /\ isOwner (au_id (x_user req)) (Comment.authorId comment) = true
    /\ db' = deleteRow commentId db.
Proof.
  unfold deleteComment.
  destruct (x_id req) as [commentId|]; [|discriminate].
  destruct (Prisma.int4 commentId); simpl; [|discriminate].
  destruct (Prisma.findFirst _ _) as [comment|] eqn:F; [|discriminate].
  destruct (isOwner _ _) eqn:O; simpl; [|discriminate].
  intros [= <- _]. now exists commentId, comment.
Qed.

(** The id of a comment that was deleted is within the [INTEGER] range. *)
Lemma deleteComment_int4 db req db' msg commentId :
  deleteComment isOwner db req = (db', Ok msg) ->
  x_id req = Some commentId -> Prisma.int4 commentId = true.
Proof.
  unfold deleteComment. intros H E. rewrite E in H.
  destruct (Prisma.int4 commentId); [reflexivity|discriminate].
Qed.






Lemma setContent_isHidden k s c :
  Comment.isHidden (setContent k s c) = Comment.isHidden c.
Proof. unfold setContent. now destruct (Comment.id c =? k). Qed.



End UpdateFacts.



Section DeleteFacts.
Import CommentsCrud.

Lemma find_filter_out (A : Type) (f : A -> bool) (l : list A) :
  find f (filter (fun x => negb (f x)) l) = None.
Proof.
  induction l as [|x l IH]; simpl; [reflexivity|].
  destruct (f x) eqn:E; simpl; [exact IH|]. now rewrite E.
Qed.

Lemma find_filter_other (A : Type) (f g : A -> bool) (l : list A) :
  (forall x, f x = true -> g x = true) ->
  find f (filter g l) = find f l.
Proof.
  intros H. induction l as [|x l IH]; simpl; [reflexivity|].
  destruct (g x) eqn:G; simpl.
  - destruct (f x); [reflexivity|exact IH].
  - destruct (f x) eqn:F; [|exact IH]. apply H in F. congruence.
Qed.

Lemma count_filter_other (A : Type) (f g : A -> bool) (l : list A) :
  (forall x, f x = true -> g x = true) ->
  Prisma.count f (filter g l) = Prisma.count f l.
Proof.
  intros H. unfold Prisma.count. f_equal. f_equal.
  induction l as [|x l IH]; simpl; [reflexivity|].
  destruct (g x) eqn:G; simpl.
  - destruct (f x); now rewrite IH.
  - destruct (f x) eqn:F; [|exact IH]. apply H in F. congruence.
Qed.

Lemma optZ_eqb_eq (x : option Z) (y : Z) :
  Prisma.optZ_eqb x y = true <-> x = Some y.
Proof.
  destruct x as [v|]; simpl; [rewrite Z.eqb_eq|]; split; intros H;
    try discriminate; [now subst|now injection H].
Qed.

Lemma filter_fresh (A : Type) (f : A -> bool) (l : list A) :
  (forall x, In x l -> f x = true) -> filter f l = l.
Proof.
  induction l as [|x l IH]; simpl; intros H; [reflexivity|].
  rewrite (H x) by auto. f_equal. apply IH. auto.
Qed.
End DeleteFacts.

(** X5. An accepted [deleteComment] removes the comment for good:
    [getCommentById] then answers 404 for its id, no vote and no report
    refers to it any more, and for every other comment [getCommentById]
    answers what it answered before. *)
Theorem deleteComment_removes_comment :
  forall (isOwner : string -> string -> bool) (db db' : Db.t)
         (req : CommentsCrud.DeleteRequest) (msg : string),
    CommentsCrud.deleteComment isOwner db req = (db', Ok msg) ->
    exists commentId,
      CommentsCrud.x_id req = Some commentId
      /\ CommentsCrud.getCommentById db' (Some commentId)
         = Error 404 "Comment not found"
      /\ (forall v, In v (Db.votes db') -> Vote.commentId v <> Some commentId)
      /\ (forall r, In r (Db.reports db') -> Report.commentId r <> Some commentId)
      /\ (forall other, other <> commentId ->
                        CommentsCrud.getCommentById db' (Some other)
                        = CommentsCrud.getCommentById db (Some other))
      /\ Db.posts db' = Db.posts db.
Proof.
  intros isOwner db db' req msg H.
  pose proof (fun k => @deleteComment_int4 isOwner db req db' msg k H) as Hi.
  apply deleteComment_ok in H.
  destruct H as (k & comment & Hid & _ & _ & ->).
  specialize (Hi k Hid).
  exists k. split; [exact Hid|]. split; [|split; [|split; [|split]]].
  - unfold CommentsCrud.getCommentById, Prisma.findFirst. rewrite Hi. simpl.
    now rewrite find_filter_out.
  - intros v Hv. simpl in Hv. apply filter_In in Hv. destruct Hv as [_ Hv].
    intros E. apply optZ_eqb_eq in E. rewrite E in Hv. discriminate.
  - intros r Hr. simpl in Hr. apply filter_In in Hr. destruct Hr as [_ Hr].
    intros E. apply optZ_eqb_eq in E. rewrite E in Hr. discriminate.
  - intros other Hne. unfold CommentsCrud.getCommentById, Prisma.findFirst.
    destruct (Prisma.int4 other); simpl; [|reflexivity].
    rewrite find_filter_other.
    + destruct (find _ (Db.comments db)) as [c|] eqn:F; [|reflexivity].
      rewrite count_filter_other; [reflexivity|].
      intros v Hv. apply optZ_eqb_eq in Hv.
      apply find_some in F. destruct F as [_ F]. unfold CommentsCrud.byId in F.
      apply Z.eqb_eq in F.
      destruct (Prisma.optZ_eqb (Vote.commentId v) k) eqn:E; [|reflexivity].
      apply optZ_eqb_eq in E. congruence.
    + intros c Hc. unfold CommentsCrud.byId in *. apply Z.eqb_eq in Hc.
      rewrite Hc. apply negb_true_iff. now apply Z.eqb_neq.
  - reflexivity.
Qed.

Lemma deleteComment_removes_comment_witness :
  exists db',
    CommentsCrud.deleteComment String.eqb SampleWrites.voted
                               (SampleWrites.remove SampleWrites.bob)
    = (db', Ok "Comment deleted successfully"%string)
    /\ CommentsCrud.getCommentById db' (Some 1) = Error 404 "Comment not found"
    /\ CommentsCrud.getCommentById db' (Some 3)
       = CommentsCrud.getCommentById SampleWrites.voted (Some 3).
Proof.
  eexists. split; [vm_compute; reflexivity|].
  destruct (@deleteComment_removes_comment
              String.eqb SampleWrites.voted _ (SampleWrites.remove SampleWrites.bob) _
              ltac:(vm_compute; reflexivity))
    as (k & Hk & H404 & _ & _ & Hother & _).
  injection Hk as <-. split; [exact H404|].
  apply Hother. discriminate.
Defined.



(** X7. Deleting a comment right after creating it gives the store back:
    with the new key unused and no vote or report referring to it, the
    store after [createComment] and [deleteComment] of that key is the
    store before. *)
Theorem create_then_delete_restores :
  forall (isOwner : string -> string -> bool) (db db1 db2 : Db.t)
         (req : CommentsCrud.CreateRequest) (newId now : Z)
         (v : CommentsCrud.Created) (del : CommentsCrud.DeleteRequest)
         (msg : string),
    ~ In newId (map Comment.id (Db.comments db)) ->
    (forall x, In x (Db.votes db) -> Vote.commentId x <> Some newId) ->
    (forall r, In r (Db.reports db) -> Report.commentId r <> Some newId) ->
    CommentsCrud.createComment db req newId now = (db1, Ok v) ->
    CommentsCrud.x_id del = Some newId ->
    CommentsCrud.deleteComment isOwner db1 del = (db2, Ok msg) ->
    db2 = db.
Proof.
  intros isOwner db db1 db2 req newId now v del msg Hfresh Hv Hr Hc Hd Hdel.
  apply createComment_ok in Hc.
  destruct Hc as (content & postId & p & _ & _ & _ & _ & -> & ->).
  apply deleteComment_ok in Hdel.
  destruct Hdel as (k & c & Hk & _ & _ & ->).
  assert (k = newId) as -> by congruence.
  unfold CommentsCrud.deleteRow. simpl.
  rewrite filter_app. simpl. unfold CommentsCrud.byId at 2. simpl.
  rewrite Z.eqb_refl. simpl. rewrite app_nil_r.
  rewrite !filter_fresh.
  - now destruct db.
  - intros r Hin. apply negb_true_iff.
    destruct (Prisma.optZ_eqb (Report.commentId r) newId) eqn:E; [|reflexivity].
    apply optZ_eqb_eq in E. now apply Hr in Hin.
  - intros x Hin. apply negb_true_iff.
    destruct (Prisma.optZ_eqb (Vote.commentId x) newId) eqn:E; [|reflexivity].
    apply optZ_eqb_eq in E. now apply Hv in Hin.
  - intros x Hin. apply negb_true_iff. unfold CommentsCrud.byId.
    apply Z.eqb_neq. intros E. apply Hfresh. rewrite <- E. now apply in_map.
Qed.

Lemma create_then_delete_restores_witness :
  fst (CommentsCrud.deleteComment
         String.eqb SampleWrites.afterPadded
         (CommentsCrud.mkDelete SampleWrites.alice (Some 4)))
  = Sample.thread.
Proof.
  apply (@create_then_delete_restores
           String.eqb Sample.thread SampleWrites.afterPadded _
           SampleWrites.padded 4 400
           (CommentsCrud.mkCreated
              (Comment.mk 4 "a comment of some length" Sample.aliceId 3 400 false)
              (Some (Feed.mkAuthor Sample.aliceId "alice" 12)))
           (CommentsCrud.mkDelete SampleWrites.alice (Some 4))
           "Comment deleted successfully").
  - simpl. intuition discriminate.
  - simpl. tauto.
  - simpl. tauto.
  - vm_compute. reflexivity.
  - reflexivity.
  - vm_compute. reflexivity.
Defined.

(** ** Feed parameters and refusals *)

Section FeedParameterFacts.



End FeedParameterFacts.

(** X8. A feed answers with a page inside the bounds: the limit it
    reports is the requested one capped at 100, or 20 when the parameter
    is missing, not a number or 0; it is between 1 and 100, the offset is
    not negative, and the page holds at most limit posts. *)
Theorem feed_page_within_bounds :
  forall (db : Db.t) (e : Feeds.Endpoint) (req : Feed.Request) (body : Feed.Body),
    Feeds.handler e db req = Ok body ->
    let p := Feed.pagination body in
    pg_limit p = Z.min (Js.orElse (q_limit (Feed.query req)) 20) 100
    /\ pg_offset p = Js.orElse (q_offset (Feed.query req)) 0
    /\ 1 <= pg_limit p <= 100
    /\ 0 <= pg_offset p
    /\ Z.of_nat (List.length (Feed.posts body)) <= pg_limit p.
Proof.
  intros db e req body H p. subst p.
  pose proof (@handler_limits db e req body H) as [Hl Ho].
  destruct (@handler_ok db e req body H) as (_ & topic & profile & ->).
  simpl. repeat split; try lia; try reflexivity.
  rewrite sort_length, length_map. unfold Feeds.rows, Feed.page, Prisma.findMany.
  apply window_length. lia.
Qed.

Lemma feed_page_within_bounds_witness :
  exists body,
    Feed.getHomeFeed Sample.tied (Sample.pageOf 500 0) = Ok body
    /\ pg_limit (Feed.pagination body) = 100
    /\ Z.of_nat (List.length (Feed.posts body)) <= pg_limit (Feed.pagination body).
Proof.
  eexists. split; [vm_compute; reflexivity|]. split; [reflexivity|].
  refine (proj2 (proj2 (proj2 (proj2
            (@feed_page_within_bounds Sample.tied Feeds.Home
                                      (Sample.pageOf 500 0) _ _))))).
  vm_compute. reflexivity.
Defined.



(** ** What a feed item says *)

Section ItemFacts.
Variable db : Db.t.

Lemma handler_items (e : Feeds.Endpoint) req body (it : Feed.Item) :
  Feeds.handler e db req = Ok body ->
  In it (Feed.posts body) ->
  exists p, In p (Db.posts db) /\ Feeds.whereOf e req p = true
            /\ it = Feed.enrich db (Feed.userIdOf req) p.
Proof.
  intros H Hit. destruct (@handler_ok db e req body H) as (_ & t & a & ->).
  apply respond_posts_In in Hit. destruct Hit as (p & Hp & ->).
  apply rows_In in Hp. exists p. tauto.
Qed.

Lemma find_exists (A : Type) (f : A -> bool) (l : list A) :
  (exists y, find f l = Some y) <-> exists x, In x l /\ f x = true.
Proof.
  split.
  - intros [y F]. apply find_some in F. now exists y.
  - intros (x & Hx & Fx). destruct (find f l) as [y|] eqn:F; [now exists y|].
    rewrite (find_none _ _ F x Hx) in Fx. discriminate.
Qed.

Lemma truthy_strictEq (u : option string) (s : string) :
  Js.truthy u = true -> (Js.strictEq u s = true <-> u = Some s).
Proof.
  destruct u as [x|]; simpl; [|discriminate]. intros _.
  rewrite String.eqb_eq. split; intros H; [now subst|now injection H].
Qed.
End ItemFacts.

(** X10. The viewer's marks on a feed item are read from the store: for
    an anonymous viewer every item has [hasVoted] and [isSaved] false and
    no [userVoteId]; for an authenticated one [hasVoted] is true exactly
    when a vote of theirs on that post exists, [userVoteId] is then the id
    of such a vote and [voteCount] at least 1, and [isSaved] is true
    exactly when they saved the post. *)
Theorem feed_item_viewer_marks :
  forall (db : Db.t) (e : Feeds.Endpoint) (req : Feed.Request) (body : Feed.Body)
         (it : Feed.Item),
    Feeds.handler e db req = Ok body ->
    In it (Feed.posts body) ->
    (Feed.user req = None ->
     Feed.hasVoted it = false /\ Feed.isSaved it = false
     /\ Feed.userVoteId it = None)
    /\ (forall u, Feed.user req = Some u -> au_id u <> EmptyString ->
          (Feed.hasVoted it = true <->
           exists v, In v (Db.votes db) /\ Vote.userId v = au_id u
                     /\ Vote.postId v = Some (Feed.id it))
          /\ (Feed.hasVoted it = true <-> Feed.userVoteId it <> None)
          /\ (forall k, Feed.userVoteId it = Some k ->
                exists v, In v (Db.votes db) /\ Vote.id v = k
                          /\ Vote.userId v = au_id u
                          /\ Vote.postId v = Some (Feed.id it))
          /\ (Feed.hasVoted it = true -> 1 <= Feed.voteCount it)
          /\ (Feed.isSaved it = true <->
              exists s, In s (Db.savedPosts db) /\ SavedPost.userId s = au_id u
                        /\ SavedPost.postId s = Feed.id it)).
Proof.
  intros db e req body it H Hit.
  destruct (@handler_items db e req body it H Hit) as (p & _ & _ & ->).
  split.
  - intros Hu. unfold Feed.enrich, Feed.userIdOf. rewrite Hu. simpl. auto.
  - intros u Hu Hne. unfold Feed.enrich, Feed.userIdOf. rewrite Hu.
    cbn [option_map].
    assert (T : Js.truthy (Some (au_id u)) = true).
    { simpl. destruct (au_id u); [contradiction|reflexivity]. }
    rewrite T. unfold Prisma.findFirst.
    cbn [Feed.hasVoted Feed.isSaved Feed.userVoteId Feed.voteCount Feed.id].
    set (mine := fun v : Vote.t =>
                   Js.strictEq (Some (au_id u)) (Vote.userId v)
                   && Prisma.optZ_eqb (Vote.postId v) (Post.id p)).
    assert (Hmine : forall v, mine v = true <->
                              Vote.userId v = au_id u
                              /\ Vote.postId v = Some (Post.id p)).
    { intros v. unfold mine. rewrite andb_true_iff, optZ_eqb_eq. simpl.
      rewrite String.eqb_eq. intuition congruence. }
    split; [|split; [|split; [|split]]].
    + destruct (find mine (Db.votes db)) as [v|] eqn:F; simpl.
      * split; [|reflexivity]. intros _. apply find_some in F.
        destruct F as [Hv F]. apply Hmine in F. now exists v.
      * split; [discriminate|]. intros (v & Hv & E1 & E2).
        apply (find_none _ _ F) in Hv.
        assert (mine v = true) by now apply Hmine. congruence.
    + destruct (find mine (Db.votes db)); simpl; split; congruence.
    + intros k. destruct (find mine (Db.votes db)) as [v|] eqn:F; simpl;
        [|discriminate].
      intros [= <-]. apply find_some in F. destruct F as [Hv F].
      apply Hmine in F. exists v. tauto.
    + destruct (find mine (Db.votes db)) as [v|] eqn:F; simpl; [|discriminate].
      intros _. apply find_some in F. destruct F as [Hv F]. apply Hmine in F.
      unfold Prisma.count.
      assert (In v (filter (fun w => Prisma.optZ_eqb (Vote.postId w) (Post.id p))
                           (Db.votes db))).
      { apply filter_In. split; [exact Hv|]. apply optZ_eqb_eq. tauto. }
      destruct (filter _ (Db.votes db)); [contradiction|]. simpl List.length. lia.
    + set (saved := fun s : SavedPost.t =>
                      Js.strictEq (Some (au_id u)) (SavedPost.userId s)
                      && (SavedPost.postId s =? Post.id p)).
      destruct (find saved (Db.savedPosts db)) as [s|] eqn:F; simpl.
      * split; [|reflexivity]. intros _. apply find_some in F.
        destruct F as [Hs F]. unfold saved in F. apply andb_true_iff in F.
        simpl in F. rewrite String.eqb_eq, Z.eqb_eq in F. exists s.
        intuition congruence.
      * split; [discriminate|]. intros (s & Hs & E1 & E2).
        apply (find_none _ _ F) in Hs. unfold saved in Hs. simpl in Hs.
        rewrite E1, E2, String.eqb_refl, Z.eqb_refl in Hs. discriminate.
Qed.

Lemma feed_item_viewer_marks_witness :
  exists body it,
    Feed.getHomeFeed Sample.tied (Sample.feedRequest Sample.asBob) = Ok body
    /\ In it (Feed.posts body)
    /\ Feed.id it = 1
    /\ Feed.hasVoted it = true
    /\ exists v, In v (Db.votes Sample.tied) /\ Vote.userId v = Sample.bobId
                 /\ Vote.postId v = Some 1.
Proof.
  exists (Feed.respond Sample.tied (Sample.feedRequest Sample.asBob) None None 20 0
                       [Sample.quiet; Sample.loud]),
         (Feed.enrich Sample.tied (Some Sample.bobId) Sample.loud).
  assert (E : Feed.getHomeFeed Sample.tied (Sample.feedRequest Sample.asBob)
              = Ok (Feed.respond Sample.tied (Sample.feedRequest Sample.asBob)
                                 None None 20 0 [Sample.quiet; Sample.loud]))
    by reflexivity.
  assert (Hin : In (Feed.enrich Sample.tied (Some Sample.bobId) Sample.loud)
                   (Feed.posts (Feed.respond Sample.tied
                                  (Sample.feedRequest Sample.asBob)
                                  None None 20 0 [Sample.quiet; Sample.loud])))
    by (vm_compute; tauto).
  split; [exact E|]. split; [exact Hin|]. split; [reflexivity|].
  split; [reflexivity|].
  destruct (proj2 (@feed_item_viewer_marks
                     Sample.tied Feeds.Home _ _ _ E Hin)
                  (mkAuthUser Sample.bobId false) eq_refl)
    as ((Hv & _) & _).
  - discriminate.
  - apply Hv. reflexivity.
Defined.

(** ** Stability of the sort, and order under the query window *)

Section StableFacts.
Variable A : Type.
Variable cmp : A -> A -> Z.
(** The order the array had before the sort. *)
Variable prior : A -> A -> Prop.

(** Strictly before by the comparator, or equal by it and before in the
    prior order. *)
Let lex (a b : A) : Prop := cmp a b < 0 \/ (cmp a b = 0 /\ prior a b).

Hypothesis cmp_anti : forall a b, 0 < cmp a b -> cmp b a < 0.
Hypothesis lex_trans : forall a b c, lex a b -> lex b c -> lex a c.

Lemma insert_stable (x : A) (l : list A) :
  Forall (prior x) l -> StronglySorted lex l ->
  StronglySorted lex (Js.insert cmp x l).
Proof.
  intros Hx Hl. induction Hl as [|y l Hl IH Hy]; simpl.
  - repeat constructor.
  - inversion Hx as [|? ? Hxy Hxl]; subst.
    destruct (cmp x y <=? 0) eqn:E.
    + apply Z.leb_le in E.
      assert (Lxy : lex x y).
      { destruct (Z.eq_dec (cmp x y) 0); [right; now split|left; lia]. }
      constructor; [now constructor|].
      constructor; [exact Lxy|].
      rewrite Forall_forall in *. intros z Hz. eapply lex_trans; eauto.
    + apply Z.leb_gt in E. constructor; [now apply IH|].
      rewrite Forall_forall in *. intros z Hz.
      apply (Permutation_in _ (Permutation_sym (insert_perm cmp x l))) in Hz.
      destruct Hz as [<-|Hz]; [|auto].
      left. now apply cmp_anti.
Qed.

Lemma sort_stable (l : list A) :
  StronglySorted prior l -> StronglySorted lex (Js.sort cmp l).
Proof.
  induction 1 as [|x l Hl IH Hx]; simpl; [constructor|].
  apply insert_stable; [|exact IH].
  rewrite Forall_forall in *. intros z Hz. apply Hx.
  now apply sort_In in Hz.
Qed.
End StableFacts.

Section SortedFacts.
Variable A : Type.
Variable R : A -> A -> Prop.

Lemma StronglySorted_firstn (n : nat) (l : list A) :
  StronglySorted R l -> StronglySorted R (firstn n l).
Proof.
  intros H. revert n. induction H as [|x l Hl IH Hx]; intros [|n]; simpl;
    try constructor; auto.
  rewrite Forall_forall in *. intros z Hz. apply Hx.
  now apply In_firstn in Hz.
Qed.

Lemma StronglySorted_skipn (n : nat) (l : list A) :
  StronglySorted R l -> StronglySorted R (skipn n l).
Proof.
  intros H. revert n. induction H as [|x l Hl IH Hx]; intros [|n]; simpl;
    try constructor; auto.
Qed.

End SortedFacts.

Lemma StronglySorted_app_one (A : Type) (R : A -> A -> Prop) (l : list A) (x : A) :
  StronglySorted R l -> Forall (fun y => R y x) l -> StronglySorted R (l ++ [x]).
Proof.
  induction 1 as [|y l Hl IH Hy]; simpl; intros Hx.
  - repeat constructor.
  - inversion Hx; subst. constructor; [auto|].
    apply Forall_app. split; [exact Hy|]. now constructor.
Qed.

Lemma StronglySorted_rev (A : Type) (R : A -> A -> Prop) (l : list A) :
  StronglySorted R l -> StronglySorted (fun a b => R b a) (rev l).
Proof.
  induction 1 as [|x l Hl IH Hx]; simpl; [constructor|].
  apply StronglySorted_app_one; [exact IH|].
  rewrite Forall_forall in *. intros z Hz. apply Hx. now apply in_rev.
Qed.

Lemma window_sorted (A : Type) (R : A -> A -> Prop) (skip take : Z) (l : list A) :
  StronglySorted R l -> StronglySorted R (Prisma.window skip take l).
Proof.
  intros H. unfold Prisma.window. destruct (take <? 0).
  - apply (StronglySorted_rev (R := fun a b => R b a)).
    apply StronglySorted_firstn, StronglySorted_skipn.
    now apply StronglySorted_rev.
  - now apply StronglySorted_firstn, StronglySorted_skipn.
Qed.

Lemma StronglySorted_map (A B : Type) (f : A -> B) (R : B -> B -> Prop) (l : list A) :
  StronglySorted (fun a b => R (f a) (f b)) l -> StronglySorted R (map f l).
Proof.
  induction 1 as [|x l Hl IH Hx]; simpl; constructor; auto.
  rewrite Forall_forall in *. intros z Hz. apply in_map_iff in Hz.
  destruct Hz as (y & <- & Hy). auto.
Qed.

Lemma orderBy_total (a b : Post.t) :
  Js.precedes Feed.orderBy a b \/ Js.precedes Feed.orderBy b a.
Proof.
  unfold Js.precedes, Feed.orderBy.
  destruct (Post.createdAt b =? Post.createdAt a) eqn:E1,
           (Post.createdAt a =? Post.createdAt b) eqn:E2;
    rewrite ?Z.eqb_eq, ?Z.eqb_neq in *; lia.
Qed.

Lemma orderBy_trans (a b c : Post.t) :
  Js.precedes Feed.orderBy a b -> Js.precedes Feed.orderBy b c ->
  Js.precedes Feed.orderBy a c.
Proof.
  unfold Js.precedes, Feed.orderBy.
  destruct (Post.createdAt b =? Post.createdAt a) eqn:E1,
           (Post.createdAt c =? Post.createdAt b) eqn:E2,
           (Post.createdAt c =? Post.createdAt a) eqn:E3;
    rewrite ?Z.eqb_eq, ?Z.eqb_neq in *; lia.
Qed.

(** X11. The order of a feed page is fully determined: creation time
    descending, then vote count descending, then id descending. The sort
    of the handler keeps the order of the query among posts it compares
    equal. *)
Theorem feed_page_total_order :
  forall (db : Db.t) (e : Feeds.Endpoint) (req : Feed.Request) (body : Feed.Body),
    Feeds.handler e db req = Ok body ->
    StronglySorted Paging.totalOrder (Feed.posts body).
Proof.
  intros db e req body H.
  destruct (@handler_ok db e req body H) as (_ & topic & profile & ->). simpl.
  set (prior := fun a b : Feed.Item =>
                  Feed.createdAt b < Feed.createdAt a
                  \/ (Feed.createdAt a = Feed.createdAt b /\ Feed.id b <= Feed.id a)).
  eapply StronglySorted_weaken;
    [|apply (@sort_stable _ Feed.compare prior)].
  - intros a b. unfold prior, Paging.totalOrder, Feed.compare.
    destruct (Feed.createdAt b - Feed.createdAt a =? 0) eqn:E; simpl;
      [apply Z.eqb_eq in E|apply Z.eqb_neq in E]; lia.
  - intros a b. unfold Feed.compare.
    destruct (Feed.createdAt b - Feed.createdAt a =? 0) eqn:E1,
             (Feed.createdAt a - Feed.createdAt b =? 0) eqn:E2; simpl;
      rewrite ?Z.eqb_eq, ?Z.eqb_neq in *; lia.
  - intros a b c. unfold prior, Feed.compare.
    destruct (Feed.createdAt b - Feed.createdAt a =? 0) eqn:E1,
             (Feed.createdAt c - Feed.createdAt b =? 0) eqn:E2,
             (Feed.createdAt c - Feed.createdAt a =? 0) eqn:E3; simpl;
      rewrite ?Z.eqb_eq, ?Z.eqb_neq in *; lia.
  - apply StronglySorted_map. unfold Feeds.rows, Feed.page, Prisma.findMany.
    apply window_sorted.
    eapply StronglySorted_weaken;
      [|apply sort_sorted; [apply orderBy_total|apply orderBy_trans]].
    intros a b. unfold prior, Js.precedes, Feed.orderBy. simpl.
    destruct (Post.createdAt b =? Post.createdAt a) eqn:E;
      [apply Z.eqb_eq in E|apply Z.eqb_neq in E]; lia.
Qed.

Lemma feed_page_total_order_witness :
  exists body,
    Feed.getHomeFeed Sample.db (Sample.feedRequest Sample.asRoot) = Ok body
    /\ StronglySorted Paging.totalOrder (Feed.posts body).
Proof.
  eexists. split; [vm_compute; reflexivity|].
  apply (@feed_page_total_order Sample.db Feeds.Home
                                (Sample.feedRequest Sample.asRoot)).
  vm_compute. reflexivity.
Defined.

(** ** Pages that follow one another *)

Section PageFacts.
Variable A : Type.

Lemma firstn_twice (n m : nat) (l : list A) :
  firstn n l ++ firstn m (skipn n l) = firstn (n + m) l.
Proof.
  revert l. induction n as [|n IH]; intros l; simpl; [reflexivity|].
  destruct l as [|x l]; simpl; [now rewrite firstn_nil|].
  now rewrite IH.
Qed.

Lemma skipn_twice (n m : nat) (l : list A) :
  skipn m (skipn n l) = skipn (n + m) l.
Proof.
  revert l. induction n as [|n IH]; intros l; simpl; [reflexivity|].
  destruct l as [|x l]; simpl; [now rewrite skipn_nil|]. apply IH.
Qed.

(** Two windows of the same length, one after the other, are the window
    of twice the length, as long as the second starts below [2^32]. *)
Lemma window_twice (skip take : Z) (rows : list A) :
  0 <= skip -> 0 <= take -> skip + take < 2 ^ 32 ->
  Prisma.window skip take rows ++ Prisma.window (skip + take) take rows
  = Prisma.window skip (2 * take) rows.
Proof.
  intros Hs Ht Hw. unfold Prisma.window.
  rewrite (Z.mod_small skip), (Z.mod_small (skip + take)) by lia.
  destruct (take <? 0) eqn:E1; [apply Z.ltb_lt in E1; lia|].
  destruct (2 * take <? 0) eqn:E2; [apply Z.ltb_lt in E2; lia|].
  rewrite Z2Nat.inj_add by lia.
  rewrite <- skipn_twice, firstn_twice. f_equal. lia.
Qed.

Lemma NoDup_window (K : Type) (key : A -> K) (skip take : Z) (rows : list A) :
  NoDup (map key rows) -> NoDup (map key (Prisma.window skip take rows)).
Proof.
  intros H. rewrite <- window_map.
  assert (F : forall n (l : list K), NoDup l -> NoDup (firstn n l)).
  { intros n l Hl. rewrite <- (firstn_skipn n l) in Hl.
    now apply NoDup_app_remove_r in Hl. }
  assert (S : forall n (l : list K), NoDup l -> NoDup (skipn n l)).
  { intros n l Hl. rewrite <- (firstn_skipn n l) in Hl.
    now apply NoDup_app_remove_l in Hl. }
  unfold Prisma.window. destruct (take <? 0).
  - apply NoDup_rev, F, S, NoDup_rev, H.
  - apply F, S, H.
Qed.

Lemma NoDup_map_filter (K : Type) (key : A -> K) (f : A -> bool) (l : list A) :
  NoDup (map key l) -> NoDup (map key (filter f l)).
Proof.
  induction l as [|x l IH]; simpl; intros H; [constructor|].
  inversion H as [|? ? Hx Hl]; subst.
  destruct (f x); simpl; [|auto]. constructor; [|auto].
  intros Hin. apply Hx. apply in_map_iff in Hin. destruct Hin as (y & E & Hy).
  apply filter_In in Hy. apply in_map_iff. exists y. tauto.
Qed.

Lemma NoDup_findMany (K : Type) (key : A -> K) (where_ : A -> bool)
      (orderBy : A -> A -> Z) (skip take : Z) (table : list A) :
  NoDup (map key table) ->
  NoDup (map key (Prisma.findMany where_ orderBy skip take table)).
Proof.
  intros H. unfold Prisma.findMany. apply NoDup_window.
  eapply Permutation_NoDup;
    [apply Permutation_map, sort_perm|].
  now apply NoDup_map_filter.
Qed.
End PageFacts.

Section NextPageFacts.
Variable db : Db.t.

Lemma nextPage_parameters req :
  1 <= Feed.effectiveLimit (Feed.query req) <= 100 ->
  0 <= Feed.effectiveOffset (Feed.query req) ->
  Feed.effectiveLimit (Feed.query (Feeds.nextPage req))
  = Feed.effectiveLimit (Feed.query req)
  /\ Feed.effectiveOffset (Feed.query (Feeds.nextPage req))
     = Feed.effectiveOffset (Feed.query req) + Feed.effectiveLimit (Feed.query req).
Proof.
  intros Hl Ho. unfold Feeds.nextPage. simpl.
  set (l := Feed.effectiveLimit (Feed.query req)) in *.
  set (o := Feed.effectiveOffset (Feed.query req)) in *.
  unfold Feed.effectiveLimit, Feed.effectiveOffset. simpl.
  split.
  - destruct l; simpl; lia.
  - destruct (o + l) eqn:E; simpl; lia.
Qed.

Lemma doublePage_parameters req :
  1 <= Feed.effectiveLimit (Feed.query req) ->
  2 * Feed.effectiveLimit (Feed.query req) <= 100 ->
  Feed.effectiveLimit (Feed.query (Paging.doublePage req))
  = 2 * Feed.effectiveLimit (Feed.query req)
  /\ Feed.effectiveOffset (Feed.query (Paging.doublePage req))
     = Feed.effectiveOffset (Feed.query req).
Proof.
  intros Hl Hd. unfold Paging.doublePage. simpl.
  set (l := Feed.effectiveLimit (Feed.query req)) in *.
  set (o := Feed.effectiveOffset (Feed.query req)) in *.
  unfold Feed.effectiveLimit, Feed.effectiveOffset. simpl.
  split.
  - destruct l; simpl; lia.
  - destruct o; reflexivity.
Qed.

Lemma handler_ids_perm e req body :
  Feeds.handler e db req = Ok body ->
  Permutation (Feeds.ids body) (map Post.id (Feeds.rows e db req)).
Proof.
  intros H. destruct (@handler_ok db e req body H) as (_ & topic & profile & ->).
  unfold Feeds.ids. simpl.
  eapply perm_trans; [apply Permutation_map, Permutation_sym, sort_perm|].
  rewrite map_map. apply Permutation_refl.
Qed.

Lemma whereOf_nextPage e req p :
  Feeds.whereOf e (Feeds.nextPage req) p = Feeds.whereOf e req p.
Proof. destruct e; reflexivity. Qed.

Lemma whereOf_doublePage e req p :
  Feeds.whereOf e (Paging.doublePage req) p = Feeds.whereOf e req p.
Proof. destruct e; reflexivity. Qed.
End NextPageFacts.

(** X12. Over an unchanged store the pages of a feed fit together while
    the offset of the second stays below [2^32], where [skip] starts
    over: the page that follows a page repeats none of its posts, and the
    two hold, up to the order within a page, the posts of the one page
    twice as long that starts at the same offset. *)
Theorem feed_pages_fit_together :
  forall (db : Db.t) (e : Feeds.Endpoint) (req : Feed.Request)
         (first second : Feed.Body),
    NoDup (map Post.id (Db.posts db)) ->
    Feed.effectiveOffset (Feed.query req) + Feed.effectiveLimit (Feed.query req)
    < 2 ^ 32 ->
    Feeds.handler e db req = Ok first ->
    Feeds.handler e db (Feeds.nextPage req) = Ok second ->
    NoDup (Feeds.ids first ++ Feeds.ids second)
    /\ forall both,
        2 * Feed.effectiveLimit (Feed.query req) <= 100 ->
        Feeds.handler e db (Paging.doublePage req) = Ok both ->
        Permutation (Feeds.ids first ++ Feeds.ids second) (Feeds.ids both).
Proof.
  intros db e req first second Hnd Hw H1 H2.
  pose proof (@handler_limits db e req first H1) as [Hl Ho].
  destruct (nextPage_parameters req Hl Ho) as [El Eo].
  pose proof (@handler_ids_perm db e req first H1) as P1.
  pose proof (@handler_ids_perm db e (Feeds.nextPage req) second H2) as P2.
  set (L := Js.sort Feed.orderBy (filter (Feeds.whereOf e req) (Db.posts db))).
  assert (R1 : Feeds.rows e db req
               = Prisma.window (Feed.effectiveOffset (Feed.query req))
                               (Feed.effectiveLimit (Feed.query req)) L)
    by reflexivity.
  assert (R2 : Feeds.rows e db (Feeds.nextPage req)
               = Prisma.window (Feed.effectiveOffset (Feed.query req)
                                + Feed.effectiveLimit (Feed.query req))
                               (Feed.effectiveLimit (Feed.query req)) L).
  { unfold Feeds.rows, Feed.page, Prisma.findMany. rewrite El, Eo.
    now rewrite (filter_ext _ _ (whereOf_nextPage e req)). }
  assert (Both : Permutation (Feeds.ids first ++ Feeds.ids second)
                   (map Post.id
                        (Prisma.window (Feed.effectiveOffset (Feed.query req))
                                       (2 * Feed.effectiveLimit (Feed.query req)) L))).
  { rewrite <- window_twice by lia. rewrite map_app, <- R1, <- R2.
    now apply Permutation_app. }
  split.
  - eapply Permutation_NoDup; [apply Permutation_sym, Both|].
    apply NoDup_window.
    eapply Permutation_NoDup; [apply Permutation_map, sort_perm|].
    now apply NoDup_map_filter.
  - intros both Hd H3.
    destruct (doublePage_parameters req (proj1 Hl) Hd) as [Dl Do].
    pose proof (@handler_ids_perm db e (Paging.doublePage req) both H3) as P3.
    eapply perm_trans; [exact Both|]. apply Permutation_sym.
    eapply perm_trans; [exact P3|].
    unfold Feeds.rows, Feed.page, Prisma.findMany. rewrite Dl, Do.
    rewrite (filter_ext _ _ (whereOf_doublePage e req)).
    apply Permutation_refl.
Qed.

Lemma feed_pages_fit_together_witness :
  exists first second both,
    Feed.getHomeFeed Sample.tied (Sample.pageOf 1 0) = Ok first
    /\ Feed.getHomeFeed Sample.tied (Feeds.nextPage (Sample.pageOf 1 0)) = Ok second
    /\ Feed.getHomeFeed Sample.tied (Paging.doublePage (Sample.pageOf 1 0)) = Ok both
    /\ NoDup (Feeds.ids first ++ Feeds.ids second)
    /\ Permutation (Feeds.ids first ++ Feeds.ids second) (Feeds.ids both).
Proof.
  do 3 eexists.
  split; [vm_compute; reflexivity|].
  split; [vm_compute; reflexivity|].
  split; [vm_compute; reflexivity|].
  edestruct (@feed_pages_fit_together Sample.tied Feeds.Home (Sample.pageOf 1 0))
    as [Hnd Hperm].
  - repeat constructor; simpl; intuition discriminate.
  - reflexivity.
  - vm_compute. reflexivity.
  - vm_compute. reflexivity.
  - split; [exact Hnd|]. apply Hperm; [vm_compute; discriminate|].
    vm_compute. reflexivity.
Defined.

(** ** Whose posts a feed lists *)



(** X14. The comment count of a feed item is the total the comment list
    of that post reports. For a post a feed shows, the comment list
    never answers 400 or 404: it refuses only when a query throws, with
    500. Whenever it answers, its total, hidden comments included,
    equals the item's [commentCount]; and it does answer when the id is
    within the [INTEGER] range, the limit at least 1 and the offset below
    [2^32]. *)
Theorem feed_comment_count_is_listing_total :
  forall (db : Db.t) (e : Feeds.Endpoint) (req : Feed.Request) (body : Feed.Body)
         (it : Feed.Item) (r : Comments.Request),
    Feeds.handler e db req = Ok body ->
    In it (Feed.posts body) ->
    Comments.postId r = Some (Feed.id it) ->
    (forall listing,
        Comments.listCommentsForPost db r = Ok listing ->
        Comments.total (Comments.pagination listing) = Feed.commentCount it)
    /\ (forall status msg,
           Comments.listCommentsForPost db r = Error status msg -> status = 500)
    /\ (Prisma.int4 (Feed.id it) = true ->
        1 <= Comments.parsedLimit (Comments.query r) ->
        Comments.parsedOffset (Comments.query r) < 2 ^ 32 ->
        exists listing, Comments.listCommentsForPost db r = Ok listing).
Proof.
  intros db e req body it r H Hit Hr.
  destruct (@handler_items db e req body it H Hit) as (p & Hp & Hw & ->).
  simpl in *. unfold Comments.listCommentsForPost. rewrite Hr.
  apply whereOf_live in Hw.
  destruct (Prisma.findFirst _ (Db.posts db)) as [q|] eqn:F.
  - split; [|split].
    + intros listing.
      destruct (Prisma.int4 (Post.id p)); simpl; [|discriminate].
      destruct (Prisma.pageAccepted _ _); simpl; [|discriminate].
      now intros [= <-].
    + intros status msg.
      destruct (Prisma.int4 (Post.id p)); simpl; [|now intros [= <- _]].
      destruct (Prisma.pageAccepted _ _); simpl; [discriminate|now intros [= <- _]].
    + intros Hi Hl Ho. rewrite Hi. simpl.
      assert (A : Prisma.pageAccepted (Comments.parsedOffset (Comments.query r))
                                      (Comments.parsedLimit (Comments.query r)) = true).
      { assert (0 <= Comments.parsedOffset (Comments.query r))
          by (unfold Comments.parsedOffset; lia).
        assert (Comments.parsedLimit (Comments.query r) <= 100)
          by (unfold Comments.parsedLimit; lia).
        unfold Prisma.pageAccepted, Prisma.int8.
        rewrite !andb_true_iff, !Z.leb_le, !Z.ltb_lt. lia. }
      rewrite A. simpl. eauto.
  - exfalso. apply (find_none _ _ F) in Hp. simpl in Hp.
    now rewrite Z.eqb_refl, Hw in Hp.
Qed.

Lemma feed_comment_count_is_listing_total_witness :
  exists body it listing,
    Feed.getHomeFeed Sample.thread (Sample.feedRequest None) = Ok body
    /\ In it (Feed.posts body)
    /\ Comments.listCommentsForPost Sample.thread (SampleWrites.listAll 3)
       = Ok listing
    /\ Comments.total (Comments.pagination listing) = Feed.commentCount it
    /\ Feed.commentCount it = 3.
Proof.
  assert (E : Feed.getHomeFeed Sample.thread (Sample.feedRequest None)
              = Ok (Feed.respond Sample.thread (Sample.feedRequest None) None None
                                 20 0 [Sample.plainPost]))
    by reflexivity.
  assert (Hin : In (Feed.enrich Sample.thread None Sample.plainPost)
                   (Feed.posts (Feed.respond Sample.thread (Sample.feedRequest None)
                                             None None 20 0 [Sample.plainPost])))
    by (vm_compute; tauto).
  destruct (@feed_comment_count_is_listing_total
              Sample.thread Feeds.Home _ _ _ (SampleWrites.listAll 3) E Hin eq_refl)
    as (Ht & _ & Hl).
  destruct Hl as (listing & Hl); [reflexivity|vm_compute; discriminate|reflexivity|].
  exists (Feed.respond Sample.thread (Sample.feedRequest None) None None
                       20 0 [Sample.plainPost]),
         (Feed.enrich Sample.thread None Sample.plainPost), listing.
  repeat split; auto.
Defined.



(** ** The comment list *)

Section ListingFacts.
Variable db : Db.t.

Lemma window_length_abs (A : Type) (skip take : Z) (rows : list A) :
  Z.of_nat (List.length (Prisma.window skip take rows)) <= Z.abs take.
Proof.
  unfold Prisma.window. destruct (take <? 0) eqn:E.
  - apply Z.ltb_lt in E. rewrite length_rev, length_firstn. lia.
  - apply Z.ltb_ge in E. rewrite length_firstn. lia.
Qed.
End ListingFacts.

(** X16. The comment list answers 400 for a post id that is not a
    number, 500 for one beyond the [INTEGER] range, and for one within it
    404 exactly when no post with that id exists that is not
    soft-deleted, its comments notwithstanding; it refuses with nothing
    but 400, 404 and 500. Otherwise it answers a page of comments of that
    post only, oldest first, of at most |limit| comments, with limit
    capped at 100, offset floored at 0 and total the number of comments
    of the post. *)
Theorem comment_list_answers :
  forall (db : Db.t) (req : Comments.Request),
    (Comments.postId req = None ->
     Comments.listCommentsForPost db req = Error 400 "Invalid post ID format")
    /\ (forall status msg,
           Comments.listCommentsForPost db req = Error status msg ->
           status = 400 \/ status = 404 \/ status = 500)
    /\ (forall postId,
           Comments.postId req = Some postId ->
           (Prisma.int4 postId = true ->
            (Comments.listCommentsForPost db req = Error 404 "Post not found"
             <-> forall p, In p (Db.posts db) -> Post.id p = postId ->
                           Post.deletedAt p <> None))
           /\ (Prisma.int4 postId = false ->
               Comments.listCommentsForPost db req = Error 500 Comments.failure)
           /\ forall body,
               Comments.listCommentsForPost db req = Ok body ->
               (forall v, In v (Comments.comments body) ->
                          Comment.postId (Comments.comment v) = postId
                          /\ In (Comments.comment v) (Db.comments db))
               /\ StronglySorted Paging.oldestFirst (Comments.comments body)
               /\ Z.of_nat (List.length (Comments.comments body))
                  <= Z.abs (Comments.limit (Comments.pagination body))
               /\ Comments.limit (Comments.pagination body) <= 100
               /\ 0 <= Comments.offset (Comments.pagination body)
               /\ Comments.total (Comments.pagination body)
                  = Prisma.count (fun c => Comment.postId c =? postId)
                                 (Db.comments db)).
Proof.
  intros db req. split; [|split].
  - intros H. unfold Comments.listCommentsForPost. now rewrite H.
  - intros status msg. apply comments_error.
  - intros pid Hpid. split; [|split].
    + intros Hi. unfold Comments.listCommentsForPost, Prisma.findFirst.
      rewrite Hpid, Hi. simpl.
      destruct (find _ (Db.posts db)) as [q|] eqn:F; simpl.
      * split.
        -- destruct (Prisma.pageAccepted _ _); discriminate.
        -- intros H. exfalso.
           apply find_some in F. destruct F as [Hq F].
           apply andb_true_iff in F. destruct F as [F1 F2].
           apply Z.eqb_eq in F1. apply (H q Hq F1).
           now destruct (Post.deletedAt q).
      * split; [|reflexivity]. intros _ p Hp E Hd.
        apply (find_none _ _ F) in Hp. simpl in Hp.
        rewrite E, Z.eqb_refl, Hd in Hp. discriminate.
    + intros Hi. unfold Comments.listCommentsForPost. now rewrite Hpid, Hi.
    + intros body H. apply comments_ok in H.
      destruct H as (pid' & Hpid' & ->). assert (pid' = pid) as -> by congruence.
      simpl. split; [|split; [|split; [|split; [|split]]]].
      * intros v Hv. apply in_map_iff in Hv. destruct Hv as (c & <- & Hc).
        apply findMany_In in Hc. destruct Hc as [Hc Hw]. simpl.
        apply Z.eqb_eq in Hw. tauto.
      * apply StronglySorted_map. unfold Prisma.findMany.
        apply window_sorted.
        eapply StronglySorted_weaken;
          [|apply sort_sorted;
            [apply comments_orderBy_total|apply comments_orderBy_trans]].
        intros a b. unfold Paging.oldestFirst, Js.precedes, Comments.orderBy.
        simpl. lia.
      * rewrite length_map. apply window_length_abs.
      * unfold Comments.parsedLimit. lia.
      * unfold Comments.parsedOffset. lia.
      * reflexivity.
Qed.

Lemma comment_list_answers_witness :
  exists body,
    Comments.listCommentsForPost Sample.thread (Paging.comments 3 2 1) = Ok body
    /\ map (fun v => Comment.id (Comments.comment v)) (Comments.comments body)
       = [2; 3]
    /\ StronglySorted Paging.oldestFirst (Comments.comments body).
Proof.
  eexists. split; [vm_compute; reflexivity|]. split; [reflexivity|].
  apply (proj2 (proj2 (proj2 (proj2 (comment_list_answers Sample.thread
                                       (Paging.comments 3 2 1)))
                             3 eq_refl))).
  vm_compute. reflexivity.
Defined.

(** X17. Over an unchanged store the pages of the comment list join up
    exactly. The list orders by creation time alone, so take a post no
    two of whose comments share one; then, in whatever order the table
    yields its rows to each of the three queries, for a limit from 1 to
    50 and with the second page starting below [2^32], where [skip]
    starts over, the page at an offset followed by the page at offset +
    limit is the page of twice the limit at that offset, comment for
    comment. *)
Theorem comment_pages_join :
  forall (db db2 db3 : Db.t) (postId limit offset : Z)
         (first second both : Comments.Body),
    1 <= limit <= 50 -> 0 <= offset -> offset + limit < 2 ^ 32 ->
    Paging.distinctTimes db postId ->
    Paging.sameRows db db2 -> Paging.sameRows db db3 ->
    Comments.listCommentsForPost db (Paging.comments postId limit offset) = Ok first ->
    Comments.listCommentsForPost db2 (Paging.comments postId limit (offset + limit))
    = Ok second ->
    Comments.listCommentsForPost db3 (Paging.comments postId (2 * limit) offset)
    = Ok both ->
    Comments.comments first ++ Comments.comments second = Comments.comments both.
Proof.
  intros db db2 db3 pid l o first second both Hl Ho Hw D S2 S3 H1 H2 H3.
  rewrite (listing_sameRows _ S2) in H2 by (intros p [= <-]; exact D).
  rewrite (listing_sameRows _ S3) in H3 by (intros p [= <-]; exact D).
  apply comments_ok in H1, H2, H3.
  destruct H1 as (p1 & E1 & ->), H2 as (p2 & E2 & ->), H3 as (p3 & E3 & ->).
  simpl in E1, E2, E3. injection E1 as <-. injection E2 as <-. injection E3 as <-.
  cbn [Comments.comments Comments.query Paging.comments].
  assert (L1 : Comments.parsedLimit (mkQuery (Some l) (Some o)) = l).
  { unfold Comments.parsedLimit. simpl. destruct l; simpl; lia. }
  assert (L2 : Comments.parsedLimit (mkQuery (Some l) (Some (o + l))) = l).
  { unfold Comments.parsedLimit. simpl. destruct l; simpl; lia. }
  assert (L3 : Comments.parsedLimit (mkQuery (Some (2 * l)) (Some o)) = 2 * l).
  { unfold Comments.parsedLimit. cbn [q_limit].
    destruct (2 * l) eqn:E; simpl; lia. }
  assert (O1 : forall x, Comments.parsedOffset (mkQuery x (Some o)) = o).
  { intros x. unfold Comments.parsedOffset. simpl. destruct o; simpl; lia. }
  assert (O2 : Comments.parsedOffset (mkQuery (Some l) (Some (o + l))) = o + l).
  { unfold Comments.parsedOffset. cbn [q_offset].
    destruct (o + l) eqn:E; simpl; lia. }
  rewrite L1, L2, L3, !O1, O2. unfold Prisma.findMany.
  rewrite <- map_app, window_twice by lia. reflexivity.
Qed.

Lemma comment_pages_join_witness :
  exists first second both,
    Comments.listCommentsForPost Sample.thread (Paging.comments 3 1 1) = Ok first
    /\ Comments.listCommentsForPost
         (CommentsCrud.withComments (rev (Db.comments Sample.thread)) Sample.thread)
         (Paging.comments 3 1 2) = Ok second
    /\ Comments.listCommentsForPost Sample.thread (Paging.comments 3 2 1) = Ok both
    /\ Comments.comments first ++ Comments.comments second = Comments.comments both.
Proof.
  do 3 eexists.
  split; [vm_compute; reflexivity|].
  split; [vm_compute; reflexivity|].
  split; [vm_compute; reflexivity|].
  apply (@comment_pages_join
           Sample.thread
           (CommentsCrud.withComments (rev (Db.comments Sample.thread)) Sample.thread)
           Sample.thread 3 1 1); try lia; try (vm_compute; reflexivity).
  - intros a b Ha Hb _ _. simpl in Ha, Hb.
    destruct Ha as [<-|[<-|[<-|[]]]], Hb as [<-|[<-|[<-|[]]]];
      simpl; intros T; try reflexivity; discriminate.
  - repeat (split; [reflexivity|]). apply Permutation_rev.
  - repeat (split; [reflexivity|]). apply Permutation_refl.
Defined.

(** ** The address check of the contact form *)

Section EmailFacts.
Import Contact.
Local Open Scope string_scope.

Lemma allPart_app (a b : string) : allPart (a ++ b) = allPart a && allPart b.
Proof.
  induction a as [|c a IH]; simpl; [reflexivity|].
  now rewrite IH, andb_assoc.
Qed.

Lemma nonEmpty_iff (s : string) : nonEmpty s = true <-> s <> EmptyString.
Proof. destruct s; simpl; split; intros H; congruence. Qed.

Lemma dotInside_intro (b c : string) :
  c <> EmptyString -> dotInside (b ++ "." ++ c) = true.
Proof.
  intros Hc. induction b as [|x b IH]; simpl in *.
  - apply nonEmpty_iff in Hc. now rewrite Hc.
  - rewrite IH. apply orb_true_r.
Qed.

Lemma dotInside_elim (s : string) :
  dotInside s = true ->
  exists b c, s = b ++ "." ++ c /\ c <> EmptyString.
Proof.
  induction s as [|x s IH]; simpl; [discriminate|].
  intros H. apply orb_true_iff in H. destruct H as [H|H].
  - apply andb_true_iff in H. destruct H as [H1 H2].
    apply Ascii.eqb_eq in H1. subst x. apply nonEmpty_iff in H2.
    now exists EmptyString, s.
  - destruct (IH H) as (b & c & -> & Hc). now exists (String x b), c.
Qed.

Lemma matchDomain_iff (d : string) :
  matchDomain d = true <->
  exists b c, d = b ++ "." ++ c /\ part b /\ part c.
Proof.
  unfold matchDomain, part. split.
  - intros H. apply andb_true_iff in H. destruct H as [Ha Hd].
    destruct d as [|x d]; [discriminate|].
    destruct (dotInside_elim _ Hd) as (b & c & -> & Hc).
    exists (String x b), c. split; [reflexivity|].
    change (String x (b ++ "." ++ c)) with (String x b ++ "." ++ c) in Ha.
    rewrite allPart_app in Ha. apply andb_true_iff in Ha. destruct Ha as [Hb Ha].
    assert (Hc' : allPart c = true) by exact Ha.
    repeat split; auto; discriminate.
  - intros (b & c & -> & [Hb Hb'] & [Hc Hc']).
    destruct b as [|x b]; [contradiction|].
    rewrite allPart_app, Hb'. simpl. rewrite Hc'. simpl.
    now apply dotInside_intro.
Qed.

Lemma partChar_not_at (c : ascii) : partChar c = true -> Ascii.eqb c "@" = false.
Proof.
  unfold partChar. intros H. apply andb_true_iff in H.
  now apply negb_true_iff.
Qed.

Lemma matchFrom_iff (s : string) (seen : bool) :
  matchFrom s seen = true <->
  exists a d, s = a ++ "@" ++ d /\ allPart a = true
              /\ (seen = true \/ a <> EmptyString) /\ matchDomain d = true.
Proof.
  revert seen. induction s as [|c s IH]; intros seen; simpl.
  - split; [discriminate|]. intros (a & d & E & _). destruct a; discriminate.
  - destruct (Ascii.eqb c "@") eqn:E.
    + apply Ascii.eqb_eq in E. subst c. split.
      * intros H. apply andb_true_iff in H. destruct H as [-> H].
        exists EmptyString, s. auto.
      * intros (a & d & Hs & Ha & Hseen & Hd). destruct a as [|x a].
        -- simpl in Hs. injection Hs as <-.
           destruct Hseen as [->|Hn]; [now rewrite Hd|contradiction].
        -- simpl in Hs. injection Hs as <- _. simpl in Ha. discriminate.
    + rewrite andb_true_iff, IH. split.
      * intros (Hc & a & d & -> & Ha & _ & Hd).
        exists (String c a), d. simpl. rewrite Hc, Ha.
        repeat split; auto. right. discriminate.
      * intros (a & d & Hs & Ha & _ & Hd). destruct a as [|x a].
        -- simpl in Hs. injection Hs as -> _. simpl in E. discriminate.
        -- simpl in Hs. injection Hs as <- ->. simpl in Ha.
           apply andb_true_iff in Ha. destruct Ha as [Hx Ha].
           split; [exact Hx|]. exists a, d. auto.
Qed.

Lemma occurrences_app (c : ascii) (a b : string) :
  occurrences c (a ++ b) = (occurrences c a + occurrences c b)%nat.
Proof. induction a as [|x a IH]; simpl; [reflexivity|]. rewrite IH. lia. Qed.

Lemma hasWhiteSpace_app (a b : string) :
  hasWhiteSpace (a ++ b) = hasWhiteSpace a || hasWhiteSpace b.
Proof.
  induction a as [|x a IH]; simpl; [reflexivity|]. now rewrite IH, orb_assoc.
Qed.

Lemma allPart_clean (a : string) :
  allPart a = true -> occurrences "@" a = O /\ hasWhiteSpace a = false.
Proof.
  induction a as [|x a IH]; simpl; [auto|].
  intros H. apply andb_true_iff in H. destruct H as [Hx Ha].
  destruct (IH Ha) as [-> ->]. rewrite (partChar_not_at _ Hx).
  unfold partChar in Hx. apply andb_true_iff in Hx. destruct Hx as [Hx _].
  apply negb_true_iff in Hx. now rewrite Hx.
Qed.
End EmailFacts.

Lemma emailRegex_shape (s : string) :
  Contact.emailRegex_test s = true <-> Contact.emailShape s.
Proof.
  unfold Contact.emailRegex_test, Contact.emailShape. rewrite matchFrom_iff.
  split.
  - intros (a & d & -> & Ha & [Hs|Hs] & Hd); [discriminate|].
    apply matchDomain_iff in Hd. destruct Hd as (b & c & -> & Hb & Hc).
    exists a, b, c. unfold Contact.part. auto.
  - intros (a & b & c & -> & [Ha Ha'] & Hb & Hc).
    exists a, (b ++ "." ++ c)%string. repeat split; auto.
    apply matchDomain_iff. now exists b, c.
Qed.

(** X18. The contact form's address check accepts exactly the strings
    made of a non-empty run of characters other than white space and at
    signs, an at sign, another such run, a dot, and a third such run; so
    an accepted address holds exactly one at sign and no white space. *)
Theorem email_check_accepts_the_pattern :
  forall s : string,
    (Contact.emailRegex_test s = true <-> Contact.emailShape s)
    /\ (Contact.emailRegex_test s = true ->
        Contact.occurrences "@" s = 1%nat /\ Contact.hasWhiteSpace s = false).
Proof.
  intros s. pose proof (emailRegex_shape s) as Iff.
  split; [exact Iff|]. intros H. apply Iff in H.
  destruct H as (a & b & c & -> & [_ Ha] & [_ Hb] & [_ Hc]).
  apply allPart_clean in Ha, Hb, Hc.
  destruct Ha as [A1 A2], Hb as [B1 B2], Hc as [C1 C2].
  rewrite !occurrences_app, !hasWhiteSpace_app, A1, A2, B1, B2, C1, C2.
  split; reflexivity.
Qed.

Lemma email_check_accepts_the_pattern_witness :
  Contact.emailRegex_test "ada@example.org" = true
  /\ Contact.occurrences "@" "ada@example.org" = 1%nat
  /\ Contact.emailRegex_test "ada@example" = false
  /\ Contact.emailRegex_test "a da@example.org" = false.
Proof.
  split; [reflexivity|]. split; [|split; reflexivity].
  apply (proj2 (email_check_accepts_the_pattern "ada@example.org")).
  reflexivity.
Defined.

(** ** Submitting the contact form *)

(** X19. The contact form hands a mail to the transport only for a
    complete submission: four string fields that are not empty once
    trimmed, a trimmed address of the accepted pattern, and a recipient
    configured in [CONTACT_EMAIL_TO]. The mail then goes to that
    recipient with the trimmed subject behind the [[LearnLoop Contact]]
    prefix, the answer is 200 exactly when the transport accepted it, and
    every 400 is given before any mail is made. *)
Theorem contact_form_sends_only_complete_submissions :
  forall (sendMail : Contact.Transport -> Contact.Mail -> bool)
         (env : Contact.Env) (body : Contact.Body),
    let o := Contact.submitContactForm sendMail env body in
    (forall t m,
        Contact.handed o = Some (t, m) ->
        exists n e s msg,
          Contact.name body = Contact.Text n
          /\ Contact.email body = Contact.Text e
          /\ Contact.subject body = Contact.Text s
          /\ Contact.message body = Contact.Text msg
          /\ JsString.trim n <> EmptyString
          /\ JsString.trim s <> EmptyString
          /\ JsString.trim msg <> EmptyString
          /\ Contact.emailShape (JsString.trim e)
          /\ Contact.CONTACT_EMAIL_TO env = Some (Contact.to m)
          /\ Contact.to m <> EmptyString
          /\ Contact.mailSubject m
             = ("[LearnLoop Contact] " ++ JsString.trim s)%string
          /\ Contact.from m = Contact.SMTP_USER env
          /\ Contact.port t = Js.orElse (Contact.SMTP_PORT env) 587
          /\ ((exists ok, Contact.reply o = Contact.Success ok)
              <-> sendMail t m = true))
    /\ (forall ok, Contact.reply o = Contact.Success ok ->
                   exists t m, Contact.handed o = Some (t, m)
                               /\ sendMail t m = true)
    /\ (forall status error msg,
           Contact.reply o = Contact.Failure status error msg ->
           (status = 400 \/ status = 500)
           /\ (status = 400 -> Contact.handed o = None)).
Proof.
  intros sendMail env body o. subst o. unfold Contact.submitContactForm.
  destruct (Contact.falsy (Contact.name body) || Contact.falsy (Contact.email body)
            || Contact.falsy (Contact.subject body)
            || Contact.falsy (Contact.message body)) eqn:F.
  { simpl. split; [discriminate|]. split; [discriminate|].
    intros status error msg [= <- _ _]. auto. }
  destruct (Contact.name body) as [|n|], (Contact.email body) as [|e|],
           (Contact.subject body) as [|s|], (Contact.message body) as [|msg|];
    try (simpl; split; [discriminate|]; split; [discriminate|];
         intros status error m [= <- _ _]; split; [auto|discriminate]).
  destruct (negb (Contact.nonEmpty (JsString.trim n))
            || negb (Contact.nonEmpty (JsString.trim e))
            || negb (Contact.nonEmpty (JsString.trim s))
            || negb (Contact.nonEmpty (JsString.trim msg))) eqn:N.
  { simpl. split; [discriminate|]. split; [discriminate|].
    intros status error m [= <- _ _]. auto. }
  apply orb_false_iff in N. destruct N as [N Nm].
  apply orb_false_iff in N. destruct N as [N Ns].
  apply orb_false_iff in N. destruct N as [Nn Ne].
  apply negb_false_iff in Nn, Ne, Ns, Nm.
  apply nonEmpty_iff in Nn. apply nonEmpty_iff in Ne.
  apply nonEmpty_iff in Ns. apply nonEmpty_iff in Nm.
  destruct (Contact.emailRegex_test (JsString.trim e)) eqn:R; simpl.
  2:{ split; [discriminate|]. split; [discriminate|].
      intros status error m [= <- _ _]. auto. }
  apply emailRegex_shape in R.
  destruct (Contact.CONTACT_EMAIL_TO env) as [recipient|] eqn:C.
  2:{ simpl. split; [discriminate|]. split; [discriminate|].
      intros status error m [= <- _ _]. split; [auto|discriminate]. }
  destruct (Contact.nonEmpty recipient) eqn:Nr; simpl.
  2:{ split; [discriminate|]. split; [discriminate|].
      intros status error m [= <- _ _]. split; [auto|discriminate]. }
  apply nonEmpty_iff in Nr.
  destruct (sendMail _ _) eqn:S; simpl.
  - split; [|split].
    + intros t m [= <- <-]. exists n, e, s, msg. simpl.
      repeat (split; [solve [auto]|]). intros _. eexists. reflexivity.
    + intros ok _. do 2 eexists. split; [reflexivity|exact S].
    + discriminate.
  - split; [|split].
    + intros t m [= <- <-]. exists n, e, s, msg. simpl.
      repeat (split; [solve [auto]|]). rewrite S.
      split; [intros [ok H]; discriminate|discriminate].
    + discriminate.
    + intros status error m [= <- _ _]. split; [auto|discriminate].
Qed.

Lemma contact_form_sends_only_complete_submissions_witness :
  exists t m,
    Contact.handed (Contact.submitContactForm (fun _ _ => true)
                      Contact.sampleEnv Contact.sampleBody) = Some (t, m)
    /\ Contact.to m = "team@learnloop.test"%string
    /\ Contact.mailSubject m = "[LearnLoop Contact] Hello"%string
    /\ Contact.emailShape "ada@example.org".
Proof.
  do 2 eexists. split; [vm_compute; reflexivity|].
  split; [reflexivity|]. split; [reflexivity|].
  edestruct (proj1 (contact_form_sends_only_complete_submissions
                      (fun _ _ => true) Contact.sampleEnv Contact.sampleBody))
    as (n & e & s & msg & _ & He & _ & _ & _ & _ & _ & Hshape & _).
  - vm_compute. reflexivity.
  - injection He as <-. exact Hshape.
Defined.

(** ** Bootstrapping the system users *)

Section BootstrapFacts.
Import Bootstrap.
Variable hash : string -> string.
Variable newId : list Account -> string.

(** What one block of the script does to the table. *)
Lemma ensure_cases e p name role table :
  ensure hash newId e p name role table = Some table
  \/ (exists userEmail userPassword,
         e = Some userEmail /\ p = Some userPassword
         /\ userEmail <> EmptyString
         /\ findByEmail userEmail table = None
         /\ let a := mkAccount (newId table) userEmail name (hash userPassword)
                               role true true in
            (existsb (clashes a) table = false
             /\ ensure hash newId e p name role table = Some (table ++ [a])
             \/ existsb (clashes a) table = true
                /\ ensure hash newId e p name role table = None)).
Proof.
  unfold ensure.
  destruct (JsString.falsy e || JsString.falsy p) eqn:F; [now left|].
  apply orb_false_iff in F. destruct F as [Fe Fp].
  destruct e as [userEmail|], p as [userPassword|]; try now left.
  destruct (findByEmail userEmail table) eqn:G; [now left|].
  right. exists userEmail, userPassword.
  split; [reflexivity|]. split; [reflexivity|].
  split; [destruct userEmail; [discriminate Fe|discriminate]|].
  split; [exact G|].
  unfold create. simpl.
  destruct (existsb _ table); [right|left]; auto.
Qed.

Lemma findByEmail_app e (l1 l2 : list Account) a :
  findByEmail e l1 = Some a -> findByEmail e (l1 ++ l2) = Some a.
Proof.
  unfold findByEmail. induction l1 as [|x l1 IH]; simpl; [discriminate|].
  destruct (String.eqb (email x) e); auto.
Qed.

Lemma findByEmail_last e (l : list Account) a :
  email a = e -> exists b, findByEmail e (l ++ [a]) = Some b.
Proof.
  intros E. unfold findByEmail. induction l as [|x l IH]; simpl.
  - rewrite E, String.eqb_refl. eauto.
  - destruct (String.eqb (email x) e); eauto.
Qed.

(** A block whose user is in the table leaves the table alone. *)
Lemma ensure_present e p name role table a :
  (forall userEmail, e = Some userEmail -> findByEmail userEmail table = Some a) ->
  ensure hash newId e p name role table = Some table.
Proof.
  intros H. unfold ensure.
  destruct (JsString.falsy e || JsString.falsy p); [reflexivity|].
  destruct e as [userEmail|], p; try reflexivity.
  now rewrite (H userEmail eq_refl).
Qed.
End BootstrapFacts.

Section BootstrapRuns.
Import Bootstrap.
Variable hash : string -> string.
Variable newId : list Account -> string.

Lemma app_one_neq (A : Type) (l : list A) (a : A) : l ++ [a] <> l.
Proof.
  intros E. apply (f_equal (@List.length A)) in E.
  rewrite length_app in E. simpl in E. lia.
Qed.

(** A block only ever appends, and at most one row. *)
Lemma ensure_appends e p name role table table' :
  ensure hash newId e p name role table = Some table' ->
  table' = table
  \/ exists a, table' = table ++ [a]
               /\ existsb (clashes a) table = false
               /\ e = Some (email a) /\ username a = name /\ Bootstrap.role a = role
               /\ emailVerified a = true /\ isVerified a = true
               /\ id a = newId table
               /\ exists password, p = Some password /\ hashedPassword a = hash password.
Proof.
  intros H.
  destruct (ensure_cases hash newId e p name role table)
    as [E|(ue & up & -> & -> & _ & _ & [[Hc E]|[_ E]])];
    rewrite E in H; try discriminate; injection H as <-; [now left|].
  right. eexists. split; [reflexivity|]. simpl. repeat split; eauto.
Qed.

(** Once a block has run through, it does nothing on any later table. *)
Lemma ensure_settled e p name role table table' (l : list Account) :
  ensure hash newId e p name role table = Some table' ->
  ensure hash newId e p name role (table' ++ l) = Some (table' ++ l).
Proof.
  unfold ensure.
  destruct (JsString.falsy e || JsString.falsy p); [reflexivity|].
  destruct e as [ue|], p as [up|]; try reflexivity.
  destruct (findByEmail ue table) as [a|] eqn:F.
  - intros [= <-]. now rewrite (findByEmail_app _ _ l F).
  - unfold create. destruct (existsb _ table); [discriminate|].
    intros [= <-].
    destruct (@findByEmail_last ue table
                (mkAccount (newId table) ue name (hash up) role true true) eq_refl)
      as [b Hb].
    now rewrite (findByEmail_app _ _ l Hb).
Qed.

Lemma bootstrap_cases env table :
  let sys := ensure hash newId (SYSTEM_USER_EMAIL env) (SYSTEM_USER_PASSWORD env)
                    "LearnLoop" "SYSTEM" in
  let bot := ensure hash newId (BOT_USER_EMAIL env) (BOT_USER_PASSWORD env)
                    "LearnLoop Bot" "BOT" in
  (sys table = None /\ bootstrapSystemUsers hash newId env table = table)
  \/ (exists t1, sys table = Some t1 /\ bot t1 = None
                 /\ bootstrapSystemUsers hash newId env table = t1)
  \/ (exists t1 t2, sys table = Some t1 /\ bot t1 = Some t2
                    /\ bootstrapSystemUsers hash newId env table = t2).
Proof.
  intros sys bot. unfold bootstrapSystemUsers. fold sys.
  destruct (sys table) as [t1|]; [|now left]. fold bot.
  destruct (bot t1) as [t2|] eqn:B; right; [right|left]; eauto.
Qed.
End BootstrapRuns.

(** X20. The bootstrap script is idempotent: run on the table it left
    behind, it leaves that table as it is, whatever the environment, the
    hashes and the keys the database hands out. *)
Theorem bootstrap_idempotent :
  forall (hash : string -> string)
         (newId : list Bootstrap.Account -> string)
         (env : Bootstrap.Env) (table : list Bootstrap.Account),
    Bootstrap.bootstrapSystemUsers hash newId env
      (Bootstrap.bootstrapSystemUsers hash newId env table)
    = Bootstrap.bootstrapSystemUsers hash newId env table.
Proof.
  intros hash newId env table.
  destruct (bootstrap_cases hash newId env table)
    as [[S ->]|[(t1 & S & B & ->)|(t1 & t2 & S & B & ->)]].
  - unfold Bootstrap.bootstrapSystemUsers. now rewrite S.
  - unfold Bootstrap.bootstrapSystemUsers.
    pose proof (ensure_settled hash newId _ _ _ _ _ [] S) as S'.
    rewrite app_nil_r in S'. now rewrite S', B.
  - unfold Bootstrap.bootstrapSystemUsers.
    assert (exists l, t2 = t1 ++ l) as [l ->].
    { destruct (ensure_appends hash newId _ _ _ _ _ B) as [->|(a & -> & _)];
        [exists []; now rewrite app_nil_r|now exists [a]]. }
    rewrite (ensure_settled hash newId _ _ _ _ _ l S).
    pose proof (ensure_settled hash newId _ _ _ _ _ [] B) as B'.
    rewrite app_nil_r in B'. now rewrite B'.
Qed.

Section BootstrapKeys.
Import Bootstrap.

Lemma NoDup_app_one (K : Type) (l : list K) (k : K) :
  NoDup l -> ~ In k l -> NoDup (l ++ [k]).
Proof.
  intros Hl Hk. apply NoDup_app; [exact Hl|repeat constructor; simpl; tauto|].
  intros x Hx [<-|[]]. contradiction.
Qed.

Lemma no_clash_fresh (a : Account) (table : list Account) :
  existsb (clashes a) table = false ->
  ~ In (id a) (map id table) /\ ~ In (email a) (map email table)
  /\ ~ In (username a) (map username table).
Proof.
  intros H.
  assert (forall b, In b table -> clashes a b = false).
  { intros b Hb. destruct (clashes a b) eqn:E; [|reflexivity].
    assert (existsb (clashes a) table = true)
      by (apply existsb_exists; eauto).
    congruence. }
  repeat split; intros Hin; apply in_map_iff in Hin;
    destruct Hin as (b & E & Hb); apply H0 in Hb; unfold clashes in Hb;
    rewrite E, String.eqb_refl in Hb; simpl in Hb;
    rewrite ?orb_true_r in Hb; discriminate.
Qed.
End BootstrapKeys.

Section BootstrapWrites.
Import Bootstrap.
Variable hash : string -> string.
Variable newId : list Account -> string.

Lemma ensure_wellKeyed e p name role table table' :
  ensure hash newId e p name role table = Some table' ->
  wellKeyed table -> wellKeyed table'.
Proof.
  intros H W. destruct (ensure_appends hash newId _ _ _ _ _ H)
    as [->|(a & -> & Hc & _)]; [exact W|].
  destruct W as (W1 & W2 & W3).
  destruct (no_clash_fresh _ _ Hc) as (F1 & F2 & F3).
  unfold wellKeyed. rewrite !map_app. simpl.
  repeat split; now apply NoDup_app_one.
Qed.
End BootstrapWrites.

(** X21. The bootstrap script only appends: it leaves every row of the
    table as it is and adds at most two accounts, each verified, named
    and given the role of the system user or of the bot user, with the
    email of the environment and the hash of its password; and the table
    keeps its ids, emails and usernames unique. *)
Theorem bootstrap_appends_system_accounts :
  forall (hash : string -> string)
         (newId : list Bootstrap.Account -> string)
         (env : Bootstrap.Env) (table : list Bootstrap.Account),
    (exists added,
        Bootstrap.bootstrapSystemUsers hash newId env table = table ++ added
        /\ (List.length added <= 2)%nat
        /\ forall a, In a added ->
             Bootstrap.emailVerified a = true
             /\ Bootstrap.isVerified a = true
             /\ (Bootstrap.username a = "LearnLoop"%string
                 /\ Bootstrap.role a = "SYSTEM"%string
                 /\ Bootstrap.SYSTEM_USER_EMAIL env = Some (Bootstrap.email a)
                 /\ (exists password,
                        Bootstrap.SYSTEM_USER_PASSWORD env = Some password
                        /\ Bootstrap.hashedPassword a = hash password)
                 \/ Bootstrap.username a = "LearnLoop Bot"%string
                    /\ Bootstrap.role a = "BOT"%string
                    /\ Bootstrap.BOT_USER_EMAIL env = Some (Bootstrap.email a)
                    /\ (exists password,
                           Bootstrap.BOT_USER_PASSWORD env = Some password
                           /\ Bootstrap.hashedPassword a = hash password)))
    /\ (Bootstrap.wellKeyed table ->
        Bootstrap.wellKeyed (Bootstrap.bootstrapSystemUsers hash newId env table)).
Proof.
  intros hash newId env table.
  destruct (bootstrap_cases hash newId env table)
    as [[S ->]|[(t1 & S & B & ->)|(t1 & t2 & S & B & ->)]].
  - split; [|auto]. exists []. rewrite app_nil_r.
    split; [reflexivity|]. split; [simpl; lia|]. intros a [].
  - split; [|intros W; eapply ensure_wellKeyed; eauto].
    destruct (ensure_appends hash newId _ _ _ _ _ S)
      as [->|(a & -> & _ & He & Hn & Hr & Hv & Hi & _ & pw & Hp & Hh)].
    + exists []. rewrite app_nil_r.
      split; [reflexivity|]. split; [simpl; lia|]. intros a [].
    + exists [a]. split; [reflexivity|]. split; [simpl; lia|].
      intros b [<-|[]]. repeat split; auto. left. repeat split; eauto.
  - split.
    2:{ intros W. eapply ensure_wellKeyed; [exact B|].
        eapply ensure_wellKeyed; eauto. }
    destruct (ensure_appends hash newId _ _ _ _ _ S)
      as [->|(a & -> & _ & He & Hn & Hr & Hv & Hi & _ & pw & Hp & Hh)];
      destruct (ensure_appends hash newId _ _ _ _ _ B)
        as [->|(b & -> & _ & He' & Hn' & Hr' & Hv' & Hi' & _ & pw' & Hp' & Hh')].
    + exists []. rewrite app_nil_r.
      split; [reflexivity|]. split; [simpl; lia|]. intros a [].
    + exists [b]. split; [reflexivity|]. split; [simpl; lia|].
      intros c [<-|[]]. repeat split; auto. right. repeat split; eauto.
    + exists [a]. split; [reflexivity|]. split; [simpl; lia|].
      intros c [<-|[]]. repeat split; auto. left. repeat split; eauto.
    + exists [a; b]. split; [now rewrite <- app_assoc|]. split; [simpl; lia|].
      intros c [<-|[<-|[]]]; repeat split; auto;
        [left|right]; repeat split; eauto.
Qed.

Lemma bootstrap_appends_system_accounts_witness :
  Bootstrap.wellKeyed
    (Bootstrap.bootstrapSystemUsers Bootstrap.sampleHash Bootstrap.sampleId
                                    Bootstrap.sampleEnv [])
  /\ map Bootstrap.username
         (Bootstrap.bootstrapSystemUsers Bootstrap.sampleHash Bootstrap.sampleId
                                         Bootstrap.sampleEnv [])
     = ["LearnLoop"; "LearnLoop Bot"]%string.
Proof.
  split; [|reflexivity].
  apply (proj2 (bootstrap_appends_system_accounts
                  Bootstrap.sampleHash Bootstrap.sampleId Bootstrap.sampleEnv [])).
  repeat split; constructor.
Defined.

(** X22. A name clash ends the bootstrap script early: when the system
    user is configured and missing but another account holds the username
    [LearnLoop], the create throws and the script writes nothing, not the
    bot user either, however it is configured. *)
Theorem bootstrap_stops_at_name_clash :
  forall (hash : string -> string)
         (newId : list Bootstrap.Account -> string)
         (env : Bootstrap.Env) (table : list Bootstrap.Account)
         (userEmail userPassword : string) (other : Bootstrap.Account),
    Bootstrap.SYSTEM_USER_EMAIL env = Some userEmail ->
    Bootstrap.SYSTEM_USER_PASSWORD env = Some userPassword ->
    userEmail <> EmptyString ->
    userPassword <> EmptyString ->
    Bootstrap.findByEmail userEmail table = None ->
    In other table ->
    Bootstrap.username other = "LearnLoop"%string ->
    Bootstrap.bootstrapSystemUsers hash newId env table = table.
Proof.
  intros hash newId env table ue up other He Hp Hne Hnp Hf Hin Hname.
  unfold Bootstrap.bootstrapSystemUsers, Bootstrap.ensure.
  rewrite He, Hp.
  destruct ue; [contradiction|]. destruct up; [contradiction|]. simpl.
  rewrite Hf. unfold Bootstrap.create.
  set (account := Bootstrap.mkAccount _ _ _ _ _ _ _).
  assert (E : existsb (Bootstrap.clashes account) table = true).
  { apply existsb_exists. exists other. split; [exact Hin|].
    unfold Bootstrap.clashes. rewrite Hname. simpl. apply orb_true_r. }
  now rewrite E.
Qed.

Lemma bootstrap_stops_at_name_clash_witness :
  Bootstrap.bootstrapSystemUsers Bootstrap.sampleHash Bootstrap.sampleId
                                 Bootstrap.sampleEnv [Bootstrap.squatter]
  = [Bootstrap.squatter].
Proof.
  apply (@bootstrap_stops_at_name_clash
           Bootstrap.sampleHash Bootstrap.sampleId Bootstrap.sampleEnv
           [Bootstrap.squatter] "system@learnloop.test" "s3cret"
           Bootstrap.squatter);
    try reflexivity; try discriminate.
  simpl. tauto.
Defined.

(** ** Reading one comment *)

Lemma find_by_unique_id (l : list Comment.t) (c : Comment.t) :
  NoDup (map Comment.id l) -> In c l ->
  find (CommentsCrud.byId (Comment.id c)) l = Some c.
Proof.
  induction l as [|x l IH]; simpl; [tauto|].
  intros Hnd Hc. inversion Hnd as [|? ? Hx Hl]; subst.
  unfold CommentsCrud.byId at 1.
  destruct Hc as [->|Hc]; [now rewrite Z.eqb_refl|].
  destruct (Comment.id x =? Comment.id c) eqn:E; [|auto].
  apply Z.eqb_eq in E. exfalso. apply Hx. rewrite E. now apply in_map.
Qed.

(** X23. [getCommentById] answers 400 for an id that is not a number,
    500 for one beyond the [INTEGER] range, 404 for one within it exactly
    when no stored comment has it, and with ids unique it returns every
    stored comment under its id, hidden or not, to whoever asks, together
    with the number of votes on it. *)
Theorem getCommentById_answers :
  forall db : Db.t,
    CommentsCrud.getCommentById db None = Error 400 "Invalid comment ID format"
    /\ (forall id,
           Prisma.int4 id = false ->
           CommentsCrud.getCommentById db (Some id)
           = Error 500 "Internal server error while fetching comment")
    /\ (forall id,
           Prisma.int4 id = true ->
           (CommentsCrud.getCommentById db (Some id) = Error 404 "Comment not found"
            <-> ~ In id (map Comment.id (Db.comments db))))
    /\ (forall c,
           NoDup (map Comment.id (Db.comments db)) ->
           In c (Db.comments db) ->
           Prisma.int4 (Comment.id c) = true ->
           exists d,
             CommentsCrud.getCommentById db (Some (Comment.id c)) = Ok d
             /\ CommentsCrud.d_comment d = c
             /\ CommentsCrud.d_votes d
                = Prisma.count
                    (fun v => Prisma.optZ_eqb (Vote.commentId v) (Comment.id c))
                    (Db.votes db)).
Proof.
  intros db. split; [reflexivity|]. split; [|split].
  - intros id Hi. unfold CommentsCrud.getCommentById. now rewrite Hi.
  - intros id Hi. unfold CommentsCrud.getCommentById, Prisma.findFirst.
    rewrite Hi. simpl.
    destruct (find _ (Db.comments db)) as [c|] eqn:F.
    + split; [discriminate|]. intros H. exfalso. apply H.
      apply find_some in F. destruct F as [Hc F].
      unfold CommentsCrud.byId in F. apply Z.eqb_eq in F. rewrite <- F.
      now apply in_map.
    + split; [|reflexivity]. intros _ Hin. apply in_map_iff in Hin.
      destruct Hin as (c & E & Hc). apply (find_none _ _ F) in Hc.
      unfold CommentsCrud.byId in Hc. rewrite E, Z.eqb_refl in Hc. discriminate.
  - intros c Hnd Hc Hi. unfold CommentsCrud.getCommentById, Prisma.findFirst.
    rewrite Hi. simpl.
    rewrite (find_by_unique_id _ _ Hnd Hc). eexists. repeat split.
Qed.

Lemma getCommentById_answers_witness :
  Comment.isHidden Sample.c2 = true
  /\ exists d,
      CommentsCrud.getCommentById Sample.thread (Some 2) = Ok d
      /\ CommentsCrud.d_comment d = Sample.c2.
Proof.
  split; [reflexivity|].
  destruct (proj2 (proj2 (proj2 (getCommentById_answers Sample.thread))) Sample.c2)
    as (d & Hd & Hc & _).
  - repeat constructor; simpl; intuition discriminate.
  - simpl. tauto.
  - reflexivity.
  - exists d. split; [exact Hd|exact Hc].
Defined.
